(** * ROI baseline and performance-fee service

    A shallow embedding of [ROIBaselineService] from
    [sales_funnel_roi_service.py], and the properties of its fee engine.

    Numbers.  Python's [int] and [float] values are read as exact rationals
    ([Q]); comparisons are the decidable ones of [QArith].  Every division of
    the source is guarded by a test that its divisor is positive or non-zero,
    so the total division of [Q] is never used at 0.  A float computation
    differs from the exact one by its rounding, so the properties of computed
    values are stated as bounds with a margin, or with the expression the
    source itself evaluates, and not as identities between two different
    expressions.

    Dictionaries.  A dict of numbers is a [gmap string Q]; [d.get(k, v)] is
    [dict_get d k v].  The improvement map is a [gmap string ImprovementEntry]
    whose entries may lack any of their keys, and the fee breakdown is a
    [gmap string BreakdownItem].

    Payloads.  The payloads of the service are dicts of numbers within the
    float range.  On another payload (a string where a number is expected,
    an integer beyond the float range) the arithmetic raises, and the
    handler of the operation returns the failure with the text of the
    exception before anything is written; such payloads have no
    representation here. *)

From Stdlib Require Import QArith Qround Qabs ZArith Ascii String Lia Lqa.
From Stdlib Require Import DecimalString.
From stdpp Require Import gmap strings fin_maps.

Open Scope Q_scope.

(** ** Python primitives *)

Module Py.

(** [x > y] *)
Definition gt (x y : Q) : bool := negb (Qle_bool x y).

(** [max(a, b)]: the first argument unless the second is greater. *)
Definition max (a b : Q) : Q := if gt b a then b else a.

(** [min(a, b)]: the first argument unless the second is smaller. *)
Definition min (a b : Q) : Q := if gt a b then b else a.

(** [d.get(k, v)] *)
Definition dict_get {V} (d : gmap string V) (k : string) (v : V) : V :=
  match d !! k with Some x => x | None => v end.

(** [d.update({k1: v1, ...})]: the assignments in order. *)
Definition dict_update {V} (d : gmap string V) (kvs : list (string * V))
  : gmap string V :=
  foldl (fun acc kv => <[kv.1 := kv.2]> acc) d kvs.

(** Nearest integer, ties to the even neighbour. *)
Definition round_half_even (q : Q) : Z :=
  let f := Qfloor q in
  let r := q - inject_Z f in
  if gt (1 # 2) r then f
  else if gt r (1 # 2) then (f + 1)%Z
  else if Z.even f then f else (f + 1)%Z.

(** [round(x, 2)] on a float: the exact value of [x] is rounded to the
    nearest multiple of 1/100, ties to even. *)
Definition round2 (x : Q) : Q := inject_Z (round_half_even (x * 100)) / 100.

(** [Decimal.quantize(Decimal('0.01'), ROUND_HALF_UP)]: nearest multiple of
    1/100, ties away from zero.  The source imports [ROUND_HALF_UP] and does
    not call it; this definition is the rounding the specification names. *)
Definition round_half_up (q : Q) : Z :=
  if gt 0 q then (- Qfloor (- q + (1 # 2)))%Z else Qfloor (q + (1 # 2)).

Definition round2_half_up (x : Q) : Q :=
  inject_Z (round_half_up (x * 100)) / 100.

End Py.

(** ** Standardization mapper *)

(** [self.minimum_improvement_threshold] *)
Definition minimum_improvement_threshold : Q := 0.05.

(** [self.performance_fee_rates.get(plan_name, 0.05)] *)
Definition performance_fee_rates (plan_name : string) : Q :=
  if String.eqb plan_name "starter" then 0.05
  else if String.eqb plan_name "professional" then 0.07
  else if String.eqb plan_name "enterprise" then 0.10
  else 0.05.

Definition _estimate_cac (revenue customers : Q) : Q :=
  if Qeq_bool customers 0 then 0.0
  else (revenue * 0.20) / customers.

Definition _estimate_cost_per_lead (leads : Q) : Q :=
  if Qeq_bool leads 0 then 0.0
  else Py.min 25.0 (1000.0 / leads).

(** The dict literal [_standardize_baseline_metrics] starts from. *)
Definition standardized_init : gmap string Q :=
  Py.dict_update ∅
    [ ("total_revenue", 0.0); ("total_transactions", 0);
      ("conversion_rate", 0.0); ("average_order_value", 0.0);
      ("total_leads", 0); ("cost_per_lead", 0.0);
      ("customer_acquisition_cost", 0.0); ("lifetime_value", 0.0);
      ("roi_percentage", 0.0); ("operational_costs", 0.0) ].

(** The [if platform == ... elif ...] cascade. *)
Definition platform_update (platform : string)
    (metrics baseline_data : gmap string Q) (standardized : gmap string Q)
  : gmap string Q :=
  let get := Py.dict_get in
  if String.eqb platform "shopify" then
    Py.dict_update standardized
      [ ("total_revenue", get metrics "total_revenue" 0);
        ("total_transactions", get metrics "total_orders" 0);
        ("conversion_rate", get baseline_data "conversion_rate" 0);
        ("average_order_value", get metrics "average_order_value" 0);
        ("total_leads",
          get metrics "total_orders" 0 + get metrics "abandoned_checkouts" 0);
        ("customer_acquisition_cost",
          _estimate_cac (get metrics "total_revenue" 0)
                        (get metrics "total_orders" 0));
        ("operational_costs", get metrics "total_revenue" 0 * 0.3) ]
  else if String.eqb platform "hubspot" then
    Py.dict_update standardized
      [ ("total_revenue", get metrics "total_revenue" 0);
        ("total_transactions", get metrics "closed_won_deals" 0);
        ("conversion_rate", get baseline_data "deal_close_rate" 0);
        ("average_order_value", get metrics "average_deal_value" 0);
        ("total_leads", get metrics "total_contacts" 0);
        ("cost_per_lead",
          _estimate_cost_per_lead (get metrics "total_contacts" 0));
        ("customer_acquisition_cost",
          _estimate_cac (get metrics "total_revenue" 0)
                        (get metrics "closed_won_deals" 0)) ]
  else if String.eqb platform "google_analytics" then
    let revenue := get metrics "total_revenue" 0 in
    let conversions := get metrics "total_conversions" 0 in
    let sessions := get metrics "total_sessions" 0 in
    Py.dict_update standardized
      [ ("total_revenue", revenue);
        ("total_transactions", conversions);
        ("conversion_rate", get baseline_data "conversion_rate" 0);
        ("average_order_value", revenue / Py.max 1 conversions);
        ("total_leads", sessions);
        ("cost_per_lead", _estimate_cost_per_lead sessions);
        ("customer_acquisition_cost", _estimate_cac revenue conversions) ]
  else standardized.

(** [standardized[k]] on the ten-key record: every key it is applied to is
    present (see [standardized_keys]), so the default is never returned. *)
Definition item (standardized : gmap string Q) (k : string) : Q :=
  Py.dict_get standardized k 0.

Definition roi_update (standardized : gmap string Q) : gmap string Q :=
  if Py.gt (item standardized "operational_costs") 0 then
    <["roi_percentage" :=
        ((item standardized "total_revenue"
          - item standardized "operational_costs")
         / item standardized "operational_costs") * 100]> standardized
  else standardized.

Definition lifetime_update (standardized : gmap string Q) : gmap string Q :=
  if Py.gt (item standardized "total_transactions") 0 then
    <["lifetime_value" := item standardized "average_order_value" * 2.5]>
      standardized
  else standardized.

Definition _standardize_baseline_metrics (platform : string)
    (metrics baseline_data : gmap string Q) : gmap string Q :=
  lifetime_update
    (roi_update (platform_update platform metrics baseline_data
                   standardized_init)).

Definition _calculate_performance_targets (baseline : gmap string Q)
  : gmap string (gmap string Q) :=
  let tiers (t1 t2 t3 b : Q) : gmap string Q :=
    Py.dict_update ∅
      [ ("tier_1", t1); ("tier_2", t2); ("tier_3", t3); ("baseline", b) ] in
  let base_revenue := Py.dict_get baseline "total_revenue" 0 in
  let base_conversion := Py.dict_get baseline "conversion_rate" 0 in
  let base_aov := Py.dict_get baseline "average_order_value" 0 in
  let base_roi := Py.dict_get baseline "roi_percentage" 0 in
  Py.dict_update ∅
    [ ("revenue",
        tiers (base_revenue * 1.10) (base_revenue * 1.25)
              (base_revenue * 1.50) base_revenue);
      ("conversion_rate",
        tiers (base_conversion * 1.15) (base_conversion * 1.30)
              (base_conversion * 1.50) base_conversion);
      ("average_order_value",
        tiers (base_aov * 1.10) (base_aov * 1.20) (base_aov * 1.35) base_aov);
      ("roi_percentage",
        tiers (base_roi + 15) (base_roi + 30) (base_roi + 50) base_roi) ].

(** ** Improvement comparator *)

(** One entry of the improvement map.  A field is [None] when the dict has
    no such key; the comparator always writes all five. *)
Record ImprovementEntry := {
  imp_baseline : option Q;
  imp_current : option Q;
  imp_absolute_change : option Q;
  imp_percentage : option Q;
  imp_improved : option bool
}.

(** The empty dict [{}] used as the default of [improvements.get]. *)
Definition no_entry : ImprovementEntry :=
  {| imp_baseline := None; imp_current := None; imp_absolute_change := None;
     imp_percentage := None; imp_improved := None |}.

(** [e.get('improved', False)], [e.get('percentage', 0)] and
    [e.get('absolute_change', 0)]. *)
Definition get_improved (e : ImprovementEntry) : bool :=
  match imp_improved e with Some b => b | None => false end.
Definition get_percentage (e : ImprovementEntry) : Q :=
  match imp_percentage e with Some p => p | None => 0 end.
Definition get_absolute_change (e : ImprovementEntry) : Q :=
  match imp_absolute_change e with Some a => a | None => 0 end.

Definition key_metrics : list string :=
  [ "total_revenue"; "conversion_rate"; "average_order_value";
    "roi_percentage" ].

(** The body of the loop of [_calculate_improvements] for one metric. *)
Definition improvement (baseline_value current_value : Q) : ImprovementEntry :=
  if Py.gt baseline_value 0 then
    let absolute_change := current_value - baseline_value in
    let percentage_change := (absolute_change / baseline_value) * 100 in
    {| imp_baseline := Some baseline_value;
       imp_current := Some current_value;
       imp_absolute_change := Some absolute_change;
       imp_percentage := Some percentage_change;
       imp_improved :=
         Some (Py.gt percentage_change (minimum_improvement_threshold * 100)) |}
  else
    {| imp_baseline := Some baseline_value;
       imp_current := Some current_value;
       imp_absolute_change := Some current_value;
       imp_percentage := Some 0;
       imp_improved := Some false |}.

Definition _calculate_improvements (baseline current : gmap string Q)
  : gmap string ImprovementEntry :=
  foldl
    (fun improvements metric =>
       <[metric := improvement (Py.dict_get baseline metric 0)
                               (Py.dict_get current metric 0)]> improvements)
    ∅ key_metrics.

(** ** Tiered fee calculator *)

(** The values stored in [breakdown], one constructor per key written. *)
Inductive BreakdownItem :=
| RevenueFee (incremental_revenue fee_rate fee_amount improvement_percentage : Q)
| ConversionBonus
    (improvement_percentage bonus_rate bonus_amount applied_to_revenue : Q)
| AovBonus (improvement_percentage bonus_rate bonus_amount : Q)
| FeeCapApplied (calculated_fees capped_fees cap_percentage : Q).

Record FeeCalculation := {
  total_fees : Q;
  breakdown : gmap string BreakdownItem;
  fee_qualifying : bool
}.

(** The two locals [total_fees] and [breakdown] threaded through the body. *)
Abbreviation FeeState := (Q * gmap string BreakdownItem)%type.

Definition revenue_fee_step (improvements : gmap string ImprovementEntry)
    (fee_rate : Q) '((total_fees, breakdown) : FeeState) : FeeState :=
  let revenue_improvement := Py.dict_get improvements "total_revenue" no_entry in
  if get_improved revenue_improvement then
    let incremental_revenue :=
      Py.max 0 (get_absolute_change revenue_improvement) in
    let revenue_fee := incremental_revenue * fee_rate in
    (total_fees + revenue_fee,
     <["revenue_fee" :=
         RevenueFee incremental_revenue fee_rate revenue_fee
                    (get_percentage revenue_improvement)]> breakdown)
  else (total_fees, breakdown).

Definition conversion_bonus_step (improvements : gmap string ImprovementEntry)
    (current_metrics : gmap string Q)
    '((total_fees, breakdown) : FeeState) : FeeState :=
  let conversion_improvement :=
    Py.dict_get improvements "conversion_rate" no_entry in
  if get_improved conversion_improvement
     && Py.gt (get_percentage conversion_improvement) 15 then
    let current_revenue := Py.dict_get current_metrics "total_revenue" 0 in
    let conversion_bonus_rate :=
      Py.min 0.02 ((get_percentage conversion_improvement - 15) * 0.001) in
    let conversion_bonus := current_revenue * conversion_bonus_rate in
    (total_fees + conversion_bonus,
     <["conversion_bonus" :=
         ConversionBonus (get_percentage conversion_improvement)
                         conversion_bonus_rate conversion_bonus
                         current_revenue]> breakdown)
  else (total_fees, breakdown).

Definition aov_bonus_step (improvements : gmap string ImprovementEntry)
    (current_metrics : gmap string Q)
    '((total_fees, breakdown) : FeeState) : FeeState :=
  let aov_improvement :=
    Py.dict_get improvements "average_order_value" no_entry in
  if get_improved aov_improvement
     && Py.gt (get_percentage aov_improvement) 10 then
    let aov_bonus_rate :=
      Py.min 0.01 ((get_percentage aov_improvement - 10) * 0.0005) in
    let aov_bonus :=
      Py.dict_get current_metrics "total_revenue" 0 * aov_bonus_rate in
    (total_fees + aov_bonus,
     <["aov_bonus" :=
         AovBonus (get_percentage aov_improvement) aov_bonus_rate
                  aov_bonus]> breakdown)
  else (total_fees, breakdown).

Definition fee_cap_step (current_metrics : gmap string Q)
    '((total_fees, breakdown) : FeeState) : FeeState :=
  let current_revenue := Py.dict_get current_metrics "total_revenue" 0 in
  let max_fee_cap := current_revenue * 0.15 in
  if Py.gt total_fees max_fee_cap && Py.gt current_revenue 0 then
    (max_fee_cap,
     <["fee_cap_applied" :=
         FeeCapApplied total_fees max_fee_cap 0.15]> breakdown)
  else (total_fees, breakdown).

(** The state before the fee cap: the sum of the triggered components. *)
Definition fee_components (improvements : gmap string ImprovementEntry)
    (current_metrics : gmap string Q) (fee_rate : Q) : FeeState :=
  aov_bonus_step improvements current_metrics
    (conversion_bonus_step improvements current_metrics
       (revenue_fee_step improvements fee_rate (0.0, ∅))).

(** The state at the [return]: the components, then the cap. *)
Definition fee_state (improvements : gmap string ImprovementEntry)
    (current_metrics : gmap string Q) (fee_rate : Q) : FeeState :=
  fee_cap_step current_metrics
    (fee_components improvements current_metrics fee_rate).

Definition _calculate_tiered_fees (improvements : gmap string ImprovementEntry)
    (targets : gmap string (gmap string Q))
    (current_metrics : gmap string Q) (fee_rate : Q) : FeeCalculation :=
  let '(total_fees, breakdown) :=
    fee_state improvements current_metrics fee_rate in
  {| total_fees := Py.round2 total_fees;
     breakdown := breakdown;
     fee_qualifying := Py.gt total_fees 0 |}.

(** ** Service operations on the funnel store *)

(** The [roi_baseline] object stored in a funnel's automation rules. *)
Record RoiBaseline := {
  rb_platform : string;
  rb_calculation_date : string;
  rb_period_days : Z;
  rb_baseline_metrics : gmap string Q;
  rb_raw_metrics : gmap string Q;
  rb_raw_baseline_data : gmap string Q;
  rb_performance_targets : gmap string (gmap string Q);
  rb_fee_calculation_ready : bool
}.

(** The [latest_performance] object stored in a funnel's automation rules. *)
Record PerformanceData := {
  perf_calculation_date : string;
  perf_baseline_metrics : gmap string Q;
  perf_current_metrics : gmap string Q;
  perf_improvements : gmap string ImprovementEntry;
  perf_fee_calculation : FeeCalculation;
  perf_fee_rate_applied : Q;
  perf_plan_name : string
}.

(** An [automation_rules] JSON object: the two keys this service reads and
    writes.  An empty or missing column decodes to both keys absent. *)
Record AutomationRules := {
  roi_baseline : option RoiBaseline;
  latest_performance : option PerformanceData
}.

(** The [automation_rules] column holds JSON text, and two writers fill it.
    This service reads it as an object and writes an object back;
    [create_funnel_from_template] writes the template's list of triggers
    into it.  A funnel keeps the column decoded, as an object or as an
    array. *)
Inductive RulesBlob :=
| RulesObject (rules : AutomationRules)
| RulesArray (items : list string).

(** A stage of a funnel, as the templates list them. *)
Record Stage := {
  stage_name : string;
  stage_description : string;
  stage_benchmark_conversion : Q;
  stage_benchmark_time_to_next : Q;
  stage_key_metrics : list string;
  stage_ai_optimizations : list string
}.

(** Modelled from the spec: the [SalesFunnel] row of [sales_funnel_models]
    (not among the sources), with the columns the sources read or write: the
    owner, the name, the description, the target market, the status, the
    stages, the automation rules and the three financial summary fields
    (investment, revenue, computed ROI). *)
Record SalesFunnel := {
  user_id : Z;
  funnel_name : string;
  description : string;
  target_market : string;
  status : string;
  stages_config : list Stage;
  automation_rules : RulesBlob;
  total_investment : Q;
  generated_revenue : Q;
  calculated_roi : Q
}.

(** [str(e)] of the [TypeError] raised by [automation_rules['roi_baseline']
    = ...] and of the [AttributeError] raised by [automation_rules.get(...)]
    when [automation_rules] is a list. *)
Definition list_setitem_error : string :=
  "list indices must be integers or slices, not str".
Definition list_get_error : string :=
  "'list' object has no attribute 'get'".

(** The payload of [calculate_baseline_metrics] and of
    [calculate_performance_fees]; a key may be absent. *)
Record PlatformData := {
  pd_platform : option string;
  pd_metrics : option (gmap string Q);
  pd_baseline_data : option (gmap string Q);
  pd_period_days : option Z
}.

(** What [get_user_subscription] may return: nothing, an object with a
    [plan_name] attribute, or a dict with an optional [plan] dict. *)
Inductive Subscription :=
| SubscriptionObject (plan_name : string)
| SubscriptionDict (plan : option (gmap string string)).

(** The result objects: [{'success': False, 'error': msg}] or
    [{'success': True, ...}]. *)
Inductive Response (A : Type) :=
| Failure (error : string)
| Success (payload : A).
Arguments Failure {A} error.
Arguments Success {A} payload.

Definition success {A} (r : Response A) : bool :=
  match r with Failure _ => false | Success _ => true end.

Record BaselineSummary := {
  bs_funnel_id : Z;
  bs_platform : string;
  bs_baseline_metrics : gmap string Q;
  bs_performance_targets : gmap string (gmap string Q);
  bs_baseline_revenue : Q;
  bs_baseline_conversion_rate : Q
}.

Record FeeSummary := {
  fs_funnel_id : Z;
  fs_baseline_revenue : Q;
  fs_current_revenue : Q;
  fs_revenue_improvement : Q;
  fs_total_fees : Q;
  fs_fee_breakdown : gmap string BreakdownItem;
  fs_fee_rate : Q;
  fs_qualifying_improvements : gmap string ImprovementEntry
}.

(** [str.lower] on ASCII letters. *)
Definition lower_ascii (c : ascii) : ascii :=
  let n := nat_of_ascii c in
  if (65 <=? n)%nat && (n <=? 90)%nat then ascii_of_nat (n + 32) else c.

Fixpoint lower (s : string) : string :=
  match s with
  | EmptyString => EmptyString
  | String c s' => String (lower_ascii c) (lower s')
  end.

Section Service.

(** The collaborators outside the sources: the subscription service and
    the clock ([datetime.utcnow().isoformat()]). *)
Variable get_user_subscription : Z -> option Subscription.
Variable utcnow : string.

Definition plan_name_of (subscription : option Subscription) : string :=
  match subscription with
  | Some (SubscriptionObject plan_name) => lower plan_name
  | Some (SubscriptionDict (Some plan)) =>
      if decide (plan = ∅) then "starter"
      else lower (Py.dict_get plan "plan_name" "starter")
  | _ => "starter"
  end.

(** The try body in the order of the source: the funnel lookup, the
    standardization of the payload, and then the decoding of the rules and
    the assignment [automation_rules['roi_baseline'] = roi_baseline], which
    raises on an array before anything is written to the funnel. *)
Definition calculate_baseline_metrics (db : gmap Z SalesFunnel)
    (funnel_id : Z) (platform_data : PlatformData)
  : Response BaselineSummary * gmap Z SalesFunnel :=
  match db !! funnel_id with
  | None => (Failure "Funnel not found", db)
  | Some funnel =>
      let platform := default "unknown" (pd_platform platform_data) in
      let metrics := default ∅ (pd_metrics platform_data) in
      let baseline_data := default ∅ (pd_baseline_data platform_data) in
      let period_days := default 30%Z (pd_period_days platform_data) in
      let standardized_baseline :=
        _standardize_baseline_metrics platform metrics baseline_data in
      let roi_baseline' :=
        {| rb_platform := platform;
           rb_calculation_date := utcnow;
           rb_period_days := period_days;
           rb_baseline_metrics := standardized_baseline;
           rb_raw_metrics := metrics;
           rb_raw_baseline_data := baseline_data;
           rb_performance_targets :=
             _calculate_performance_targets standardized_baseline;
           rb_fee_calculation_ready := true |} in
      match automation_rules funnel with
      | RulesArray _ => (Failure list_setitem_error, db)
      | RulesObject rules =>
          let funnel' :=
            {| user_id := user_id funnel;
               funnel_name := funnel_name funnel;
               description := description funnel;
               target_market := target_market funnel;
               status := status funnel;
               stages_config := stages_config funnel;
               automation_rules :=
                 RulesObject
                   {| roi_baseline := Some roi_baseline';
                      latest_performance := latest_performance rules |};
               total_investment :=
                 Py.dict_get standardized_baseline "operational_costs" 0;
               generated_revenue :=
                 Py.dict_get standardized_baseline "total_revenue" 0;
               calculated_roi :=
                 Py.dict_get standardized_baseline "roi_percentage" 0 |} in
          (Success
             {| bs_funnel_id := funnel_id;
                bs_platform := platform;
                bs_baseline_metrics := standardized_baseline;
                bs_performance_targets := rb_performance_targets roi_baseline';
                bs_baseline_revenue :=
                  Py.dict_get standardized_baseline "total_revenue" 0;
                bs_baseline_conversion_rate :=
                  Py.dict_get standardized_baseline "conversion_rate" 0 |},
           <[funnel_id := funnel']> db)
      end
  end.

(** [automation_rules.get('roi_baseline')] raises on an array, so the
    missing-baseline test is reached on an object only.  The
    [revenue_improvement] of the result is read under the key [revenue],
    which is not one of [key_metrics]. *)
Definition calculate_performance_fees (db : gmap Z SalesFunnel)
    (funnel_id : Z) (current_period_data : PlatformData)
  : Response FeeSummary * gmap Z SalesFunnel :=
  match db !! funnel_id with
  | None => (Failure "Funnel not found", db)
  | Some funnel =>
      match automation_rules funnel with
      | RulesArray _ => (Failure list_get_error, db)
      | RulesObject rules =>
          match roi_baseline rules with
          | None =>
              (Failure
                 "No ROI baseline found. Please import baseline data first.",
               db)
          | Some roi_baseline =>
              let plan_name :=
                plan_name_of (get_user_subscription (user_id funnel)) in
              let fee_rate := performance_fee_rates plan_name in
              let baseline_metrics := rb_baseline_metrics roi_baseline in
              let performance_targets :=
                rb_performance_targets roi_baseline in
              let current_metrics :=
                _standardize_baseline_metrics
                  (default (rb_platform roi_baseline)
                           (pd_platform current_period_data))
                  (default ∅ (pd_metrics current_period_data))
                  (default ∅ (pd_baseline_data current_period_data)) in
              let improvements :=
                _calculate_improvements baseline_metrics current_metrics in
              let fee_calculation :=
                _calculate_tiered_fees improvements performance_targets
                                       current_metrics fee_rate in
              let performance_data :=
                {| perf_calculation_date := utcnow;
                   perf_baseline_metrics := baseline_metrics;
                   perf_current_metrics := current_metrics;
                   perf_improvements := improvements;
                   perf_fee_calculation := fee_calculation;
                   perf_fee_rate_applied := fee_rate;
                   perf_plan_name := plan_name |} in
              let funnel' :=
                {| user_id := user_id funnel;
                   funnel_name := funnel_name funnel;
                   description := description funnel;
                   target_market := target_market funnel;
                   status := status funnel;
                   stages_config := stages_config funnel;
                   automation_rules :=
                     RulesObject
                       {| roi_baseline := Some roi_baseline;
                          latest_performance := Some performance_data |};
                   total_investment := total_investment funnel;
                   generated_revenue :=
                     Py.dict_get current_metrics "total_revenue" 0;
                   calculated_roi :=
                     Py.dict_get current_metrics "roi_percentage" 0 |} in
              (Success
                 {| fs_funnel_id := funnel_id;
                    fs_baseline_revenue :=
                      Py.dict_get baseline_metrics "total_revenue" 0;
                    fs_current_revenue :=
                      Py.dict_get current_metrics "total_revenue" 0;
                    fs_revenue_improvement :=
                      get_percentage
                        (Py.dict_get improvements "revenue" no_entry);
                    fs_total_fees := total_fees fee_calculation;
                    fs_fee_breakdown := breakdown fee_calculation;
                    fs_fee_rate := fee_rate;
                    fs_qualifying_improvements := improvements |},
               <[funnel_id := funnel']> db)
          end
      end
  end.

End Service.

(** * Quantities and inputs the properties are stated with *)

(** The ten keys of a standardized metrics record. *)
Definition standardized_keys : list string :=
  [ "total_revenue"; "total_transactions"; "conversion_rate";
    "average_order_value"; "total_leads"; "cost_per_lead";
    "customer_acquisition_cost"; "lifetime_value"; "roi_percentage";
    "operational_costs" ].

(** No value of the dict is negative. *)
Definition nonnegative (d : gmap string Q) : Prop :=
  map_Forall (fun _ v => 0 <= v) d.

(** The amount the revenue section adds to [total_fees], which starts at
    [0.0]. *)
Definition revenue_fee_component (improvements : gmap string ImprovementEntry)
    (fee_rate : Q) : Q :=
  fst (revenue_fee_step improvements fee_rate (0.0, ∅)).

(** ** Concrete inputs *)

(** A metrics dict with a revenue and nothing else. *)
Definition revenue_only (revenue : Q) : gmap string Q :=
  <["total_revenue" := revenue]> ∅.

(** Revenue from 100000 to 130000 with the conversion rate going from 2.0
    to 2.5: a quarter more in relative terms, half a point in absolute
    terms. *)
Definition example_baseline : gmap string Q :=
  Py.dict_update standardized_init
    [ ("total_revenue", 100000); ("conversion_rate", 2.0) ].

Definition example_current : gmap string Q :=
  Py.dict_update standardized_init
    [ ("total_revenue", 130000); ("conversion_rate", 2.5) ].

(** The same revenues with the conversion rate and the average order value
    improving by 10 and 4 percent, below both bonus thresholds. *)
Definition steady_baseline : gmap string Q :=
  Py.dict_update standardized_init
    [ ("total_revenue", 100000); ("conversion_rate", 2.0);
      ("average_order_value", 50) ].

Definition steady_current : gmap string Q :=
  Py.dict_update standardized_init
    [ ("total_revenue", 130000); ("conversion_rate", 2.2);
      ("average_order_value", 52) ].

(** An improvement map with the comparator's entry for a revenue going from
    [baseline_value] to [current_value], whatever the current metrics it is
    later paired with. *)
Definition reported_gain (baseline_value current_value : Q)
  : gmap string ImprovementEntry :=
  <["total_revenue" := improvement baseline_value current_value]> ∅.

(** Revenue from 10 to 12.5; at the starter rate 0.05 the revenue fee is
    0.125, half a cent above 0.12. *)
Definition half_cent_improvements : gmap string ImprovementEntry :=
  _calculate_improvements (revenue_only 10) (revenue_only 12.5).

(** A Shopify import. *)
Definition shop_metrics : gmap string Q :=
  Py.dict_update ∅
    [ ("total_revenue", 5000); ("total_orders", 100);
      ("abandoned_checkouts", 60); ("average_order_value", 50) ].

Definition shop_baseline_data : gmap string Q :=
  Py.dict_update ∅ [ ("conversion_rate", 62.5) ].

Definition shop_payload : PlatformData :=
  {| pd_platform := Some "shopify"; pd_metrics := Some shop_metrics;
     pd_baseline_data := Some shop_baseline_data;
     pd_period_days := Some 30%Z |}.

(** A funnel with empty automation rules, and a user without a
    subscription. *)
Definition no_rules : AutomationRules :=
  {| roi_baseline := None; latest_performance := None |}.

Definition fresh_funnel : SalesFunnel :=
  {| user_id := 3; funnel_name := "Spring launch";
     description := ""; target_market := ""; status := "active";
     stages_config := [];
     automation_rules := RulesObject no_rules;
     total_investment := 0; generated_revenue := 0; calculated_roi := 0 |}.

Definition no_subscription (user : Z) : option Subscription := None.

(** A funnel whose stored baseline is a Shopify import with revenue 10, and
    a later period with revenue 12.5. *)
Definition half_cent_funnel : SalesFunnel :=
  {| user_id := 3; funnel_name := "Spring launch";
     description := ""; target_market := ""; status := "active";
     stages_config := [];
     automation_rules :=
       RulesObject
         {| roi_baseline :=
              Some {| rb_platform := "shopify";
                      rb_calculation_date := "2024-02-01T00:00:00";
                      rb_period_days := 30;
                      rb_baseline_metrics :=
                        _standardize_baseline_metrics "shopify"
                          (revenue_only 10) ∅;
                      rb_raw_metrics := revenue_only 10;
                      rb_raw_baseline_data := ∅;
                      rb_performance_targets :=
                        _calculate_performance_targets
                          (_standardize_baseline_metrics "shopify"
                             (revenue_only 10) ∅);
                      rb_fee_calculation_ready := true |};
            latest_performance := None |};
     total_investment := 3; generated_revenue := 10;
     calculated_roi := 233 |}.

Definition half_cent_payload : PlatformData :=
  {| pd_platform := None; pd_metrics := Some (revenue_only 12.5);
     pd_baseline_data := None; pd_period_days := None |}.

(** * Summary reporter *)

(** The [baseline] object of a summary. *)
Record BaselineView := {
  bv_platform : string;
  bv_calculation_date : string;
  bv_period_days : Z;
  bv_baseline_revenue : Q;
  bv_baseline_conversion_rate : Q;
  bv_baseline_aov : Q
}.

(** The [current_performance] object of a summary. *)
Record PerformanceView := {
  pv_calculation_date : string;
  pv_current_revenue : Q;
  pv_current_conversion_rate : Q;
  pv_total_fees_due : Q;
  pv_fee_rate : Q;
  pv_improvements : gmap string ImprovementEntry
}.

Record RoiSummary := {
  rs_funnel_id : Z;
  rs_funnel_name : string;
  rs_baseline_established : bool;
  rs_performance_tracking_active : bool;
  rs_baseline : option BaselineView;
  rs_current_performance : option PerformanceView
}.

(** [get_funnel_roi_summary] reads the store and commits nothing, so it
    returns the result object alone.  On an array
    [automation_rules.get('roi_baseline')] raises. *)
Definition get_funnel_roi_summary (db : gmap Z SalesFunnel) (funnel_id : Z)
  : Response RoiSummary :=
  match db !! funnel_id with
  | None => Failure "Funnel not found"
  | Some funnel =>
      match automation_rules funnel with
      | RulesArray _ => Failure list_get_error
      | RulesObject rules =>
          let roi_baseline := roi_baseline rules in
          let latest_performance := latest_performance rules in
          Success
            {| rs_funnel_id := funnel_id;
               rs_funnel_name := funnel_name funnel;
               rs_baseline_established := bool_decide (is_Some roi_baseline);
               rs_performance_tracking_active :=
                 bool_decide (is_Some latest_performance);
               rs_baseline :=
                 match roi_baseline with
                 | Some rb =>
                     Some
                       {| bv_platform := rb_platform rb;
                          bv_calculation_date := rb_calculation_date rb;
                          bv_period_days := rb_period_days rb;
                          bv_baseline_revenue :=
                            Py.dict_get (rb_baseline_metrics rb)
                              "total_revenue" 0;
                          bv_baseline_conversion_rate :=
                            Py.dict_get (rb_baseline_metrics rb)
                              "conversion_rate" 0;
                          bv_baseline_aov :=
                            Py.dict_get (rb_baseline_metrics rb)
                              "average_order_value" 0 |}
                 | None => None
                 end;
               rs_current_performance :=
                 match latest_performance with
                 | Some lp =>
                     Some
                       {| pv_calculation_date := perf_calculation_date lp;
                          pv_current_revenue :=
                            Py.dict_get (perf_current_metrics lp)
                              "total_revenue" 0;
                          pv_current_conversion_rate :=
                            Py.dict_get (perf_current_metrics lp)
                              "conversion_rate" 0;
                          pv_total_fees_due :=
                            total_fees (perf_fee_calculation lp);
                          pv_fee_rate := perf_fee_rate_applied lp;
                          pv_improvements := perf_improvements lp |}
                 | None => None
                 end |}
      end
  end.

(** * More quantities the properties are stated with *)

(** The amounts the conversion and AOV sections add to [total_fees]. *)
Definition conversion_bonus_component
    (improvements : gmap string ImprovementEntry)
    (current_metrics : gmap string Q) : Q :=
  fst (conversion_bonus_step improvements current_metrics (0, ∅)).

Definition aov_bonus_component (improvements : gmap string ImprovementEntry)
    (current_metrics : gmap string Q) : Q :=
  fst (aov_bonus_step improvements current_metrics (0, ∅)).

(** The keys of the targets dict; the revenue tiers are stored under
    [revenue], not [total_revenue]. *)
Definition target_keys : list string :=
  [ "revenue"; "conversion_rate"; "average_order_value"; "roi_percentage" ].

(** The metric a target key is computed from. *)
Definition target_metric (key : string) : string :=
  if String.eqb key "revenue" then "total_revenue" else key.

(** [tiers[k]] on a tier dict. *)
Definition tier (targets : gmap string (gmap string Q)) (key level : string)
  : Q :=
  Py.dict_get (Py.dict_get targets key ∅) level 0.

(** * Vertical templates

    [VerticalTemplateService] of [sales_funnel_vertical_templates.py].  The
    six hard-coded templates are a table [templates], kept in insertion
    order as a Python dict keeps it; the service is modelled for any such
    table.  Strings are ASCII. *)

Module Str.

(** [needle in haystack] on strings. *)
Fixpoint contains (haystack needle : string) : bool :=
  String.prefix needle haystack
  || match haystack with
     | EmptyString => false
     | String _ rest => contains rest needle
     end.

(** Truth value of a string: not empty. *)
Definition truthy (s : string) : bool := negb (String.eqb s "").

(** [c.isspace()]: tab to carriage return, the four separators and space. *)
Definition is_space (c : ascii) : bool :=
  let n := nat_of_ascii c in
  ((9 <=? n)%nat && (n <=? 13)%nat) || ((28 <=? n)%nat && (n <=? 32)%nat).

(** [s.split()]: the maximal runs of characters that are not whitespace;
    [word] is the run read so far. *)
Fixpoint split_from (word s : string) : list string :=
  match s with
  | EmptyString => if truthy word then [word] else []
  | String c rest =>
      if is_space c then
        if truthy word then word :: split_from "" rest
        else split_from "" rest
      else split_from (word ++ String c "") rest
  end.

Definition split (s : string) : list string := split_from "" s.

End Str.

(** A template; [target_revenue_range] is tested for presence by the
    service, the other keys are subscripted. *)
Record Template := {
  tpl_name : string;
  tpl_description : string;
  tpl_target_revenue_range : option string;
  tpl_stages : list Stage;
  tpl_benchmark_kpis : list (string * string);
  tpl_quick_wins : list string;
  tpl_automation_triggers : list string
}.

(** [self.templates.get(template_id)] on the table. *)
Fixpoint find_template (templates : list (string * Template))
    (template_id : string) : option Template :=
  match templates with
  | [] => None
  | (key, template) :: rest =>
      if String.eqb key template_id then Some template
      else find_template rest template_id
  end.

Record Recommendation := {
  rec_template_id : string;
  rec_name : string;
  rec_description : string;
  rec_score : nat;
  rec_reasons : list string;
  rec_benchmark_kpis : list (string * string);
  rec_quick_wins_count : nat;
  rec_stages_count : nat
}.

(** The industry part of the loop body: the points and the reason. *)
Definition industry_match (user_industry : option string)
    (template_id : string) (template : Template) : nat * list string :=
  match user_industry with
  | Some industry =>
      if Str.truthy industry then
        if Str.contains (lower template_id) (lower industry) then
          (50%nat, [("Perfect industry match for " ++ industry)%string])
        else if existsb
                  (fun keyword =>
                     Str.contains (lower (tpl_description template)) keyword)
                  (Str.split (lower industry)) then
          (25%nat, [("Related to " ++ industry ++ " industry")%string])
        else (0%nat, [])
      else (0%nat, [])
  | None => (0%nat, [])
  end.

(** The revenue part of the loop body. *)
Definition revenue_match (revenue_range : option string) (template : Template)
  : nat * list string :=
  match revenue_range, tpl_target_revenue_range template with
  | Some range, Some target =>
      if Str.truthy range && Str.contains target range then
        (30%nat, ["Revenue range matches your business size"])
      else (0%nat, [])
  | _, _ => (0%nat, [])
  end.

(** The body of the loop of [get_template_recommendations]. *)
Definition recommend (user_industry revenue_range : option string)
    (entry : string * Template) : Recommendation :=
  let '(template_id, template) := entry in
  let industry := industry_match user_industry template_id template in
  let revenue := revenue_match revenue_range template in
  {| rec_template_id := template_id;
     rec_name := tpl_name template;
     rec_description := tpl_description template;
     rec_score :=
       (industry.1 + revenue.1 + length (tpl_quick_wins template) * 5)%nat;
     rec_reasons :=
       industry.2 ++ revenue.2
       ++ map (fun win =>
                 ("Quick win: " ++ String.substring 0 50 win ++ "...")%string)
              (take 2 (tpl_quick_wins template));
     rec_benchmark_kpis := tpl_benchmark_kpis template;
     rec_quick_wins_count := length (tpl_quick_wins template);
     rec_stages_count := length (tpl_stages template) |}.

(** [recommendations.sort(key=lambda x: x['score'], reverse=True)]: the
    stable sort by decreasing score.  A stable sort has one result, so the
    insertion sort below returns the list Python's sort returns. *)
Fixpoint insert_by_score (r : Recommendation) (l : list Recommendation)
  : list Recommendation :=
  match l with
  | [] => [r]
  | x :: rest =>
      if (rec_score x <=? rec_score r)%nat then r :: l
      else x :: insert_by_score r rest
  end.

Definition sort_by_score (l : list Recommendation) : list Recommendation :=
  foldr insert_by_score [] l.

Definition get_template_recommendations (templates : list (string * Template))
    (user_industry revenue_range : option string) : list Recommendation :=
  sort_by_score (map (recommend user_industry revenue_range) templates).

(** The body of the [api_industry_match] route on a JSON object of strings:
    the top three recommendations and the number of templates. *)
Record IndustryMatch := {
  im_recommendations : list Recommendation;
  im_total_templates : nat
}.

Definition api_industry_match (templates : list (string * Template))
    (data : gmap string string) : IndustryMatch :=
  let industry := Py.dict_get data "industry" "" in
  let revenue := Py.dict_get data "revenue" "" in
  {| im_recommendations :=
       take 3 (get_template_recommendations templates (Some industry)
                 (Some revenue));
     im_total_templates := length templates |}.

(** ** Funnels created from a template *)

Record CreatedFunnel := {
  cf_funnel_id : Z;
  cf_template_applied : string;
  cf_stages_configured : nat;
  cf_quick_wins : list string
}.

Section Creation.

(** Outside the sources: the row [SalesFunnel()] constructs, and the id the
    database gives the new row at [db.session.flush()]. *)
Variable blank_funnel : SalesFunnel.
Variable allocate_id : gmap Z SalesFunnel -> Z.

Definition create_funnel_from_template (templates : list (string * Template))
    (db : gmap Z SalesFunnel) (user : Z) (template_id : string)
    (custom_name : option string)
  : Response CreatedFunnel * gmap Z SalesFunnel :=
  match find_template templates template_id with
  | None =>
      (Failure ("Template " ++ template_id ++ " not found")%string, db)
  | Some template =>
      let funnel :=
        {| user_id := user;
           funnel_name :=
             match custom_name with
             | Some name => if Str.truthy name then name else tpl_name template
             | None => tpl_name template
             end;
           description := tpl_description template;
           target_market := template_id;
           status := "active";
           stages_config := tpl_stages template;
           automation_rules :=
             RulesArray (tpl_automation_triggers template);
           total_investment := total_investment blank_funnel;
           generated_revenue := generated_revenue blank_funnel;
           calculated_roi := calculated_roi blank_funnel |} in
      let funnel_id := allocate_id db in
      (Success
         {| cf_funnel_id := funnel_id;
            cf_template_applied := template_id;
            cf_stages_configured := length (tpl_stages template);
            cf_quick_wins := tpl_quick_wins template |},
       <[funnel_id := funnel]> db)
  end.

End Creation.

(** An id allocation for the examples: one more than the largest id of the
    store, as an auto-increment key gives. *)
Definition next_id (db : gmap Z SalesFunnel) : Z :=
  1 + map_fold (fun id _ largest => Z.max id largest) 0%Z db.

(** ** Quantities the template properties are stated with *)

(** Every element after the head scores at most the head, all along. *)
Fixpoint descending (l : list Recommendation) : Prop :=
  match l with
  | [] => True
  | x :: rest =>
      Forall (fun y => (rec_score y <= rec_score x)%nat) rest
      /\ descending rest
  end.

(** An optional string argument that is [None] or empty. *)
Definition absent (o : option string) : Prop :=
  forall s, o = Some s -> s = ""%string.

(** Two rows of the template table, each with its first stage. *)
Definition demo_templates : list (string * Template) :=
  [ ("dtc_ecommerce"%string,
     {| tpl_name := "DTC E-commerce Sales Funnel";
        tpl_description :=
          "Optimized for direct-to-consumer brands with $5M-$100M revenue";
        tpl_target_revenue_range := Some "$5M-$100M"%string;
        tpl_stages :=
          [ {| stage_name := "Ad Click";
               stage_description := "Visitor clicks on paid ad";
               stage_benchmark_conversion := 100.0;
               stage_benchmark_time_to_next := 0;
               stage_key_metrics := ["CPM"; "CTR"; "CPC"]%string;
               stage_ai_optimizations :=
                 [ "Ad creative fatigue detection";
                   "Audience expansion recommendations";
                   "Bid optimization alerts" ]%string |} ];
        tpl_benchmark_kpis :=
          [ ("overall_conversion_rate", "2.5%");
            ("average_order_value", "$150") ]%string;
        tpl_quick_wins :=
          [ "Implement exit-intent popups (5-15% conversion boost)";
            "Add cart abandonment email sequence (10-25% recovery)";
            "Optimize checkout form fields (5-10% completion boost)";
            "Add urgency/scarcity elements (3-8% conversion boost)";
            "Implement one-click upsells (15-30% AOV increase)" ]%string;
        tpl_automation_triggers :=
          [ "Cart abandonment after 30 minutes";
            "Browse abandonment after 24 hours";
            "Post-purchase review request after 7 days";
            "Replenishment reminder based on product cycle";
            "Win-back campaign after 90 days inactive" ]%string |});
    ("b2b_saas"%string,
     {| tpl_name := "B2B SaaS Sales Funnel";
        tpl_description :=
          "Optimized for Series A-C SaaS companies with $3M-$75M ARR";
        tpl_target_revenue_range := Some "$3M-$75M ARR"%string;
        tpl_stages :=
          [ {| stage_name := "Website Visit";
               stage_description :=
                 "Prospect visits website from organic or paid traffic";
               stage_benchmark_conversion := 100.0;
               stage_benchmark_time_to_next := 0;
               stage_key_metrics := [];
               stage_ai_optimizations := [] |} ];
        tpl_benchmark_kpis :=
          [ ("website_to_mql", "2-5%"); ("mql_to_sql", "20-30%") ]%string;
        tpl_quick_wins :=
          [ "Implement progressive profiling (20-40% form completion boost)";
            "Add social proof on key pages (10-25% conversion boost)";
            "Optimize trial signup flow (15-30% trial conversion)";
            "Implement lead scoring automation (25-40% SQL quality boost)";
            "Add meeting booking widget (30-50% booking rate increase)"
          ]%string;
        tpl_automation_triggers :=
          [ "MQL scoring threshold reached";
            "Content download follow-up sequence";
            "Trial expiration reminders";
            "Meeting no-show follow-up";
            "Proposal follow-up sequence" ]%string |}) ].

(** A row with nothing set. *)
Definition blank_row : SalesFunnel :=
  {| user_id := 0; funnel_name := ""; description := "";
     target_market := ""; status := ""; stages_config := [];
     automation_rules := RulesObject no_rules;
     total_investment := 0; generated_revenue := 0; calculated_roi := 0 |}.

(** * Connectors: the historical data of a store

    [ShopifyConnector.get_historical_data] of [sales_funnel_connectors.py].
    The three HTTP exchanges are arguments.  An exchange raises (in the
    request or in the decoding of its body), or answers with a status other
    than 200, or answers 200 with a body.  The body of the orders exchange
    is the list of orders, each one the outcome of
    [float(order['total_price'])]: the price, or the exception.  The bodies
    of the other two may lack their key.  The usage tracking call, which
    goes to the subscription service, is left out. *)

Inductive Reply (A : Type) :=
| Raised (error : string)
| Refused
| Answered (body : A).
Arguments Raised {A} error.
Arguments Refused {A}.
Arguments Answered {A} body.

(** [r.json().get(key, []) if r.status_code == 200 else []] *)
Definition listed {A} (reply : Reply (option (list A))) : list A :=
  match reply with
  | Answered (Some l) => l
  | _ => []
  end.

Record HistoricalData := {
  hd_period_days : Z;
  hd_metrics : gmap string Q;
  hd_baseline_data : gmap string Q
}.

(** [len(l)] as a number. *)
Definition count {A} (l : list A) : Q := inject_Z (Z.of_nat (length l)).

(** [sum(float(order['total_price']) for order in orders)]: the prices are
    added in order, starting from 0, and the first order that raises ends
    the sum. *)
Fixpoint sum_prices (orders : list (Response Q)) (acc : Q) : Response Q :=
  match orders with
  | [] => Success acc
  | Failure e :: _ => Failure e
  | Success price :: rest => sum_prices rest (acc + price)
  end.

Definition shopify_get_historical_data {P C : Type} (days : Z)
    (orders_response : Reply (list (Response Q)))
    (products_response : Reply (option (list P)))
    (checkout_response : Reply (option (list C))) : Response HistoricalData :=
  match orders_response with
  | Raised e => Failure e
  | Refused => Failure "Failed to fetch orders"
  | Answered orders =>
      match products_response with
      | Raised e => Failure e
      | _ =>
          let products := listed products_response in
          let total_orders := count orders in
          match sum_prices orders 0 with
          | Failure e => Failure e
          | Success total_revenue =>
              let avg_order_value :=
                if Py.gt total_orders 0 then total_revenue / total_orders
                else 0 in
              match checkout_response with
              | Raised e => Failure e
              | _ =>
                  let abandoned_checkouts := listed checkout_response in
                  let cart_abandonment_rate :=
                    if Py.gt (count abandoned_checkouts + total_orders) 0
                    then count abandoned_checkouts
                         / (count abandoned_checkouts + total_orders)
                    else 0 in
                  Success
                    {| hd_period_days := days;
                       hd_metrics :=
                         Py.dict_update ∅
                           [ ("total_orders", total_orders);
                             ("total_revenue", total_revenue);
                             ("average_order_value", avg_order_value);
                             ("cart_abandonment_rate",
                               cart_abandonment_rate * 100);
                             ("total_products", count products);
                             ("abandoned_checkouts",
                               count abandoned_checkouts) ];
                       hd_baseline_data :=
                         Py.dict_update ∅
                           [ ("conversion_rate",
                               (total_orders
                                / Py.max 1 (count abandoned_checkouts
                                            + total_orders))
                               * 100);
                             ("revenue_per_visitor",
                               total_revenue
                               / Py.max 1 (count abandoned_checkouts
                                           + total_orders));
                             ("checkout_completion_rate",
                               (total_orders
                                / Py.max 1 (count abandoned_checkouts
                                            + total_orders))
                               * 100) ] |}
              end
          end
      end
  end.

(** Three orders and two abandoned checkouts. *)
Definition three_orders : list (Response Q) :=
  [ Success 120; Success 80.5; Success 49.5 ].

Definition one_product : Reply (option (list string)) :=
  Answered (Some ["mug"%string]).

Definition two_checkouts : Reply (option (list string)) :=
  Answered (Some ["cart-1"; "cart-2"]%string).

(** * The create-from-template route

    [api_create_from_template] of [sales_funnel_vertical_routes.py], on a
    JSON object of strings.  The subscription service is outside the
    sources: its usage check is an argument, and the usage it is asked to
    track is appended to a log. *)

Record UsageCheck := {
  uc_allowed : bool;
  uc_reason : string;
  uc_upgrade_required : option bool
}.

(** One [track_usage(user, resource, item, {'template_id': ...})] call. *)
Record UsageEvent := {
  ue_user : Z;
  ue_resource : string;
  ue_item : string;
  ue_template_id : string
}.

(** The JSON body of the reply. *)
Inductive CreateBody :=
| CreatedBody (funnel_id : Z) (redirect_url : string)
| ErrorBody (error : string) (upgrade_required : option bool).

(** [str(n)] on an integer. *)
Definition str_of_int (n : Z) : string := NilZero.string_of_int (Z.to_int n).

Section Routes.

Variable blank_funnel : SalesFunnel.
Variable allocate_id : gmap Z SalesFunnel -> Z.
Variable check_usage_limits : Z -> string -> UsageCheck.

(** The reply is the status code and the body; the store and the usage log
    are threaded through. *)
Definition api_create_from_template (templates : list (string * Template))
    (current_user : Z) (data : gmap string string)
    (db : gmap Z SalesFunnel) (usage : list UsageEvent)
  : (Z * CreateBody) * gmap Z SalesFunnel * list UsageEvent :=
  let template_id := data !! "template_id" in
  let custom_name := data !! "custom_name" in
  match template_id with
  | Some template_id =>
      if Str.truthy template_id then
        let usage_check := check_usage_limits current_user "sales_funnels" in
        if uc_allowed usage_check then
          let result :=
            create_funnel_from_template blank_funnel allocate_id templates
              db current_user template_id custom_name in
          match result.1 with
          | Success created =>
              ((200%Z,
                CreatedBody (cf_funnel_id created)
                  ("/sales-funnel/funnel/"
                   ++ str_of_int (cf_funnel_id created))%string),
               result.2,
               usage
               ++ [ {| ue_user := current_user;
                       ue_resource := "sales_funnels";
                       ue_item := str_of_int (cf_funnel_id created);
                       ue_template_id := template_id |} ])
          | Failure error =>
              ((400%Z, ErrorBody error None), result.2, usage)
          end
        else
          ((403%Z,
            ErrorBody (uc_reason usage_check)
              (Some (default false (uc_upgrade_required usage_check)))),
           db, usage)
      else ((400%Z, ErrorBody "Template ID is required" None), db, usage)
  | None => ((400%Z, ErrorBody "Template ID is required" None), db, usage)
  end.

End Routes.

(** Two usage checks: one that allows everything and one that allows
    nothing. *)
Definition generous (user : Z) (resource : string) : UsageCheck :=
  {| uc_allowed := true; uc_reason := ""; uc_upgrade_required := None |}.

Definition exhausted (user : Z) (resource : string) : UsageCheck :=
  {| uc_allowed := false; uc_reason := "Funnel limit reached";
     uc_upgrade_required := Some true |}.


(** A table of four templates: the two above and a copy of each under a
    second id. *)
Definition four_templates : list (string * Template) :=
  demo_templates
  ++ map (fun entry => ((entry.1 ++ "_v2")%string, entry.2)) demo_templates.

(** * Properties *)

(** ** Comparisons and lookups *)

Lemma gt_true (x y : Q) : Py.gt x y = true <-> y < x.
Proof.
  unfold Py.gt. rewrite negb_true_iff, <- not_true_iff_false, Qle_bool_iff.
  split; [apply Qnot_le_lt | apply Qlt_not_le].
Qed.

Lemma gt_false (x y : Q) : Py.gt x y = false <-> x <= y.
Proof. unfold Py.gt. rewrite negb_false_iff. apply Qle_bool_iff. Qed.

#[export] Instance gt_proper : Proper (Qeq ==> Qeq ==> eq) Py.gt.
Proof. intros x x' Hx y y' Hy. unfold Py.gt. now rewrite Hx, Hy. Qed.

(** The comparator writes one entry for each of the four key metrics. *)
Lemma calculate_improvements_lookup (baseline current : gmap string Q)
    (metric : string) :
  metric ∈ key_metrics ->
  _calculate_improvements baseline current !! metric
  = Some (improvement (Py.dict_get baseline metric 0)
                      (Py.dict_get current metric 0)).
Proof.
  unfold key_metrics, _calculate_improvements. intros Hin.
  repeat (apply elem_of_cons in Hin as [-> | Hin]);
    [ .. | by apply elem_of_nil in Hin ];
    cbn [foldl]; by simplify_map_eq.
Qed.

Lemma improvement_entry (baseline current : gmap string Q) (metric : string) :
  metric ∈ key_metrics ->
  Py.dict_get (_calculate_improvements baseline current) metric no_entry
  = improvement (Py.dict_get baseline metric 0) (Py.dict_get current metric 0).
Proof.
  intros Hin. unfold Py.dict_get at 1.
  by rewrite calculate_improvements_lookup.
Qed.

(** ** Improvement comparator *)

(** C5: for each of the four tracked metrics and every current value, a
    baseline value of zero makes the comparator report percentage 0 and
    improved = false for that metric. *)
Theorem zero_baseline_reports_no_improvement
    (baseline current : gmap string Q) (metric : string) :
  metric ∈ key_metrics ->
  Py.dict_get baseline metric 0 == 0 ->
  exists e,
    _calculate_improvements baseline current !! metric = Some e
    /\ imp_percentage e = Some 0
    /\ imp_improved e = Some false.
Proof.
  intros Hin Hzero. eexists. split.
  - by apply calculate_improvements_lookup.
  - unfold improvement.
    assert (Py.gt (Py.dict_get baseline metric 0) 0 = false) as ->; [|done].
    apply gt_false. rewrite Hzero. apply Qle_refl.
Qed.

Lemma zero_baseline_reports_no_improvement_witness :
  "conversion_rate" ∈ key_metrics
  /\ Py.dict_get (<["conversion_rate" := 0]> ∅) "conversion_rate" 0 == 0
  /\ exists e,
       _calculate_improvements (<["conversion_rate" := 0]> ∅)
                               (<["conversion_rate" := 2.5]> ∅)
         !! "conversion_rate" = Some e
       /\ imp_percentage e = Some 0
       /\ imp_improved e = Some false.
Proof.
  assert ("conversion_rate" ∈ key_metrics) as Hin
    by (unfold key_metrics; set_solver).
  assert (Py.dict_get (<["conversion_rate" := 0]> ∅) "conversion_rate" 0 == 0)
    as Hzero by reflexivity.
  split; [exact Hin|]. split; [exact Hzero|].
  exact (zero_baseline_reports_no_improvement _ _ _ Hin Hzero).
Defined.

(** ** Customer acquisition cost *)

Lemma estimate_cac_no_customers_example :
  _estimate_cac 100 0 == 0 /\ 0.20 * 100 / Py.max 1 0 == 20.
Proof. split; reflexivity. Qed.

(** C8 as stated fails: with zero transactions the estimate is 0, not
    0.20 x revenue. *)
Lemma estimate_cac_zero_transactions_counterexample :
  ~ (_estimate_cac 100 0 == 0.20 * 100 / Py.max 1 0).
Proof. vm_compute. discriminate. Qed.

(** C8, amended: with a transaction count of at least 1 the estimate is
    0.20 x revenue / max(1, count), which is 0.20 x revenue / count; with
    zero transactions the estimate is 0. *)
Theorem estimate_cac_spec (revenue customers : Q) :
  (1 <= customers ->
     _estimate_cac revenue customers == 0.20 * revenue / Py.max 1 customers
     /\ _estimate_cac revenue customers == 0.20 * revenue / customers)
  /\ (customers == 0 -> _estimate_cac revenue customers == 0).
Proof.
  unfold _estimate_cac. split.
  - intros Hge.
    assert (Qeq_bool customers 0 = false) as ->.
    { apply not_true_iff_false. rewrite Qeq_bool_iff. intros Heq.
      rewrite Heq in Hge. revert Hge. apply Qlt_not_le. reflexivity. }
    assert (Py.max 1 customers == customers) as Hmax.
    { unfold Py.max. destruct (Py.gt customers 1) eqn:Hgt; [reflexivity|].
      apply gt_false in Hgt. by apply Qle_antisym. }
    split; [rewrite Hmax|]; unfold Qdiv; ring.
  - intros Heq. apply Qeq_bool_iff in Heq. rewrite Heq. reflexivity.
Qed.

Lemma estimate_cac_spec_witness :
  1 <= 4
  /\ _estimate_cac 100 4 == 0.20 * 100 / Py.max 1 4
  /\ _estimate_cac 100 4 == 0.20 * 100 / 4
  /\ 0 == 0
  /\ _estimate_cac 100 0 == 0.
Proof.
  assert (1 <= 4) as Hge by discriminate.
  assert (0 == 0) as Hzero by reflexivity.
  split; [exact Hge|].
  split; [exact (proj1 (proj1 (estimate_cac_spec 100 4) Hge))|].
  split; [exact (proj2 (proj1 (estimate_cac_spec 100 4) Hge))|].
  split; [exact Hzero|].
  exact (proj2 (estimate_cac_spec 100 0) Hzero).
Defined.

(** ** Standardization mapper *)

Lemma platform_update_unknown (platform : string)
    (metrics baseline_data standardized : gmap string Q) :
  platform <> "shopify" -> platform <> "hubspot" ->
  platform <> "google_analytics" ->
  platform_update platform metrics baseline_data standardized = standardized.
Proof.
  intros H1 H2 H3. unfold platform_update.
  apply String.eqb_neq in H1, H2, H3. by rewrite H1, H2, H3.
Qed.

(** C9: for a platform identifier outside shopify, hubspot and
    google_analytics, and any metrics and baseline data, the mapper returns
    the record it started from: ten fields, each equal to zero.  The mapper
    is a total function, and on this path it reads nothing from its
    inputs. *)
Theorem unknown_platform_all_zero (platform : string)
    (metrics baseline_data : gmap string Q) :
  platform <> "shopify" -> platform <> "hubspot" ->
  platform <> "google_analytics" ->
  _standardize_baseline_metrics platform metrics baseline_data
  = standardized_init
  /\ size (_standardize_baseline_metrics platform metrics baseline_data)
     = 10%nat
  /\ Forall
       (fun k =>
          exists v,
            _standardize_baseline_metrics platform metrics baseline_data !! k
            = Some v /\ v == 0)
       standardized_keys.
Proof.
  intros H1 H2 H3.
  assert (_standardize_baseline_metrics platform metrics baseline_data
          = standardized_init) as ->.
  { unfold _standardize_baseline_metrics.
    by rewrite platform_update_unknown. }
  split; [reflexivity|]. split; [reflexivity|].
  unfold standardized_keys.
  repeat (apply Forall_cons_2;
          [eexists; split; [reflexivity | reflexivity] |]).
  apply Forall_nil_2.
Qed.

Lemma unknown_platform_all_zero_witness :
  "woocommerce" <> "shopify" /\ "woocommerce" <> "hubspot"
  /\ "woocommerce" <> "google_analytics"
  /\ _standardize_baseline_metrics "woocommerce"
       (<["total_revenue" := 5000]> ∅) (<["conversion_rate" := 2.5]> ∅)
     = standardized_init.
Proof.
  assert ("woocommerce" <> "shopify") as H1 by discriminate.
  assert ("woocommerce" <> "hubspot") as H2 by discriminate.
  assert ("woocommerce" <> "google_analytics") as H3 by discriminate.
  split; [exact H1|]. split; [exact H2|]. split; [exact H3|].
  exact (proj1 (unknown_platform_all_zero "woocommerce" _ _ H1 H2 H3)).
Defined.

(** ** Missing funnel and missing baseline *)

(** C10: for every existing funnel with no stored ROI baseline the
    performance-fee calculation returns success = false with the
    missing-baseline message.  The funnel that [create_funnel_from_template]
    stores for the b2b_saas template has no ROI baseline: its automation
    rules are the template's list of triggers.  For it the calculation
    returns success = false with the text of the AttributeError that
    [automation_rules.get] raises on a list, which is not the
    missing-baseline message; the store is left as it was. *)
Theorem template_funnel_misses_baseline_message :
  exists created db funnel,
    create_funnel_from_template blank_row next_id demo_templates ∅ 3
      "b2b_saas" None
    = (Success created, db)
    /\ db !! cf_funnel_id created = Some funnel
    /\ automation_rules funnel
       = RulesArray
           [ "MQL scoring threshold reached";
             "Content download follow-up sequence";
             "Trial expiration reminders";
             "Meeting no-show follow-up";
             "Proposal follow-up sequence" ]%string
    /\ calculate_performance_fees no_subscription "2024-03-01T00:00:00" db
         (cf_funnel_id created) shop_payload
       = (Failure "'list' object has no attribute 'get'", db)
    /\ "'list' object has no attribute 'get'"%string
       <> "No ROI baseline found. Please import baseline data first."%string.
Proof.
  eexists _, _, _. split; [reflexivity|]. split; [reflexivity|].
  split; [reflexivity|]. split; [reflexivity | discriminate].
Qed.

(** X24: a calculation that fails writes nothing.  For a funnel identifier
    that is not in the store the baseline calculation, the performance-fee
    calculation and the summary return success = false with the error
    "Funnel not found"; for a stored funnel whose automation rules are empty
    or an object without an ROI baseline the performance-fee calculation
    returns success = false with the missing-baseline error; and whenever
    one of the two calculations returns a failure, the store is the one it
    was given. *)
Theorem failed_calculation_writes_nothing
    (get_user_subscription : Z -> option Subscription) (utcnow : string)
    (db : gmap Z SalesFunnel) (funnel_id : Z) (data : PlatformData) :
  (db !! funnel_id = None ->
     calculate_baseline_metrics utcnow db funnel_id data
     = (Failure "Funnel not found", db)
     /\ calculate_performance_fees get_user_subscription utcnow db funnel_id
          data
        = (Failure "Funnel not found", db)
     /\ get_funnel_roi_summary db funnel_id = Failure "Funnel not found")
  /\ (forall funnel rules,
        db !! funnel_id = Some funnel ->
        automation_rules funnel = RulesObject rules ->
        roi_baseline rules = None ->
        calculate_performance_fees get_user_subscription utcnow db funnel_id
          data
        = (Failure
             "No ROI baseline found. Please import baseline data first.",
           db))
  /\ (forall error db',
        calculate_baseline_metrics utcnow db funnel_id data
        = (Failure error, db') ->
        db' = db)
  /\ (forall error db',
        calculate_performance_fees get_user_subscription utcnow db funnel_id
          data
        = (Failure error, db') ->
        db' = db).
Proof.
  unfold calculate_baseline_metrics, calculate_performance_fees,
    get_funnel_roi_summary.
  split; [|split; [|split]].
  - by intros ->.
  - by intros funnel rules -> -> ->.
  - intros error db'.
    destruct (db !! funnel_id) as [funnel|]; [|by intros [= _ <-]].
    destruct (automation_rules funnel) as [rules|items];
      [discriminate | by intros [= _ <-]].
  - intros error db'.
    destruct (db !! funnel_id) as [funnel|]; [|by intros [= _ <-]].
    destruct (automation_rules funnel) as [rules|items];
      [|by intros [= _ <-]].
    destruct (roi_baseline rules) as [rb|];
      [discriminate | by intros [= _ <-]].
Qed.

Lemma total_revenue_key : "total_revenue" ∈ key_metrics.
Proof. unfold key_metrics. set_solver. Qed.

Lemma conversion_rate_key : "conversion_rate" ∈ key_metrics.
Proof. unfold key_metrics. set_solver. Qed.

Lemma average_order_value_key : "average_order_value" ∈ key_metrics.
Proof. unfold key_metrics. set_solver. Qed.

(** ** Tiered fee calculator *)

Lemma tiered_fees_total improvements targets current_metrics fee_rate :
  total_fees
    (_calculate_tiered_fees improvements targets current_metrics fee_rate)
  = Py.round2 (fst (fee_state improvements current_metrics fee_rate)).
Proof.
  unfold _calculate_tiered_fees.
  by destruct (fee_state improvements current_metrics fee_rate).
Qed.

Lemma tiered_fees_breakdown improvements targets current_metrics fee_rate :
  breakdown
    (_calculate_tiered_fees improvements targets current_metrics fee_rate)
  = snd (fee_state improvements current_metrics fee_rate).
Proof.
  unfold _calculate_tiered_fees.
  by destruct (fee_state improvements current_metrics fee_rate).
Qed.

Ltac fee_steps :=
  unfold fee_state, fee_components, fee_cap_step, aov_bonus_step,
    conversion_bonus_step, revenue_fee_step.

(** C1 as stated fails: from a conversion rate of 2.0 to 2.5 the absolute
    improvement is 0.5 points, not above 15, and the bonus is applied: the
    comparator's percentage is the relative change, 25. *)
Lemma conversion_bonus_absolute_points_counterexample :
  is_Some
    (breakdown
       (_calculate_tiered_fees
          (_calculate_improvements example_baseline example_current)
          (_calculate_performance_targets example_baseline)
          example_current 0.07)
     !! "conversion_bonus")
  /\ ~ (15 < Py.dict_get example_current "conversion_rate" 0
             - Py.dict_get example_baseline "conversion_rate" 0).
Proof.
  split.
  - vm_compute. eauto.
  - vm_compute. discriminate.
Qed.

(** C1, amended: the conversion bonus is included exactly when the
    conversion-rate entry of the improvement map is flagged improved and its
    percentage exceeds 15; on the comparator's output that percentage is the
    change relative to the baseline, (current - baseline) / baseline x 100,
    so the bonus is included exactly when the baseline conversion rate is
    positive and the relative improvement exceeds 15 percent. *)
Theorem conversion_bonus_trigger
    (improvements : gmap string ImprovementEntry)
    (targets : gmap string (gmap string Q))
    (baseline current_metrics : gmap string Q) (fee_rate : Q) :
  (is_Some
     (breakdown
        (_calculate_tiered_fees improvements targets current_metrics fee_rate)
      !! "conversion_bonus")
   <-> get_improved (Py.dict_get improvements "conversion_rate" no_entry)
       = true
       /\ 15 < get_percentage
                 (Py.dict_get improvements "conversion_rate" no_entry))
  /\ (is_Some
        (breakdown
           (_calculate_tiered_fees
              (_calculate_improvements baseline current_metrics) targets
              current_metrics fee_rate)
         !! "conversion_bonus")
      <-> 0 < Py.dict_get baseline "conversion_rate" 0
          /\ 15 < (Py.dict_get current_metrics "conversion_rate" 0
                   - Py.dict_get baseline "conversion_rate" 0)
                  / Py.dict_get baseline "conversion_rate" 0 * 100).
Proof.
  assert (forall imps,
    is_Some
     (breakdown (_calculate_tiered_fees imps targets current_metrics fee_rate)
      !! "conversion_bonus")
   <-> get_improved (Py.dict_get imps "conversion_rate" no_entry) = true
       /\ 15 < get_percentage (Py.dict_get imps "conversion_rate" no_entry))
    as Hgen.
  { intros imps. rewrite tiered_fees_breakdown, <- gt_true, <- andb_true_iff.
    fee_steps.
    destruct (get_improved (Py.dict_get imps "total_revenue" no_entry));
    destruct (get_improved (Py.dict_get imps "conversion_rate" no_entry)
              && Py.gt (get_percentage
                          (Py.dict_get imps "conversion_rate" no_entry)) 15);
    destruct (get_improved (Py.dict_get imps "average_order_value" no_entry)
              && Py.gt (get_percentage
                          (Py.dict_get imps "average_order_value" no_entry))
                   10);
    cbn [fst snd];
    match goal with |- context [if ?c then _ else _] => destruct c end;
    cbn [fst snd]; simplify_map_eq;
    (split; [intros [? ?]; naive_solver | intros ?; naive_solver]). }
  split; [apply Hgen|].
  rewrite Hgen, (improvement_entry _ _ _ conversion_rate_key).
  unfold improvement.
  destruct (Py.gt (Py.dict_get baseline "conversion_rate" 0) 0) eqn:Hpos;
    cbn.
  - apply gt_true in Hpos. rewrite !gt_true. split.
    + intros [_ H]. by split.
    + intros [_ H]. split; [|done].
      eapply Qlt_trans; [|exact H]. reflexivity.
  - apply gt_false in Hpos. split; [by intros [? _]|].
    intros [H _]. exfalso. revert Hpos. by apply Qlt_not_le.
Qed.

Lemma conversion_bonus_trigger_witness :
  (0 < Py.dict_get example_baseline "conversion_rate" 0
   /\ 15 < (Py.dict_get example_current "conversion_rate" 0
            - Py.dict_get example_baseline "conversion_rate" 0)
           / Py.dict_get example_baseline "conversion_rate" 0 * 100)
  /\ is_Some
       (breakdown
          (_calculate_tiered_fees
             (_calculate_improvements example_baseline example_current)
             (_calculate_performance_targets example_baseline)
             example_current 0.07)
        !! "conversion_bonus").
Proof.
  assert (0 < Py.dict_get example_baseline "conversion_rate" 0
          /\ 15 < (Py.dict_get example_current "conversion_rate" 0
                   - Py.dict_get example_baseline "conversion_rate" 0)
                  / Py.dict_get example_baseline "conversion_rate" 0 * 100)
    as Hrel by (split; reflexivity).
  split; [exact Hrel|].
  exact (proj2 (proj2 (conversion_bonus_trigger ∅
                         (_calculate_performance_targets example_baseline)
                         example_baseline example_current 0.07)) Hrel).
Defined.

(** ** Revenue fee *)

Lemma max_of_greater (a b : Q) : a < b -> Py.max a b = b.
Proof. intros H. unfold Py.max. by rewrite (proj2 (gt_true b a) H). Qed.

Lemma max_of_not_greater (a b : Q) : b <= a -> Py.max a b = a.
Proof. intros H. unfold Py.max. by rewrite (proj2 (gt_false b a) H). Qed.

Lemma max_zero_nonneg (x : Q) : 0 <= Py.max 0 x.
Proof.
  unfold Py.max. destruct (Py.gt x 0) eqn:H; [|apply Qle_refl].
  apply gt_true in H. by apply Qlt_le_weak.
Qed.

(** The comparator's percentage against a threshold, without the division. *)
Lemma percentage_gt (b c t : Q) :
  0 < b -> (t < (c - b) / b * 100 <-> t * b < (c - b) * 100).
Proof.
  intros Hb.
  assert ((c - b) / b * 100 * b == (c - b) * 100) as Heq.
  { field. intros H0. rewrite H0 in Hb. by apply Qlt_irrefl in Hb. }
  rewrite <- Heq. symmetry. by apply Qmult_lt_r.
Qed.

(** What the revenue section adds, on the comparator's output. *)
Lemma revenue_fee_component_value (baseline current : gmap string Q)
    (fee_rate : Q) :
  0 < Py.dict_get baseline "total_revenue" 0 ->
  revenue_fee_component (_calculate_improvements baseline current) fee_rate
  == if Py.gt ((Py.dict_get current "total_revenue" 0
                - Py.dict_get baseline "total_revenue" 0)
               / Py.dict_get baseline "total_revenue" 0 * 100) 5
     then Py.max 0 (Py.dict_get current "total_revenue" 0
                    - Py.dict_get baseline "total_revenue" 0) * fee_rate
     else 0.
Proof.
  intros Hb. unfold revenue_fee_component, revenue_fee_step.
  rewrite (improvement_entry _ _ _ total_revenue_key). unfold improvement.
  rewrite (proj2 (gt_true _ _) Hb). cbn.
  change (minimum_improvement_threshold * 100) with (0.05 * 100).
  assert (0.05 * 100 == 5) as -> by reflexivity.
  destruct (Py.gt _ 5); cbn; [ring | reflexivity].
Qed.

(** Every rate the service applies is one of 0.05, 0.07 and 0.10. *)
Lemma performance_fee_rates_nonneg (plan_name : string) :
  0 <= performance_fee_rates plan_name.
Proof.
  unfold performance_fee_rates.
  repeat match goal with |- context [if ?c then _ else _] => destruct c end;
    discriminate.
Qed.

(** C4: for a fixed fee rate (a rate is not negative) and a fixed positive
    baseline revenue, the revenue fee component does not decrease when
    current - baseline grows, it is 0 whenever current revenue is at most
    the baseline, and when the revenue improvement exceeds the 5 percent
    threshold it equals max(0, current - baseline) x fee_rate. *)
Theorem revenue_fee_monotone (baseline current current' : gmap string Q)
    (fee_rate : Q) :
  0 < Py.dict_get baseline "total_revenue" 0 ->
  0 <= fee_rate ->
  (Py.dict_get current "total_revenue" 0
   - Py.dict_get baseline "total_revenue" 0
   <= Py.dict_get current' "total_revenue" 0
      - Py.dict_get baseline "total_revenue" 0 ->
   revenue_fee_component (_calculate_improvements baseline current) fee_rate
   <= revenue_fee_component (_calculate_improvements baseline current')
        fee_rate)
  /\ (Py.dict_get current "total_revenue" 0
      <= Py.dict_get baseline "total_revenue" 0 ->
      revenue_fee_component (_calculate_improvements baseline current)
        fee_rate == 0)
  /\ (5 < (Py.dict_get current "total_revenue" 0
           - Py.dict_get baseline "total_revenue" 0)
          / Py.dict_get baseline "total_revenue" 0 * 100 ->
      revenue_fee_component (_calculate_improvements baseline current)
        fee_rate
      == Py.max 0 (Py.dict_get current "total_revenue" 0
                   - Py.dict_get baseline "total_revenue" 0) * fee_rate).
Proof.
  intros Hb Hrate.
  rewrite !revenue_fee_component_value by done.
  set (b := Py.dict_get baseline "total_revenue" 0) in *.
  set (c := Py.dict_get current "total_revenue" 0).
  set (c' := Py.dict_get current' "total_revenue" 0).
  split; [|split].
  - intros Hle.
    destruct (Py.gt ((c - b) / b * 100) 5) eqn:Hc;
      destruct (Py.gt ((c' - b) / b * 100) 5) eqn:Hc'.
    + apply Qmult_le_compat_r; [|done].
      apply gt_true, percentage_gt in Hc; [|done].
      apply gt_true, percentage_gt in Hc'; [|done].
      rewrite !max_of_greater; [done | lra | lra].
    + apply gt_true, percentage_gt in Hc; [|done].
      apply gt_false in Hc'.
      assert (5 < (c' - b) / b * 100) as Hlt
        by (apply percentage_gt; [done | lra]).
      exfalso. revert Hc'. by apply Qlt_not_le.
    + apply Qmult_le_0_compat; [apply max_zero_nonneg | done].
    + apply Qle_refl.
  - intros Hle.
    destruct (Py.gt ((c - b) / b * 100) 5) eqn:Hc; [|reflexivity].
    apply gt_true, percentage_gt in Hc; [|done]. lra.
  - intros Hgt. by rewrite (proj2 (gt_true _ _) Hgt).
Qed.

Lemma revenue_fee_monotone_witness :
  0 < Py.dict_get (revenue_only 100000) "total_revenue" 0
  /\ 0 <= 0.07
  /\ revenue_fee_component
       (_calculate_improvements (revenue_only 100000) (revenue_only 110000))
       0.07
     <= revenue_fee_component
          (_calculate_improvements (revenue_only 100000)
                                   (revenue_only 130000))
          0.07.
Proof.
  assert (0 < Py.dict_get (revenue_only 100000) "total_revenue" 0) as Hb
    by reflexivity.
  assert (0 <= 0.07) as Hrate by discriminate.
  split; [exact Hb|]. split; [exact Hrate|].
  apply (proj1 (revenue_fee_monotone (revenue_only 100000)
                  (revenue_only 110000) (revenue_only 130000) 0.07 Hb Hrate)).
  vm_compute. discriminate.
Defined.

(** ** Rounding *)

#[export] Instance round_half_even_proper :
  Proper (Qeq ==> eq) Py.round_half_even.
Proof.
  intros x y H. unfold Py.round_half_even.
  rewrite (Qfloor_comp x y H).
  assert (x - inject_Z (Qfloor y) == y - inject_Z (Qfloor y)) as Hr
    by (by rewrite H).
  by rewrite !Hr.
Qed.

#[export] Instance round2_proper : Proper (Qeq ==> eq) Py.round2.
Proof. intros x y H. unfold Py.round2. by rewrite H. Qed.

(** ** The worked example of the fee calculation *)

(** C3: with baseline revenue 100000, current revenue 130000 and fee rate
    0.07, when the conversion-rate and average-order-value improvements are
    at or below 15 and 10, the revenue improvement is 30 percent and flagged
    improved, the revenue fee is 30000 x 0.07 = 2100, the total fee is
    exactly 2100, and no cap is recorded, since 2100 < 0.15 x 130000. *)
Theorem example_revenue_fee_2100 (baseline current : gmap string Q)
    (targets : gmap string (gmap string Q)) :
  Py.dict_get baseline "total_revenue" 0 == 100000 ->
  Py.dict_get current "total_revenue" 0 == 130000 ->
  get_percentage
    (Py.dict_get (_calculate_improvements baseline current)
                 "conversion_rate" no_entry) <= 15 ->
  get_percentage
    (Py.dict_get (_calculate_improvements baseline current)
                 "average_order_value" no_entry) <= 10 ->
  get_percentage
    (Py.dict_get (_calculate_improvements baseline current)
                 "total_revenue" no_entry) == 30
  /\ get_improved
       (Py.dict_get (_calculate_improvements baseline current)
                    "total_revenue" no_entry) = true
  /\ revenue_fee_component (_calculate_improvements baseline current) 0.07
     == 30000 * 0.07
  /\ revenue_fee_component (_calculate_improvements baseline current) 0.07
     == 2100
  /\ total_fees
       (_calculate_tiered_fees (_calculate_improvements baseline current)
          targets current 0.07) == 2100
  /\ breakdown
       (_calculate_tiered_fees (_calculate_improvements baseline current)
          targets current 0.07) !! "fee_cap_applied" = None
  /\ 2100 < 0.15 * 130000.
Proof.
  intros Hb Hc Hconv Haov.
  apply gt_false in Hconv, Haov.
  rewrite tiered_fees_total, tiered_fees_breakdown.
  unfold revenue_fee_component. fee_steps.
  rewrite Hconv, Haov, !andb_false_r.
  rewrite (improvement_entry _ _ _ total_revenue_key). unfold improvement.
  set (b := Py.dict_get baseline "total_revenue" 0) in *.
  set (c := Py.dict_get current "total_revenue" 0) in *.
  assert (Py.gt b 0 = true) as -> by (rewrite Hb; reflexivity).
  cbn [get_percentage get_improved get_absolute_change imp_percentage
       imp_improved imp_absolute_change default].
  assert (Py.gt ((c - b) / b * 100) (minimum_improvement_threshold * 100)
          = true) as -> by (rewrite Hb, Hc; reflexivity).
  rewrite max_of_greater by (rewrite Hb, Hc; reflexivity).
  cbn [fst snd].
  assert (0.0 + (c - b) * 0.07 == 2100) as Hfee
    by (rewrite Hb, Hc; reflexivity).
  assert (Py.gt (0.0 + (c - b) * 0.07) (c * 0.15) = false) as ->
    by (rewrite Hb, Hc; reflexivity).
  cbn [andb fst snd].
  repeat split.
  - rewrite Hb, Hc. reflexivity.
  - rewrite Hfee. reflexivity.
  - exact Hfee.
  - rewrite Hfee. reflexivity.
Qed.

Lemma example_revenue_fee_2100_witness :
  Py.dict_get steady_baseline "total_revenue" 0 == 100000
  /\ Py.dict_get steady_current "total_revenue" 0 == 130000
  /\ total_fees
       (_calculate_tiered_fees
          (_calculate_improvements steady_baseline steady_current)
          (_calculate_performance_targets steady_baseline)
          steady_current 0.07) == 2100.
Proof.
  assert (Py.dict_get steady_baseline "total_revenue" 0 == 100000) as Hb
    by reflexivity.
  assert (Py.dict_get steady_current "total_revenue" 0 == 130000) as Hc
    by reflexivity.
  split; [exact Hb|]. split; [exact Hc|].
  apply (example_revenue_fee_2100 steady_baseline steady_current
           (_calculate_performance_targets steady_baseline) Hb Hc).
  - vm_compute. discriminate.
  - vm_compute. discriminate.
Defined.

(** ** The fee cap *)

Lemma round_half_even_close (q : Q) :
  inject_Z (Py.round_half_even q) - q <= 1 # 2
  /\ q - inject_Z (Py.round_half_even q) <= 1 # 2.
Proof.
  unfold Py.round_half_even.
  pose proof (Qfloor_le q) as Hlo. pose proof (Qlt_floor q) as Hhi.
  rewrite inject_Z_plus in Hhi. change (inject_Z 1) with 1 in Hhi.
  destruct (Py.gt (1 # 2) (q - inject_Z (Qfloor q))) eqn:Hlt.
  { apply gt_true in Hlt. lra. }
  apply gt_false in Hlt.
  destruct (Py.gt (q - inject_Z (Qfloor q)) (1 # 2)) eqn:Hgt.
  { apply gt_true in Hgt. rewrite inject_Z_plus.
    change (inject_Z 1) with 1. lra. }
  apply gt_false in Hgt.
  destruct (Z.even (Qfloor q)); [lra|].
  rewrite inject_Z_plus. change (inject_Z 1) with 1. lra.
Qed.

(** Rounding to cents moves an amount by at most half a cent. *)
Lemma round2_close (x : Q) :
  Py.round2 x <= x + 0.005 /\ x - 0.005 <= Py.round2 x.
Proof.
  unfold Py.round2.
  destruct (round_half_even_close (x * 100)) as [Hup Hdown].
  set (n := inject_Z (Py.round_half_even (x * 100))) in *.
  assert (n / 100 == n * 0.01) as -> by (unfold Qdiv; reflexivity).
  lra.
Qed.

(** C2 as stated fails.  With a reported gain of 2000 at the rate 0.10 and
    a current revenue of 1000.37, the revenue fee 200 is capped at 150.0555
    and returned rounded to cents, 150.06; and with a reported gain of 100 at
    the rate 0.05 and a current revenue of 0 the cap is not applied at all,
    so a fee of 5 is returned against a cap of 0. *)
Lemma fee_cap_counterexample :
  0.15 * Py.dict_get (revenue_only 1000.37) "total_revenue" 0
  < total_fees
      (_calculate_tiered_fees (reported_gain 8000 10000) ∅
         (revenue_only 1000.37) 0.10)
  /\ 0.15 * Py.dict_get (revenue_only 0) "total_revenue" 0
     < total_fees
         (_calculate_tiered_fees (reported_gain 400 500) ∅ (revenue_only 0)
            0.05).
Proof. split; reflexivity. Qed.

Lemma fee_cap_counterexample_values :
  total_fees
    (_calculate_tiered_fees (reported_gain 8000 10000) ∅
       (revenue_only 1000.37) 0.10) == 150.06
  /\ 0.15 * 1000.37 == 150.0555
  /\ total_fees
       (_calculate_tiered_fees (reported_gain 400 500) ∅ (revenue_only 0)
          0.05) == 5.
Proof. repeat split. Qed.

(** C2, amended: when the current total revenue is positive, the total
    before the final rounding never exceeds 0.15 x current revenue, for any
    improvement map, targets and fee rate; the returned total is that amount
    rounded to 2 decimals, so it exceeds the cap by at most 0.005; and when
    the pre-cap sum exceeds the cap, the breakdown records the pre-cap and
    post-cap amounts under fee_cap_applied. *)
Theorem fee_cap_bound (improvements : gmap string ImprovementEntry)
    (targets : gmap string (gmap string Q))
    (current_metrics : gmap string Q) (fee_rate : Q) :
  0 < Py.dict_get current_metrics "total_revenue" 0 ->
  fst (fee_state improvements current_metrics fee_rate)
  <= 0.15 * Py.dict_get current_metrics "total_revenue" 0
  /\ total_fees
       (_calculate_tiered_fees improvements targets current_metrics fee_rate)
     = Py.round2 (fst (fee_state improvements current_metrics fee_rate))
  /\ total_fees
       (_calculate_tiered_fees improvements targets current_metrics fee_rate)
     <= 0.15 * Py.dict_get current_metrics "total_revenue" 0 + 0.005
  /\ (0.15 * Py.dict_get current_metrics "total_revenue" 0
      < fst (fee_components improvements current_metrics fee_rate) ->
      breakdown
        (_calculate_tiered_fees improvements targets current_metrics fee_rate)
        !! "fee_cap_applied"
      = Some
          (FeeCapApplied
             (fst (fee_components improvements current_metrics fee_rate))
             (Py.dict_get current_metrics "total_revenue" 0 * 0.15)
             0.15)).
Proof.
  intros Hrev.
  rewrite tiered_fees_total, tiered_fees_breakdown.
  assert (fst (fee_state improvements current_metrics fee_rate)
          <= 0.15 * Py.dict_get current_metrics "total_revenue" 0) as Hcap.
  { unfold fee_state.
    destruct (fee_components improvements current_metrics fee_rate)
      as [total bd].
    unfold fee_cap_step. rewrite (proj2 (gt_true _ _) Hrev), andb_true_r.
    destruct (Py.gt total _) eqn:Hgt; cbn [fst].
    - lra.
    - apply gt_false in Hgt. lra. }
  split; [exact Hcap|]. split; [reflexivity|]. split.
  - destruct (round2_close
                (fst (fee_state improvements current_metrics fee_rate)))
      as [Hup _]. lra.
  - unfold fee_state.
    destruct (fee_components improvements current_metrics fee_rate)
      as [total bd].
    cbn [fst]. intros Hover. unfold fee_cap_step.
    rewrite (proj2 (gt_true _ _) Hrev), andb_true_r.
    assert (Py.gt total
              (Py.dict_get current_metrics "total_revenue" 0 * 0.15) = true)
      as -> by (apply gt_true; lra).
    cbn [snd]. by rewrite lookup_insert_eq.
Qed.

Lemma fee_cap_bound_witness :
  0 < Py.dict_get (revenue_only 1000.37) "total_revenue" 0
  /\ fst (fee_state (reported_gain 8000 10000) (revenue_only 1000.37) 0.10)
     <= 0.15 * Py.dict_get (revenue_only 1000.37) "total_revenue" 0
  /\ total_fees
       (_calculate_tiered_fees (reported_gain 8000 10000) ∅
          (revenue_only 1000.37) 0.10)
     <= 0.15 * Py.dict_get (revenue_only 1000.37) "total_revenue" 0 + 0.005.
Proof.
  assert (0 < Py.dict_get (revenue_only 1000.37) "total_revenue" 0) as Hrev
    by reflexivity.
  split; [exact Hrev|].
  pose proof (fee_cap_bound (reported_gain 8000 10000) ∅
                (revenue_only 1000.37) 0.10 Hrev) as (Hcap & _ & Hround & _).
  split; [exact Hcap | exact Hround].
Defined.

(** ** Signs of the standardized metrics *)

Lemma dict_get_nonneg (d : gmap string Q) (k : string) :
  nonnegative d -> 0 <= Py.dict_get d k 0.
Proof.
  intros Hd. unfold Py.dict_get.
  destruct (d !! k) as [v|] eqn:Hk; [exact (Hd k v Hk) | apply Qle_refl].
Qed.

Lemma dict_update_nonneg (kvs : list (string * Q)) (d : gmap string Q) :
  nonnegative d -> Forall (fun kv => 0 <= kv.2) kvs ->
  nonnegative (Py.dict_update d kvs).
Proof.
  intros Hd Hkvs. revert d Hd.
  induction Hkvs as [|kv kvs Hkv _ IH]; intros d Hd; [exact Hd|].
  apply IH. by apply map_Forall_insert_2.
Qed.

Lemma standardized_init_nonneg : nonnegative standardized_init.
Proof.
  apply dict_update_nonneg; [apply map_Forall_empty|].
  repeat (apply Forall_cons_2; [discriminate|]). apply Forall_nil_2.
Qed.

Lemma estimate_cac_nonneg (revenue customers : Q) :
  0 <= revenue -> 0 <= customers -> 0 <= _estimate_cac revenue customers.
Proof.
  intros Hr Hc. unfold _estimate_cac.
  destruct (Qeq_bool customers 0) eqn:Hz; [discriminate|].
  apply Qeq_bool_neq in Hz.
  apply Qle_shift_div_l; [|lra].
  apply Qle_lteq in Hc as [Hc | Hc]; [exact Hc|].
  exfalso. apply Hz. by symmetry.
Qed.

Lemma estimate_cost_per_lead_nonneg (leads : Q) :
  0 <= leads -> 0 <= _estimate_cost_per_lead leads.
Proof.
  intros Hl. unfold _estimate_cost_per_lead.
  destruct (Qeq_bool leads 0) eqn:Hz; [discriminate|].
  apply Qeq_bool_neq in Hz.
  unfold Py.min. destruct (Py.gt 25.0 _); [|discriminate].
  apply Qle_shift_div_l; [|discriminate].
  apply Qle_lteq in Hl as [Hl | Hl]; [exact Hl|].
  exfalso. apply Hz. by symmetry.
Qed.

Lemma max_one_positive (x : Q) : 0 < Py.max 1 x.
Proof.
  unfold Py.max. destruct (Py.gt x 1) eqn:H; [|reflexivity].
  apply gt_true in H. lra.
Qed.

Lemma platform_update_nonneg (platform : string)
    (metrics baseline_data standardized : gmap string Q) :
  nonnegative metrics -> nonnegative baseline_data ->
  nonnegative standardized ->
  nonnegative (platform_update platform metrics baseline_data standardized).
Proof.
  intros Hm Hb Hs. unfold platform_update.
  repeat match goal with
         | |- context [if String.eqb ?a ?b then _ else _] =>
             destruct (String.eqb a b)
         end;
    [ .. | exact Hs ];
    (apply dict_update_nonneg; [exact Hs|]);
    repeat (apply Forall_cons_2; [cbn [snd] |]);
    try apply Forall_nil_2;
    try (by apply dict_get_nonneg);
    try (apply estimate_cac_nonneg; by apply dict_get_nonneg);
    try (apply estimate_cost_per_lead_nonneg; by apply dict_get_nonneg).
  - pose proof (dict_get_nonneg metrics "total_orders" Hm).
    pose proof (dict_get_nonneg metrics "abandoned_checkouts" Hm). lra.
  - pose proof (dict_get_nonneg metrics "total_revenue" Hm). lra.
  - apply Qle_shift_div_l; [apply max_one_positive|].
    pose proof (dict_get_nonneg metrics "total_revenue" Hm). lra.
Qed.

Lemma item_insert_eq (d : gmap string Q) (k : string) (v : Q) :
  item (<[k := v]> d) k = v.
Proof. unfold item, Py.dict_get. by rewrite lookup_insert_eq. Qed.

Lemma item_insert_ne (d : gmap string Q) (k k' : string) (v : Q) :
  k <> k' -> item (<[k := v]> d) k' = item d k'.
Proof. intros H. unfold item, Py.dict_get. by rewrite lookup_insert_ne. Qed.

Ltac item_lookup :=
  cbn [Py.dict_update foldl fst snd];
  repeat first [ rewrite item_insert_eq
               | rewrite item_insert_ne by discriminate ].

(** The operational costs are 0 or 30 percent of the revenue. *)
Lemma platform_update_costs (platform : string)
    (metrics baseline_data : gmap string Q) :
  nonnegative metrics ->
  item (platform_update platform metrics baseline_data standardized_init)
       "operational_costs"
  <= item (platform_update platform metrics baseline_data standardized_init)
          "total_revenue".
Proof.
  intros Hm. pose proof (dict_get_nonneg metrics "total_revenue" Hm) as Hr.
  unfold platform_update, standardized_init.
  repeat match goal with
         | |- context [if String.eqb ?a ?b then _ else _] =>
             destruct (String.eqb a b)
         end;
    item_lookup; try lra; discriminate.
Qed.

Lemma platform_update_roi (platform : string)
    (metrics baseline_data : gmap string Q) :
  item (platform_update platform metrics baseline_data standardized_init)
       "roi_percentage" = 0.0.
Proof.
  unfold platform_update, standardized_init.
  repeat match goal with
         | |- context [if String.eqb ?a ?b then _ else _] =>
             destruct (String.eqb a b)
         end;
    by item_lookup.
Qed.

Lemma roi_update_nonneg (standardized : gmap string Q) :
  nonnegative standardized ->
  item standardized "operational_costs" <= item standardized "total_revenue" ->
  nonnegative (roi_update standardized).
Proof.
  intros Hs Hle. unfold roi_update.
  destruct (Py.gt _ 0) eqn:Hpos; [|exact Hs].
  apply gt_true in Hpos. apply map_Forall_insert_2; [|exact Hs].
  apply Qmult_le_0_compat; [|discriminate].
  apply Qle_shift_div_l; [exact Hpos | lra].
Qed.

Lemma lifetime_update_nonneg (standardized : gmap string Q) :
  nonnegative standardized -> nonnegative (lifetime_update standardized).
Proof.
  intros Hs. unfold lifetime_update.
  destruct (Py.gt _ 0); [|exact Hs].
  apply map_Forall_insert_2; [|exact Hs].
  pose proof (dict_get_nonneg standardized "average_order_value" Hs).
  unfold item. lra.
Qed.

Lemma item_lifetime_update (standardized : gmap string Q) (k : string) :
  k <> "lifetime_value" ->
  item (lifetime_update standardized) k = item standardized k.
Proof.
  intros Hk. unfold lifetime_update.
  destruct (Py.gt _ 0); [|reflexivity].
  apply item_insert_ne. congruence.
Qed.

(** C6 as stated fails: the mapper copies the raw values, so a negative raw
    revenue gives a negative total_revenue (and negative operational
    costs). *)
Lemma negative_revenue_counterexample :
  ~ nonnegative
      (_standardize_baseline_metrics "shopify" (revenue_only (-100)) ∅).
Proof.
  intros H. specialize (H "total_revenue" (-100) eq_refl).
  revert H. by apply Qlt_not_le.
Qed.

(** C6, amended: for every platform identifier, when no value of the raw
    metrics and baseline data is negative, the standardized record has no
    negative field; and for every input, its roi_percentage field is 0
    whenever its operational_costs field is 0. *)
Theorem standardized_metrics_signs (platform : string)
    (metrics baseline_data : gmap string Q) :
  (nonnegative metrics -> nonnegative baseline_data ->
   nonnegative (_standardize_baseline_metrics platform metrics baseline_data))
  /\ (item (_standardize_baseline_metrics platform metrics baseline_data)
           "operational_costs" == 0 ->
      item (_standardize_baseline_metrics platform metrics baseline_data)
           "roi_percentage" == 0).
Proof.
  unfold _standardize_baseline_metrics. split.
  - intros Hm Hb. apply lifetime_update_nonneg, roi_update_nonneg.
    + apply platform_update_nonneg; [done | done |].
      apply standardized_init_nonneg.
    + by apply platform_update_costs.
  - rewrite !item_lifetime_update by discriminate.
    unfold roi_update.
    destruct (Py.gt _ 0) eqn:Hpos.
    + apply gt_true in Hpos. intros Hzero. exfalso.
      rewrite item_insert_ne in Hzero by discriminate.
      rewrite Hzero in Hpos. by apply Qlt_irrefl in Hpos.
    + intros _. rewrite platform_update_roi. reflexivity.
Qed.

Lemma standardized_metrics_signs_witness :
  nonnegative shop_metrics /\ nonnegative shop_baseline_data
  /\ nonnegative
       (_standardize_baseline_metrics "shopify" shop_metrics
          shop_baseline_data)
  /\ (item (_standardize_baseline_metrics "unknown" shop_metrics
              shop_baseline_data) "operational_costs" == 0 ->
      item (_standardize_baseline_metrics "unknown" shop_metrics
              shop_baseline_data) "roi_percentage" == 0).
Proof.
  assert (nonnegative shop_metrics) as Hm.
  { apply dict_update_nonneg; [apply map_Forall_empty|].
    repeat (apply Forall_cons_2; [discriminate|]). apply Forall_nil_2. }
  assert (nonnegative shop_baseline_data) as Hb.
  { apply dict_update_nonneg; [apply map_Forall_empty|].
    repeat (apply Forall_cons_2; [discriminate|]). apply Forall_nil_2. }
  split; [exact Hm|]. split; [exact Hb|]. split.
  - exact (proj1 (standardized_metrics_signs "shopify" shop_metrics
                    shop_baseline_data) Hm Hb).
  - exact (proj2 (standardized_metrics_signs "unknown" shop_metrics
                    shop_baseline_data)).
Defined.

(** ** Rounding of the total *)

(** C7: the total is the capped sum of the components rounded to 2
    decimals, half-up.  The code rounds with [round], ties to even: for a
    baseline revenue of 10, a current revenue of 12.5 and the starter rate
    0.05 the sum is 0.125 (below the cap 1.875), the function returns 0.12,
    and half-up rounding gives 0.13. *)
Theorem half_cent_total_rounds_to_even :
  fst (fee_state half_cent_improvements (revenue_only 12.5) 0.05) == 0.125
  /\ total_fees
       (_calculate_tiered_fees half_cent_improvements ∅ (revenue_only 12.5)
          0.05) == 0.12
  /\ Py.round2_half_up
       (fst (fee_state half_cent_improvements (revenue_only 12.5) 0.05))
     == 0.13
  /\ ~ (total_fees
          (_calculate_tiered_fees half_cent_improvements ∅
             (revenue_only 12.5) 0.05)
        == Py.round2_half_up
             (fst (fee_state half_cent_improvements (revenue_only 12.5)
                     0.05))).
Proof. repeat split. vm_compute. discriminate. Qed.

(** The returned total is the capped sum in cents, rounded to the nearest
    integer with ties to even, over 100. *)
Lemma total_fees_is_round2 (improvements : gmap string ImprovementEntry)
    (targets : gmap string (gmap string Q))
    (current_metrics : gmap string Q) (fee_rate : Q) :
  total_fees
    (_calculate_tiered_fees improvements targets current_metrics fee_rate)
  = inject_Z
      (Py.round_half_even
         (fst (fee_state improvements current_metrics fee_rate) * 100))
    / 100.
Proof. by rewrite tiered_fees_total. Qed.

(** ** The service on concrete funnels *)

Lemma failed_calculation_writes_nothing_witness :
  (∅ : gmap Z SalesFunnel) !! 7%Z = None
  /\ calculate_baseline_metrics "2024-03-01T00:00:00" ∅ 7 shop_payload
     = (Failure "Funnel not found", ∅)
  /\ calculate_performance_fees no_subscription "2024-03-01T00:00:00" ∅ 7
       shop_payload
     = (Failure "Funnel not found", ∅)
  /\ ({[ 7%Z := fresh_funnel ]} : gmap Z SalesFunnel) !! 7%Z
     = Some fresh_funnel
  /\ automation_rules fresh_funnel = RulesObject no_rules
  /\ roi_baseline no_rules = None
  /\ calculate_performance_fees no_subscription "2024-03-01T00:00:00"
       {[ 7%Z := fresh_funnel ]} 7 shop_payload
     = (Failure "No ROI baseline found. Please import baseline data first.",
        {[ 7%Z := fresh_funnel ]}).
Proof.
  assert ((∅ : gmap Z SalesFunnel) !! 7%Z = None) as Hnone by reflexivity.
  assert (({[ 7%Z := fresh_funnel ]} : gmap Z SalesFunnel) !! 7%Z
          = Some fresh_funnel) as Hsome by reflexivity.
  assert (automation_rules fresh_funnel = RulesObject no_rules) as Hrules
    by reflexivity.
  assert (roi_baseline no_rules = None) as Hbase by reflexivity.
  destruct (failed_calculation_writes_nothing no_subscription
              "2024-03-01T00:00:00" ∅ 7 shop_payload) as [Hmissing _].
  destruct (failed_calculation_writes_nothing no_subscription
              "2024-03-01T00:00:00" {[ 7%Z := fresh_funnel ]} 7 shop_payload)
    as (_ & Hnobase & _).
  split; [exact Hnone|].
  split; [exact (proj1 (Hmissing Hnone))|].
  split; [exact (proj1 (proj2 (Hmissing Hnone)))|].
  split; [exact Hsome|]. split; [exact Hrules|]. split; [exact Hbase|].
  exact (Hnobase fresh_funnel no_rules Hsome Hrules Hbase).
Defined.

(** The half-cent total reached through the service: a starter-plan funnel
    with baseline revenue 10 and current revenue 12.5 is charged 0.12. *)
Lemma half_cent_fee_through_service :
  exists summary db',
    calculate_performance_fees no_subscription "2024-03-01T00:00:00"
      {[ 7%Z := half_cent_funnel ]} 7 half_cent_payload
    = (Success summary, db')
    /\ fs_fee_rate summary == 0.05
    /\ fs_total_fees summary == 0.12.
Proof. eexists _, _. split; [reflexivity|]. split; reflexivity. Qed.

(** * Further properties of the service *)

(** ** Cost per lead *)

(** X1: the cost-per-lead estimate never exceeds 25; it is 0 for no leads,
    25 for up to 40 leads and 1000 / leads from 40 leads on. *)
Theorem cost_per_lead_bounds (leads : Q) :
  _estimate_cost_per_lead leads <= 25
  /\ (leads == 0 -> _estimate_cost_per_lead leads == 0)
  /\ (0 < leads -> leads <= 40 -> _estimate_cost_per_lead leads == 25)
  /\ (40 <= leads -> _estimate_cost_per_lead leads == 1000 / leads).
Proof.
  unfold _estimate_cost_per_lead, Py.min.
  assert (forall l, 0 < l -> (25 < 1000 / l <-> l < 40)) as Hdiv.
  { intros l Hl.
    assert (1000 / l * l == 1000) as Heq
      by (field; intros H0; rewrite H0 in Hl; by apply Qlt_irrefl in Hl).
    rewrite <- (Qmult_lt_r _ _ l Hl), Heq. split; intros; lra. }
  repeat split.
  - destruct (Qeq_bool leads 0); [discriminate|].
    destruct (Py.gt 25.0 (1000.0 / leads)) eqn:Hgt; [|discriminate].
    apply gt_true in Hgt. apply Qlt_le_weak.
    eapply Qlt_le_trans; [exact Hgt | discriminate].
  - intros Hz. apply Qeq_bool_iff in Hz. rewrite Hz. reflexivity.
  - intros Hpos Hle.
    destruct (Qeq_bool leads 0) eqn:Hz.
    { apply Qeq_bool_iff in Hz. rewrite Hz in Hpos.
      by apply Qlt_irrefl in Hpos. }
    destruct (Py.gt 25.0 (1000.0 / leads)) eqn:Hgt; [|reflexivity].
    apply gt_true in Hgt.
    assert (1000.0 == 1000) as H1000 by reflexivity.
    assert (25.0 == 25) as H25 by reflexivity.
    rewrite H1000, H25 in Hgt.
    apply Qle_lteq in Hle as [Hlt | Heq].
    + apply (Hdiv leads Hpos) in Hlt. lra.
    + rewrite Heq in Hgt. vm_compute in Hgt. discriminate.
  - intros Hge.
    assert (0 < leads) as Hpos by lra.
    destruct (Qeq_bool leads 0) eqn:Hz.
    { apply Qeq_bool_iff in Hz. rewrite Hz in Hpos.
      by apply Qlt_irrefl in Hpos. }
    destruct (Py.gt 25.0 (1000.0 / leads)) eqn:Hgt;
      [by assert (1000.0 == 1000) as -> by reflexivity|].
    apply gt_false in Hgt.
    assert (1000.0 == 1000) as H1000 by reflexivity.
    assert (25.0 == 25) as H25 by reflexivity.
    rewrite H1000, H25 in Hgt.
    apply Qle_lteq in Hgt as [Hlt | Heq].
    + apply (Hdiv leads Hpos) in Hlt. lra.
    + rewrite H25, Heq. reflexivity.
Qed.

Lemma cost_per_lead_bounds_witness :
  0 < 16 /\ 16 <= 40 /\ _estimate_cost_per_lead 16 == 25
  /\ 40 <= 250 /\ _estimate_cost_per_lead 250 == 1000 / 250
  /\ 0 == 0 /\ _estimate_cost_per_lead 0 == 0.
Proof.
  assert (0 < 16) as H1 by reflexivity.
  assert (16 <= 40) as H2 by discriminate.
  assert (40 <= 250) as H3 by discriminate.
  assert (0 == 0) as H4 by reflexivity.
  split; [exact H1|]. split; [exact H2|].
  split; [exact (proj1 (proj2 (proj2 (cost_per_lead_bounds 16))) H1 H2)|].
  split; [exact H3|].
  split; [exact (proj2 (proj2 (proj2 (cost_per_lead_bounds 250))) H3)|].
  split; [exact H4|].
  exact (proj1 (proj2 (cost_per_lead_bounds 0)) H4).
Defined.

(** ** The components of the fee *)

Lemma mult_le_compat_l (x y z : Q) : 0 <= z -> x <= y -> z * x <= z * y.
Proof.
  intros Hz Hxy. rewrite (Qmult_comm z x), (Qmult_comm z y).
  by apply Qmult_le_compat_r.
Qed.

Lemma min_positive (a x : Q) : 0 < a -> 0 < x -> 0 < Py.min a x.
Proof. intros Ha Hx. unfold Py.min. by destruct (Py.gt a x). Qed.

Lemma min_le_first (a x : Q) : Py.min a x <= a.
Proof.
  unfold Py.min. destruct (Py.gt a x) eqn:H; [|apply Qle_refl].
  apply gt_true in H. by apply Qlt_le_weak.
Qed.

Lemma revenue_fee_component_unfold
    (improvements : gmap string ImprovementEntry) (fee_rate : Q) :
  revenue_fee_component improvements fee_rate
  == if get_improved (Py.dict_get improvements "total_revenue" no_entry)
     then Py.max 0 (get_absolute_change
                      (Py.dict_get improvements "total_revenue" no_entry))
          * fee_rate
     else 0.
Proof.
  unfold revenue_fee_component, revenue_fee_step.
  destruct (get_improved _); cbn [fst]; [ring | reflexivity].
Qed.

Lemma conversion_bonus_component_unfold
    (improvements : gmap string ImprovementEntry)
    (current_metrics : gmap string Q) :
  conversion_bonus_component improvements current_metrics
  == if get_improved (Py.dict_get improvements "conversion_rate" no_entry)
        && Py.gt (get_percentage
                    (Py.dict_get improvements "conversion_rate" no_entry)) 15
     then Py.dict_get current_metrics "total_revenue" 0
          * Py.min 0.02
              ((get_percentage
                  (Py.dict_get improvements "conversion_rate" no_entry) - 15)
               * 0.001)
     else 0.
Proof.
  unfold conversion_bonus_component, conversion_bonus_step.
  destruct (_ && _); cbn [fst]; [ring | reflexivity].
Qed.

Lemma aov_bonus_component_unfold
    (improvements : gmap string ImprovementEntry)
    (current_metrics : gmap string Q) :
  aov_bonus_component improvements current_metrics
  == if get_improved
          (Py.dict_get improvements "average_order_value" no_entry)
        && Py.gt (get_percentage
                    (Py.dict_get improvements "average_order_value"
                       no_entry)) 10
     then Py.dict_get current_metrics "total_revenue" 0
          * Py.min 0.01
              ((get_percentage
                  (Py.dict_get improvements "average_order_value" no_entry)
                - 10) * 0.0005)
     else 0.
Proof.
  unfold aov_bonus_component, aov_bonus_step.
  destruct (_ && _); cbn [fst]; [ring | reflexivity].
Qed.

(** The total before the cap is the sum of the three components. *)
Lemma fee_components_sum (improvements : gmap string ImprovementEntry)
    (current_metrics : gmap string Q) (fee_rate : Q) :
  fst (fee_components improvements current_metrics fee_rate)
  == revenue_fee_component improvements fee_rate
     + conversion_bonus_component improvements current_metrics
     + aov_bonus_component improvements current_metrics.
Proof.
  unfold fee_components, revenue_fee_component, conversion_bonus_component,
    aov_bonus_component, aov_bonus_step, conversion_bonus_step,
    revenue_fee_step.
  destruct (get_improved (Py.dict_get improvements "total_revenue" no_entry));
    destruct (get_improved
                (Py.dict_get improvements "conversion_rate" no_entry) && _);
    destruct (get_improved
                (Py.dict_get improvements "average_order_value" no_entry)
              && _);
    cbn [fst]; ring.
Qed.

Lemma conversion_bonus_component_bounds
    (improvements : gmap string ImprovementEntry)
    (current_metrics : gmap string Q) :
  0 <= Py.dict_get current_metrics "total_revenue" 0 ->
  0 <= conversion_bonus_component improvements current_metrics
  /\ conversion_bonus_component improvements current_metrics
     <= 0.02 * Py.dict_get current_metrics "total_revenue" 0.
Proof.
  intros Hc. rewrite conversion_bonus_component_unfold.
  destruct (_ && _) eqn:Hcond; [|split; lra].
  apply andb_true_iff in Hcond as [_ Hp]. apply gt_true in Hp.
  set (p := get_percentage _) in *.
  pose proof (min_le_first 0.02 ((p - 15) * 0.001)) as Hup.
  assert (0 < Py.min 0.02 ((p - 15) * 0.001)) as Hlo
    by (apply min_positive; [reflexivity | lra]).
  split.
  - apply Qmult_le_0_compat; [exact Hc | by apply Qlt_le_weak].
  - rewrite (Qmult_comm 0.02). by apply mult_le_compat_l.
Qed.

Lemma aov_bonus_component_bounds
    (improvements : gmap string ImprovementEntry)
    (current_metrics : gmap string Q) :
  0 <= Py.dict_get current_metrics "total_revenue" 0 ->
  0 <= aov_bonus_component improvements current_metrics
  /\ aov_bonus_component improvements current_metrics
     <= 0.01 * Py.dict_get current_metrics "total_revenue" 0.
Proof.
  intros Hc. rewrite aov_bonus_component_unfold.
  destruct (_ && _) eqn:Hcond; [|split; lra].
  apply andb_true_iff in Hcond as [_ Hp]. apply gt_true in Hp.
  set (p := get_percentage _) in *.
  pose proof (min_le_first 0.01 ((p - 10) * 0.0005)) as Hup.
  assert (0 < Py.min 0.01 ((p - 10) * 0.0005)) as Hlo
    by (apply min_positive; [reflexivity | lra]).
  split.
  - apply Qmult_le_0_compat; [exact Hc | by apply Qlt_le_weak].
  - rewrite (Qmult_comm 0.01). by apply mult_le_compat_l.
Qed.

Lemma revenue_fee_component_nonneg
    (improvements : gmap string ImprovementEntry) (fee_rate : Q) :
  0 <= fee_rate -> 0 <= revenue_fee_component improvements fee_rate.
Proof.
  intros Hrate. rewrite revenue_fee_component_unfold.
  destruct (get_improved _); [|apply Qle_refl].
  apply Qmult_le_0_compat; [apply max_zero_nonneg | exact Hrate].
Qed.

(** The improved flag of a comparator entry, without the division. *)
Lemma improved_spec (b c : Q) :
  get_improved (improvement b c) = true <-> 0 < b /\ 1.05 * b < c.
Proof.
  unfold improvement.
  destruct (Py.gt b 0) eqn:Hb; cbn [get_improved imp_improved].
  - apply gt_true in Hb. rewrite gt_true, (percentage_gt b c _ Hb).
    change (minimum_improvement_threshold * 100) with (0.05 * 100).
    split; [intros H; split; [exact Hb | lra] | intros [_ H]; lra].
  - apply gt_false in Hb. split; [discriminate|].
    intros [H _]. exfalso. revert Hb. by apply Qlt_not_le.
Qed.

Lemma absolute_change_spec (b c : Q) :
  0 < b -> get_absolute_change (improvement b c) = c - b.
Proof.
  intros Hb. unfold improvement. by rewrite (proj2 (gt_true _ _) Hb).
Qed.

(** On the comparator's output the revenue fee is at most the rate times the
    current revenue. *)
Lemma revenue_fee_component_le (baseline current : gmap string Q)
    (fee_rate cap_rate : Q) :
  0 <= fee_rate -> fee_rate <= cap_rate ->
  0 <= Py.dict_get current "total_revenue" 0 ->
  revenue_fee_component (_calculate_improvements baseline current) fee_rate
  <= cap_rate * Py.dict_get current "total_revenue" 0.
Proof.
  intros Hlo Hhi Hc. rewrite revenue_fee_component_unfold.
  rewrite (improvement_entry _ _ _ total_revenue_key).
  set (b := Py.dict_get baseline "total_revenue" 0).
  set (c := Py.dict_get current "total_revenue" 0) in *.
  destruct (get_improved (improvement b c)) eqn:Himp.
  - apply improved_spec in Himp as [Hb Hgain].
    rewrite (absolute_change_spec b c Hb), max_of_greater by lra.
    apply Qle_trans with ((c - b) * cap_rate).
    + apply mult_le_compat_l; [lra | exact Hhi].
    + rewrite (Qmult_comm cap_rate c).
      apply Qmult_le_compat_r; lra.
  - apply Qmult_le_0_compat; lra.
Qed.

(** ** Bonus rates *)

Ltac fee_conditions improvements :=
  destruct (get_improved (Py.dict_get improvements "total_revenue" no_entry));
  destruct (get_improved
              (Py.dict_get improvements "conversion_rate" no_entry)
            && Py.gt (get_percentage
                        (Py.dict_get improvements "conversion_rate"
                           no_entry)) 15) eqn:Hconv;
  destruct (get_improved
              (Py.dict_get improvements "average_order_value" no_entry)
            && Py.gt (get_percentage
                        (Py.dict_get improvements "average_order_value"
                           no_entry)) 10) eqn:Haov;
  cbn [fst snd].

(** X2: a conversion bonus in the breakdown has a percentage above 15 and a
    rate in (0, 0.02], and its amount is that rate times the current revenue;
    an AOV bonus has a percentage above 10 and a rate in (0, 0.01]. *)
Theorem bonus_rates_capped (improvements : gmap string ImprovementEntry)
    (targets : gmap string (gmap string Q))
    (current_metrics : gmap string Q) (fee_rate : Q) :
  (forall p r a rev,
     breakdown
       (_calculate_tiered_fees improvements targets current_metrics fee_rate)
       !! "conversion_bonus" = Some (ConversionBonus p r a rev) ->
     15 < p /\ 0 < r /\ r <= 0.02
     /\ rev = Py.dict_get current_metrics "total_revenue" 0
     /\ a = rev * r)
  /\ (forall p r a,
        breakdown
          (_calculate_tiered_fees improvements targets current_metrics
             fee_rate)
          !! "aov_bonus" = Some (AovBonus p r a) ->
        10 < p /\ 0 < r /\ r <= 0.01
        /\ a = Py.dict_get current_metrics "total_revenue" 0 * r).
Proof.
  rewrite tiered_fees_breakdown. fee_steps.
  split; intros *; fee_conditions improvements;
    match goal with |- context [if ?c then _ else _] => destruct c end;
    cbn [fst snd]; simplify_map_eq; intros;
    repeat match goal with
           | H : Some _ = Some _ |- _ => injection H as <- <- <- <- || injection H as <- <- <-
           | H : Some _ = Some _ |- _ => discriminate H
           | H : None = Some _ |- _ => discriminate H
           end.
  all: try (apply andb_true_iff in Hconv as [_ Hconv]; apply gt_true in Hconv;
            split; [exact Hconv|];
            split; [apply min_positive; [reflexivity | lra]|];
            split; [apply min_le_first | done]).
  all: apply andb_true_iff in Haov as [_ Haov]; apply gt_true in Haov;
       split; [exact Haov|];
       split; [apply min_positive; [reflexivity | lra]|];
       split; [apply min_le_first | done].
Qed.

Lemma bonus_rates_capped_witness :
  breakdown
    (_calculate_tiered_fees
       (_calculate_improvements example_baseline example_current) ∅
       example_current 0.07)
    !! "conversion_bonus"
  = Some (ConversionBonus ((2.5 - 2.0) / 2.0 * 100)
            ((((2.5 - 2.0) / 2.0 * 100) - 15) * 0.001)
            (130000 * ((((2.5 - 2.0) / 2.0 * 100) - 15) * 0.001)) 130000)
  /\ 0 < (((2.5 - 2.0) / 2.0 * 100) - 15) * 0.001
  /\ (((2.5 - 2.0) / 2.0 * 100) - 15) * 0.001 <= 0.02.
Proof.
  assert (breakdown
            (_calculate_tiered_fees
               (_calculate_improvements example_baseline example_current) ∅
               example_current 0.07)
            !! "conversion_bonus"
          = Some (ConversionBonus ((2.5 - 2.0) / 2.0 * 100)
                    ((((2.5 - 2.0) / 2.0 * 100) - 15) * 0.001)
                    (130000 * ((((2.5 - 2.0) / 2.0 * 100) - 15) * 0.001))
                    130000)) as Hbonus by reflexivity.
  split; [exact Hbonus|].
  destruct (proj1 (bonus_rates_capped _ _ _ _) _ _ _ _ Hbonus)
    as (_ & Hlo & Hhi & _).
  split; [exact Hlo | exact Hhi].
Defined.

(** ** When the cap applies *)

Lemma components_without_cap_key
    (improvements : gmap string ImprovementEntry)
    (current_metrics : gmap string Q) (fee_rate : Q) :
  snd (fee_components improvements current_metrics fee_rate)
    !! "fee_cap_applied" = None.
Proof.
  unfold fee_components, aov_bonus_step, conversion_bonus_step,
    revenue_fee_step.
  fee_conditions improvements; by simplify_map_eq.
Qed.

Lemma performance_fee_rates_le (plan_name : string) :
  performance_fee_rates plan_name <= 0.10.
Proof.
  unfold performance_fee_rates.
  repeat match goal with |- context [if ?c then _ else _] => destruct c end;
    discriminate.
Qed.

(** At a rate of at most 0.12 the three components of the fee computed from
    the comparator's output stay within 15 percent of the current revenue,
    so the cap is not applied. *)
Lemma cap_not_applied_on_comparator_output (baseline current : gmap string Q)
    (targets : gmap string (gmap string Q)) (fee_rate : Q) :
  0 <= fee_rate -> fee_rate <= 0.12 ->
  breakdown
    (_calculate_tiered_fees (_calculate_improvements baseline current)
       targets current fee_rate) !! "fee_cap_applied" = None.
Proof.
  intros Hlo Hhi. rewrite tiered_fees_breakdown. unfold fee_state.
  pose proof (components_without_cap_key
                (_calculate_improvements baseline current) current fee_rate)
    as Hkey.
  pose proof (fee_components_sum
                (_calculate_improvements baseline current) current fee_rate)
    as Hsum.
  destruct (fee_components _ current fee_rate) as [total bd].
  cbn [fst snd] in *. unfold fee_cap_step.
  set (c := Py.dict_get current "total_revenue" 0) in *.
  destruct (Py.gt total (c * 0.15) && Py.gt c 0) eqn:Hcap;
    cbn [snd]; [|exact Hkey].
  exfalso. apply andb_true_iff in Hcap as [Hover Hpos].
  apply gt_true in Hover, Hpos.
  assert (0 <= c) as Hc by lra.
  pose proof (revenue_fee_component_le baseline current fee_rate 0.12
                Hlo Hhi Hc) as Hrev.
  destruct (conversion_bonus_component_bounds
              (_calculate_improvements baseline current) current Hc)
    as [_ Hcb].
  destruct (aov_bonus_component_bounds
              (_calculate_improvements baseline current) current Hc)
    as [_ Hab].
  fold c in Hrev, Hcb, Hab. lra.
Qed.

(** X3: whatever the subscription, the stored baseline and the period data,
    a successful performance-fee calculation never records fee_cap_applied:
    at the plan rates the fee computed from the comparator's output cannot
    reach 15 percent of the current revenue. *)
Theorem service_never_applies_cap
    (get_user_subscription : Z -> option Subscription) (utcnow : string)
    (db db' : gmap Z SalesFunnel) (funnel_id : Z) (data : PlatformData)
    (summary : FeeSummary) :
  calculate_performance_fees get_user_subscription utcnow db funnel_id data
  = (Success summary, db') ->
  fs_fee_breakdown summary !! "fee_cap_applied" = None.
Proof.
  unfold calculate_performance_fees.
  destruct (db !! funnel_id) as [funnel|]; [|discriminate].
  destruct (automation_rules funnel) as [rules|items]; [|discriminate].
  destruct (roi_baseline rules) as [rb|]; [|discriminate].
  intros [= <- _]. cbn [fs_fee_breakdown].
  apply cap_not_applied_on_comparator_output.
  - apply performance_fee_rates_nonneg.
  - eapply Qle_trans; [apply performance_fee_rates_le | discriminate].
Qed.

Lemma service_never_applies_cap_witness :
  exists summary db',
    calculate_performance_fees no_subscription "2024-03-01T00:00:00"
      {[ 7%Z := half_cent_funnel ]} 7 half_cent_payload
    = (Success summary, db')
    /\ fs_fee_breakdown summary !! "fee_cap_applied" = None.
Proof.
  eexists _, _. split.
  - reflexivity.
  - eapply (service_never_applies_cap no_subscription "2024-03-01T00:00:00"
              {[ 7%Z := half_cent_funnel ]} _ 7 half_cent_payload).
    reflexivity.
Defined.

(** ** No improvement, no fee *)

Lemma round_half_even_nonneg (q : Q) : 0 <= q -> (0 <= Py.round_half_even q)%Z.
Proof.
  intros Hq. unfold Py.round_half_even.
  assert (0 <= Qfloor q)%Z as Hf
    by (change 0%Z with (Qfloor 0); by apply Qfloor_resp_le).
  repeat match goal with |- context [if ?c then _ else _] => destruct c end;
    lia.
Qed.

Lemma round2_nonneg (x : Q) : 0 <= x -> 0 <= Py.round2 x.
Proof.
  intros Hx. unfold Py.round2.
  apply Qle_shift_div_l; [reflexivity|].
  assert (0 * 100 == inject_Z 0) as -> by reflexivity.
  rewrite <- Zle_Qle. apply round_half_even_nonneg.
  apply Qmult_le_0_compat; [exact Hx | discriminate].
Qed.

Lemma fee_state_without_improvement
    (improvements : gmap string ImprovementEntry)
    (current_metrics : gmap string Q) (fee_rate : Q) :
  get_improved (Py.dict_get improvements "total_revenue" no_entry) = false ->
  get_improved (Py.dict_get improvements "conversion_rate" no_entry) = false ->
  get_improved (Py.dict_get improvements "average_order_value" no_entry)
  = false ->
  fee_state improvements current_metrics fee_rate = (0.0, ∅).
Proof.
  intros Hrev Hconv Haov.
  fee_steps. rewrite Hrev, Hconv, Haov. cbn [andb].
  set (c := Py.dict_get current_metrics "total_revenue" 0).
  destruct (Py.gt 0.0 (c * 0.15) && Py.gt c 0) eqn:Hcap; [|reflexivity].
  exfalso. apply andb_true_iff in Hcap as [Hover Hpos].
  apply gt_true in Hover, Hpos. lra.
Qed.

(** X4: when none of the revenue, conversion-rate and average-order-value
    entries of the improvement map is flagged improved, the total fee is 0,
    the breakdown is empty and the result is not fee-qualifying, for any
    targets, current metrics and fee rate. *)
Theorem no_improvement_no_fee (improvements : gmap string ImprovementEntry)
    (targets : gmap string (gmap string Q))
    (current_metrics : gmap string Q) (fee_rate : Q) :
  get_improved (Py.dict_get improvements "total_revenue" no_entry) = false ->
  get_improved (Py.dict_get improvements "conversion_rate" no_entry) = false ->
  get_improved (Py.dict_get improvements "average_order_value" no_entry)
  = false ->
  total_fees
    (_calculate_tiered_fees improvements targets current_metrics fee_rate)
  == 0
  /\ breakdown
       (_calculate_tiered_fees improvements targets current_metrics fee_rate)
     = ∅
  /\ fee_qualifying
       (_calculate_tiered_fees improvements targets current_metrics fee_rate)
     = false.
Proof.
  intros Hrev Hconv Haov.
  unfold _calculate_tiered_fees.
  rewrite (fee_state_without_improvement _ _ _ Hrev Hconv Haov).
  cbn [total_fees breakdown fee_qualifying]. by repeat split.
Qed.

Lemma no_improvement_no_fee_witness :
  get_improved
    (Py.dict_get (_calculate_improvements steady_current steady_baseline)
       "total_revenue" no_entry) = false
  /\ total_fees
       (_calculate_tiered_fees
          (_calculate_improvements steady_current steady_baseline) ∅
          steady_baseline 0.07) == 0.
Proof.
  assert (get_improved
            (Py.dict_get
               (_calculate_improvements steady_current steady_baseline)
               "total_revenue" no_entry) = false) as Hrev by reflexivity.
  split; [exact Hrev|].
  apply (no_improvement_no_fee
           (_calculate_improvements steady_current steady_baseline) ∅
           steady_baseline 0.07 Hrev); reflexivity.
Defined.

(** X5: for a fee rate that is not negative and a current revenue that is
    not negative, the total fee is not negative, for any improvement map. *)
Theorem total_fees_nonneg (improvements : gmap string ImprovementEntry)
    (targets : gmap string (gmap string Q))
    (current_metrics : gmap string Q) (fee_rate : Q) :
  0 <= fee_rate ->
  0 <= Py.dict_get current_metrics "total_revenue" 0 ->
  0 <= total_fees
         (_calculate_tiered_fees improvements targets current_metrics
            fee_rate).
Proof.
  intros Hrate Hc. rewrite tiered_fees_total. apply round2_nonneg.
  unfold fee_state.
  pose proof (fee_components_sum improvements current_metrics fee_rate)
    as Hsum.
  destruct (fee_components improvements current_metrics fee_rate)
    as [total bd].
  cbn [fst] in Hsum. unfold fee_cap_step.
  destruct (_ && _); cbn [fst]; [lra|].
  rewrite Hsum.
  pose proof (revenue_fee_component_nonneg improvements fee_rate Hrate).
  destruct (conversion_bonus_component_bounds improvements current_metrics Hc)
    as [? _].
  destruct (aov_bonus_component_bounds improvements current_metrics Hc)
    as [? _].
  lra.
Qed.

Lemma total_fees_nonneg_witness :
  0 <= 0.07
  /\ 0 <= Py.dict_get example_current "total_revenue" 0
  /\ 0 <= total_fees
            (_calculate_tiered_fees
               (_calculate_improvements example_baseline example_current) ∅
               example_current 0.07).
Proof.
  assert (0 <= 0.07) as Hrate by discriminate.
  assert (0 <= Py.dict_get example_current "total_revenue" 0) as Hc
    by discriminate.
  split; [exact Hrate|]. split; [exact Hc|].
  exact (total_fees_nonneg _ ∅ example_current 0.07 Hrate Hc).
Defined.

(** ** Shape of the comparator's output *)

(** X6: the comparator returns exactly the four key metrics.  Each entry
    records the baseline and current values it was computed from.  For a
    positive baseline its absolute change is current - baseline and its
    percentage is that change divided by the baseline, times 100; otherwise
    they are the current value and 0.  An entry is flagged improved exactly
    when the baseline is positive and the percentage it records exceeds 5,
    and never when the current value does not exceed the baseline. *)
Theorem comparator_entries (baseline current : gmap string Q) :
  dom (_calculate_improvements baseline current) = list_to_set key_metrics
  /\ forall metric e,
       _calculate_improvements baseline current !! metric = Some e ->
       imp_baseline e = Some (Py.dict_get baseline metric 0)
       /\ imp_current e = Some (Py.dict_get current metric 0)
       /\ imp_absolute_change e
          = Some (if Py.gt (Py.dict_get baseline metric 0) 0
                  then Py.dict_get current metric 0
                       - Py.dict_get baseline metric 0
                  else Py.dict_get current metric 0)
       /\ imp_percentage e
          = Some (if Py.gt (Py.dict_get baseline metric 0) 0
                  then (Py.dict_get current metric 0
                        - Py.dict_get baseline metric 0)
                       / Py.dict_get baseline metric 0 * 100
                  else 0)
       /\ (imp_improved e = Some true
           <-> 0 < Py.dict_get baseline metric 0 /\ 5 < get_percentage e)
       /\ (Py.dict_get current metric 0 <= Py.dict_get baseline metric 0 ->
           imp_improved e = Some false).
Proof.
  assert (dom (_calculate_improvements baseline current)
          = list_to_set key_metrics) as Hdom.
  { unfold _calculate_improvements, key_metrics. cbn [foldl].
    rewrite !dom_insert_L, dom_empty_L. set_solver. }
  split; [exact Hdom|].
  intros metric e Hlook.
  assert (metric ∈ key_metrics) as Hin.
  { apply (elem_of_dom_2 (D := gset string)) in Hlook.
    rewrite Hdom in Hlook. by apply elem_of_list_to_set in Hlook. }
  rewrite (calculate_improvements_lookup _ _ _ Hin) in Hlook.
  injection Hlook as <-.
  set (b := Py.dict_get baseline metric 0).
  set (c := Py.dict_get current metric 0).
  unfold improvement.
  destruct (Py.gt b 0) eqn:Hb;
    cbn [imp_baseline imp_current imp_absolute_change imp_percentage
         imp_improved get_percentage];
    (split; [done|]); (split; [done|]); (split; [done|]); (split; [done|]).
  - apply gt_true in Hb.
    change (minimum_improvement_threshold * 100) with (0.05 * 100).
    split.
    + split.
      * intros [= Hgt]. apply gt_true in Hgt. split; [exact Hb | lra].
      * intros [_ Hgt]. f_equal. apply gt_true. lra.
    + intros Hle. f_equal. apply gt_false.
      assert ((c - b) / b * 100 <= 0) as Hneg; [|lra].
      assert ((c - b) / b <= 0); [|lra].
      apply Qle_shift_div_r; [exact Hb | lra].
  - apply gt_false in Hb. split; [|done].
    split; [discriminate|]. intros [Hpos _]. lra.
Qed.

Lemma comparator_entries_witness :
  _calculate_improvements example_baseline example_current
    !! "conversion_rate" = Some (improvement 2.0 2.5)
  /\ imp_current (improvement 2.0 2.5)
     = Some (Py.dict_get example_current "conversion_rate" 0)
  /\ (0 < Py.dict_get example_baseline "conversion_rate" 0
      /\ 5 < get_percentage (improvement 2.0 2.5))
  /\ imp_improved (improvement 2.0 2.5) = Some true.
Proof.
  assert (_calculate_improvements example_baseline example_current
            !! "conversion_rate" = Some (improvement 2.0 2.5)) as Hlook
    by reflexivity.
  assert (0 < Py.dict_get example_baseline "conversion_rate" 0
          /\ 5 < get_percentage (improvement 2.0 2.5)) as Hgain
    by (split; reflexivity).
  destruct (proj2 (comparator_entries example_baseline example_current)
              _ _ Hlook) as (_ & Hcur & _ & _ & Himp & _).
  split; [exact Hlook|]. split; [exact Hcur|]. split; [exact Hgain|].
  exact (proj2 Himp Hgain).
Defined.

(** ** Shape and ROI of the standardized record *)

Ltac split_ifs :=
  repeat match goal with
         | |- context [if ?c then _ else _] => destruct c eqn:?
         end.

(** X7: for every platform identifier and every input, the standardized
    record has exactly the ten keys, so the subscripts the mapper and its
    callers apply to it are always present. *)
Theorem standardized_record_keys (platform : string)
    (metrics baseline_data : gmap string Q) :
  dom (_standardize_baseline_metrics platform metrics baseline_data)
  = list_to_set standardized_keys.
Proof.
  unfold _standardize_baseline_metrics, lifetime_update, roi_update,
    platform_update, standardized_init, standardized_keys.
  split_ifs; cbn [Py.dict_update foldl fst snd];
    rewrite !dom_insert_L, dom_empty_L; set_solver.
Qed.

Lemma platform_update_costs_value (platform : string)
    (metrics baseline_data : gmap string Q) :
  item (platform_update platform metrics baseline_data standardized_init)
       "operational_costs"
  = if String.eqb platform "shopify"
    then Py.dict_get metrics "total_revenue" 0 * 0.3 else 0.0.
Proof.
  unfold platform_update, standardized_init.
  split_ifs; by item_lookup.
Qed.

Lemma platform_update_revenue_value (platform : string)
    (metrics baseline_data : gmap string Q) :
  item (platform_update platform metrics baseline_data standardized_init)
       "total_revenue"
  = if String.eqb platform "shopify" || String.eqb platform "hubspot"
       || String.eqb platform "google_analytics"
    then Py.dict_get metrics "total_revenue" 0 else 0.0.
Proof.
  unfold platform_update, standardized_init.
  split_ifs; by item_lookup.
Qed.

Lemma standardized_roi (platform : string)
    (metrics baseline_data : gmap string Q) :
  item (_standardize_baseline_metrics platform metrics baseline_data)
       "roi_percentage"
  == if String.eqb platform "shopify"
        && Py.gt (Py.dict_get metrics "total_revenue" 0) 0
     then 700 # 3 else 0.
Proof.
  unfold _standardize_baseline_metrics.
  rewrite item_lifetime_update by discriminate. unfold roi_update.
  rewrite platform_update_costs_value, platform_update_revenue_value.
  set (r := Py.dict_get metrics "total_revenue" 0).
  destruct (String.eqb platform "shopify") eqn:Hshop; cbn [andb orb].
  - assert (Py.gt (r * 0.3) 0 = Py.gt r 0) as ->.
    { destruct (Py.gt r 0) eqn:Hr.
      - apply gt_true in Hr. apply gt_true. lra.
      - apply gt_false in Hr. apply gt_false. lra. }
    destruct (Py.gt r 0) eqn:Hr.
    + apply gt_true in Hr. rewrite item_insert_eq. field.
      intros H0. rewrite H0 in Hr. by apply Qlt_irrefl in Hr.
    + rewrite platform_update_roi. reflexivity.
  - assert (Py.gt 0.0 0 = false) as -> by reflexivity.
    rewrite platform_update_roi. reflexivity.
Qed.

(** X8: the standardized roi_percentage is 0 for every platform other than
    shopify and whenever the revenue is not positive; for shopify with a
    positive revenue it lies between 233.33 and 233.34 whatever the revenue,
    the operational costs being 30 percent of the revenue. *)
Theorem roi_percentage_values (platform : string)
    (metrics baseline_data : gmap string Q) :
  (platform = "shopify" -> 0 < Py.dict_get metrics "total_revenue" 0 ->
   233.33 < item (_standardize_baseline_metrics platform metrics
                    baseline_data) "roi_percentage"
   /\ item (_standardize_baseline_metrics platform metrics baseline_data)
           "roi_percentage" < 233.34)
  /\ (platform <> "shopify" ->
      item (_standardize_baseline_metrics platform metrics baseline_data)
           "roi_percentage" == 0)
  /\ (Py.dict_get metrics "total_revenue" 0 <= 0 ->
      item (_standardize_baseline_metrics platform metrics baseline_data)
           "roi_percentage" == 0).
Proof.
  pose proof (standardized_roi platform metrics baseline_data) as Hroi.
  split; [|split].
  - intros -> Hr. rewrite (proj2 (gt_true _ _) Hr) in Hroi.
    change (String.eqb "shopify" "shopify" && true) with true in Hroi.
    rewrite Hroi. split; reflexivity.
  - intros Hp. apply String.eqb_neq in Hp. rewrite Hroi. by rewrite Hp.
  - intros Hr. rewrite Hroi.
    rewrite (proj2 (gt_false _ _) Hr), andb_false_r. reflexivity.
Qed.

Lemma roi_percentage_values_witness :
  "shopify" = "shopify"
  /\ 0 < Py.dict_get shop_metrics "total_revenue" 0
  /\ 233.33 < item (_standardize_baseline_metrics "shopify" shop_metrics
                      shop_baseline_data) "roi_percentage"
  /\ "hubspot" <> "shopify"
  /\ item (_standardize_baseline_metrics "hubspot" shop_metrics
             shop_baseline_data) "roi_percentage" == 0.
Proof.
  assert (0 < Py.dict_get shop_metrics "total_revenue" 0) as Hr
    by reflexivity.
  assert ("hubspot" <> "shopify") as Hp by discriminate.
  split; [reflexivity|]. split; [exact Hr|].
  split; [exact (proj1 (proj1 (roi_percentage_values "shopify" shop_metrics
                                 shop_baseline_data) eq_refl Hr))|].
  split; [exact Hp|].
  exact (proj1 (proj2 (roi_percentage_values "hubspot" shop_metrics
                         shop_baseline_data)) Hp).
Defined.

(** X9: whatever the platforms and the raw data of the baseline and of the
    current period, the comparator never flags the roi_percentage metric as
    improved: both values are 0 or 700/3. *)
Theorem roi_never_improves (platform platform' : string)
    (metrics baseline_data metrics' baseline_data' : gmap string Q) :
  exists e,
    _calculate_improvements
      (_standardize_baseline_metrics platform metrics baseline_data)
      (_standardize_baseline_metrics platform' metrics' baseline_data')
      !! "roi_percentage" = Some e
    /\ imp_improved e = Some false.
Proof.
  assert ("roi_percentage" ∈ key_metrics) as Hin
    by (unfold key_metrics; set_solver).
  eexists. split; [by apply calculate_improvements_lookup|].
  pose proof (standardized_roi platform metrics baseline_data) as Hb.
  pose proof (standardized_roi platform' metrics' baseline_data') as Hc.
  unfold item in Hb, Hc.
  set (b := Py.dict_get (_standardize_baseline_metrics platform _ _) _ 0)
    in *.
  set (c := Py.dict_get (_standardize_baseline_metrics platform' _ _) _ 0)
    in *.
  destruct (get_improved (improvement b c)) eqn:Himp.
  - exfalso. apply improved_spec in Himp as [Hpos Hgain].
    destruct (_ && _) in Hb; destruct (_ && _) in Hc; lra.
  - unfold get_improved, improvement in *.
    destruct (Py.gt b 0); cbn [imp_improved] in *; by f_equal.
Qed.

(** ** Performance targets *)

Lemma dict_get_insert_eq {V} (d : gmap string V) (k : string) (v dflt : V) :
  Py.dict_get (<[k := v]> d) k dflt = v.
Proof. unfold Py.dict_get. by rewrite lookup_insert_eq. Qed.

Lemma dict_get_insert_ne {V} (d : gmap string V) (k k' : string)
    (v dflt : V) :
  k <> k' -> Py.dict_get (<[k := v]> d) k' dflt = Py.dict_get d k' dflt.
Proof. intros H. unfold Py.dict_get. by rewrite lookup_insert_ne. Qed.

Ltac dict_lookup :=
  cbn [Py.dict_update foldl fst snd];
  repeat first [ rewrite dict_get_insert_eq
               | rewrite dict_get_insert_ne by discriminate ].

(** X10: the targets dict has one tier dict for each of revenue,
    conversion_rate, average_order_value and roi_percentage; its baseline
    entry is the baseline metric itself (total_revenue for revenue); and for
    a baseline value that is not negative the tiers are ordered,
    baseline <= tier_1 <= tier_2 <= tier_3. *)
Theorem performance_targets_ordered (baseline : gmap string Q)
    (key : string) :
  key ∈ target_keys ->
  tier (_calculate_performance_targets baseline) key "baseline"
  = Py.dict_get baseline (target_metric key) 0
  /\ (0 <= Py.dict_get baseline (target_metric key) 0 ->
      tier (_calculate_performance_targets baseline) key "baseline"
      <= tier (_calculate_performance_targets baseline) key "tier_1"
      /\ tier (_calculate_performance_targets baseline) key "tier_1"
         <= tier (_calculate_performance_targets baseline) key "tier_2"
      /\ tier (_calculate_performance_targets baseline) key "tier_2"
         <= tier (_calculate_performance_targets baseline) key "tier_3").
Proof.
  unfold target_keys. intros Hin.
  repeat (apply elem_of_cons in Hin as [-> | Hin]);
    [ .. | by apply elem_of_nil in Hin ];
    unfold _calculate_performance_targets, tier; dict_lookup;
    (split; [reflexivity|]); intros Hpos;
    change (target_metric "revenue") with "total_revenue" in *;
    change (target_metric "conversion_rate") with "conversion_rate" in *;
    change (target_metric "average_order_value")
      with "average_order_value" in *;
    change (target_metric "roi_percentage") with "roi_percentage" in *;
    repeat split; lra.
Qed.

Lemma performance_targets_ordered_witness :
  "revenue" ∈ target_keys
  /\ 0 <= Py.dict_get steady_baseline (target_metric "revenue") 0
  /\ tier (_calculate_performance_targets steady_baseline) "revenue" "tier_1"
     <= tier (_calculate_performance_targets steady_baseline) "revenue"
          "tier_2".
Proof.
  assert ("revenue" ∈ target_keys) as Hin
    by (unfold target_keys; set_solver).
  assert (0 <= Py.dict_get steady_baseline (target_metric "revenue") 0)
    as Hpos by discriminate.
  split; [exact Hin|]. split; [exact Hpos|].
  exact (proj1 (proj2 (proj2 (performance_targets_ordered steady_baseline
                                "revenue" Hin) Hpos))).
Defined.

(** ** The service on a stored funnel *)

Lemma unchanged_value_not_improved (v : Q) :
  get_improved (improvement v v) = false.
Proof.
  destruct (get_improved (improvement v v)) eqn:Himp; [|reflexivity].
  apply improved_spec in Himp as [Hpos Hgain]. lra.
Qed.

(** Comparing a metrics dict with itself flags nothing. *)
Lemma unchanged_metrics_fee_state (metrics : gmap string Q) (fee_rate : Q) :
  fee_state (_calculate_improvements metrics metrics) metrics fee_rate
  = (0.0, ∅).
Proof.
  apply fee_state_without_improvement.
  - rewrite (improvement_entry _ _ _ total_revenue_key).
    apply unchanged_value_not_improved.
  - rewrite (improvement_entry _ _ _ conversion_rate_key).
    apply unchanged_value_not_improved.
  - rewrite (improvement_entry _ _ _ average_order_value_key).
    apply unchanged_value_not_improved.
Qed.

(** X11: for a stored funnel whose automation rules are empty or an object,
    the baseline calculation on a payload of numbers returns the
    standardized metrics, stores them as the funnel's baseline and copies
    their operational costs, revenue and ROI to the funnel; it keeps the
    owner, the name and the latest performance and leaves every other funnel
    as it was; after it the performance-fee calculation for that funnel, on
    period data of numbers, succeeds. *)
Theorem baseline_import_enables_fees
    (get_user_subscription : Z -> option Subscription)
    (utcnow utcnow' : string) (db : gmap Z SalesFunnel) (funnel_id : Z)
    (funnel : SalesFunnel) (rules : AutomationRules)
    (data data' : PlatformData) :
  db !! funnel_id = Some funnel ->
  automation_rules funnel = RulesObject rules ->
  exists summary db' stored baseline,
    calculate_baseline_metrics utcnow db funnel_id data
    = (Success summary, db')
    /\ (forall other, other <> funnel_id -> db' !! other = db !! other)
    /\ db' !! funnel_id = Some stored
    /\ user_id stored = user_id funnel
    /\ funnel_name stored = funnel_name funnel
    /\ automation_rules stored
       = RulesObject {| roi_baseline := Some baseline;
                        latest_performance := latest_performance rules |}
    /\ rb_baseline_metrics baseline
       = _standardize_baseline_metrics
           (default "unknown" (pd_platform data))
           (default ∅ (pd_metrics data))
           (default ∅ (pd_baseline_data data))
    /\ bs_baseline_metrics summary = rb_baseline_metrics baseline
    /\ total_investment stored
       = Py.dict_get (rb_baseline_metrics baseline) "operational_costs" 0
    /\ generated_revenue stored
       = Py.dict_get (rb_baseline_metrics baseline) "total_revenue" 0
    /\ calculated_roi stored
       = Py.dict_get (rb_baseline_metrics baseline) "roi_percentage" 0
    /\ success
         (fst (calculate_performance_fees get_user_subscription utcnow' db'
                 funnel_id data')) = true.
Proof.
  intros Hsome Hrules. unfold calculate_baseline_metrics.
  rewrite Hsome, Hrules. eexists _, _, _, _.
  split; [reflexivity|]. split; [|split; [apply lookup_insert_eq|]].
  - intros other Hne. by rewrite lookup_insert_ne.
  - cbn [user_id funnel_name automation_rules total_investment
         generated_revenue calculated_roi bs_baseline_metrics
         rb_baseline_metrics].
    do 8 (split; [reflexivity|]).
    unfold calculate_performance_fees. rewrite lookup_insert_eq.
    reflexivity.
Qed.

Lemma baseline_import_enables_fees_witness :
  ({[ 7%Z := fresh_funnel ]} : gmap Z SalesFunnel) !! 7%Z = Some fresh_funnel
  /\ automation_rules fresh_funnel = RulesObject no_rules
  /\ exists summary db',
       calculate_baseline_metrics "2024-02-01T00:00:00"
         {[ 7%Z := fresh_funnel ]} 7 shop_payload
       = (Success summary, db')
       /\ success
            (fst (calculate_performance_fees no_subscription
                    "2024-03-01T00:00:00" db' 7 half_cent_payload)) = true.
Proof.
  assert (({[ 7%Z := fresh_funnel ]} : gmap Z SalesFunnel) !! 7%Z
          = Some fresh_funnel) as Hsome by reflexivity.
  assert (automation_rules fresh_funnel = RulesObject no_rules) as Hrules
    by reflexivity.
  split; [exact Hsome|]. split; [exact Hrules|].
  destruct (baseline_import_enables_fees no_subscription
              "2024-02-01T00:00:00" "2024-03-01T00:00:00" _ 7 fresh_funnel
              no_rules shop_payload half_cent_payload Hsome Hrules)
    as (summary & db' & stored & baseline & Hcall & _ & _ & _ & _ & _ & _
        & _ & _ & _ & _ & Hfees).
  exists summary, db'. split; [exact Hcall | exact Hfees].
Defined.

(** X12: billing the period the baseline was imported from charges
    nothing: after a successful baseline calculation, the performance-fee
    calculation with the same payload succeeds with a total fee of 0 and an
    empty breakdown. *)
Theorem rebilling_baseline_period_is_free
    (get_user_subscription : Z -> option Subscription)
    (utcnow utcnow' : string) (db db1 : gmap Z SalesFunnel) (funnel_id : Z)
    (data : PlatformData) (imported : BaselineSummary) :
  calculate_baseline_metrics utcnow db funnel_id data
  = (Success imported, db1) ->
  exists summary db',
    calculate_performance_fees get_user_subscription utcnow' db1 funnel_id
      data
    = (Success summary, db')
    /\ fs_total_fees summary == 0
    /\ fs_fee_breakdown summary = ∅
    /\ fs_current_revenue summary = fs_baseline_revenue summary.
Proof.
  unfold calculate_baseline_metrics.
  destruct (db !! funnel_id) as [funnel|]; [|discriminate].
  destruct (automation_rules funnel) as [rules|items]; [|discriminate].
  intros [= _ <-].
  unfold calculate_performance_fees. rewrite lookup_insert_eq.
  cbn [automation_rules roi_baseline rb_baseline_metrics rb_platform
       rb_performance_targets user_id].
  eexists _, _. split; [reflexivity|].
  cbn [fs_total_fees fs_fee_breakdown fs_current_revenue
       fs_baseline_revenue].
  assert (default (default "unknown" (pd_platform data)) (pd_platform data)
          = default "unknown" (pd_platform data)) as ->
    by (by destruct (pd_platform data)).
  unfold _calculate_tiered_fees.
  rewrite unchanged_metrics_fee_state.
  cbn [total_fees breakdown]. by repeat split.
Qed.

Lemma rebilling_baseline_period_is_free_witness :
  exists imported db1 summary db',
    calculate_baseline_metrics "2024-02-01T00:00:00"
      {[ 7%Z := fresh_funnel ]} 7 shop_payload
    = (Success imported, db1)
    /\ calculate_performance_fees no_subscription "2024-03-01T00:00:00" db1 7
         shop_payload
       = (Success summary, db')
    /\ fs_total_fees summary == 0
    /\ fs_fee_breakdown summary = ∅
    /\ fs_current_revenue summary = fs_baseline_revenue summary.
Proof.
  eassert (calculate_baseline_metrics "2024-02-01T00:00:00"
             {[ 7%Z := fresh_funnel ]} 7 shop_payload
           = (Success _, _)) as Hcall by reflexivity.
  destruct (rebilling_baseline_period_is_free no_subscription
              "2024-02-01T00:00:00" "2024-03-01T00:00:00" _ _ 7 shop_payload
              _ Hcall) as (summary & db' & Hfees).
  eexists _, _, summary, db'. split; [exact Hcall | exact Hfees].
Defined.

(** X13: a successful performance-fee calculation keeps the stored
    baseline, the owner, the name and the investment of the funnel and
    leaves every other funnel as it was; repeating it with the same period
    data and the same clock reading returns the same result and leaves the
    store as the first call left it. *)
Theorem performance_fees_idempotent
    (get_user_subscription : Z -> option Subscription) (utcnow : string)
    (db db' : gmap Z SalesFunnel) (funnel_id : Z) (data : PlatformData)
    (summary : FeeSummary) :
  calculate_performance_fees get_user_subscription utcnow db funnel_id data
  = (Success summary, db') ->
  calculate_performance_fees get_user_subscription utcnow db' funnel_id data
  = (Success summary, db')
  /\ (forall other, other <> funnel_id -> db' !! other = db !! other)
  /\ (exists funnel stored rules rules',
        db !! funnel_id = Some funnel /\ db' !! funnel_id = Some stored
        /\ automation_rules funnel = RulesObject rules
        /\ automation_rules stored = RulesObject rules'
        /\ roi_baseline rules' = roi_baseline rules
        /\ user_id stored = user_id funnel
        /\ funnel_name stored = funnel_name funnel
        /\ total_investment stored = total_investment funnel).
Proof.
  unfold calculate_performance_fees.
  destruct (db !! funnel_id) as [funnel|] eqn:Hsome; [|discriminate].
  destruct (automation_rules funnel) as [rules|items] eqn:Hrules;
    [|discriminate].
  destruct (roi_baseline rules) as [rb|] eqn:Hbase; [|discriminate].
  intros [= <- <-]. rewrite lookup_insert_eq.
  cbn [automation_rules roi_baseline user_id funnel_name total_investment
       description target_market status stages_config].
  split; [|split].
  - by rewrite insert_insert_eq.
  - intros other Hne. by rewrite lookup_insert_ne.
  - eexists funnel, _, rules, _.
    split; [reflexivity|]. split; [reflexivity|]. split; [exact Hrules|].
    split; [reflexivity|]. by repeat split.
Qed.

Lemma performance_fees_idempotent_witness :
  exists summary db',
    calculate_performance_fees no_subscription "2024-03-01T00:00:00"
      {[ 7%Z := half_cent_funnel ]} 7 half_cent_payload
    = (Success summary, db')
    /\ calculate_performance_fees no_subscription "2024-03-01T00:00:00" db' 7
         half_cent_payload
       = (Success summary, db').
Proof.
  eexists _, _. split.
  - reflexivity.
  - eapply (performance_fees_idempotent no_subscription
              "2024-03-01T00:00:00" {[ 7%Z := half_cent_funnel ]} _ 7
              half_cent_payload).
    reflexivity.
Defined.

(** X14: after a successful performance-fee calculation the summary of the
    funnel reports an established baseline and active performance tracking,
    and shows the total fee, the fee rate, the revenues and the improvements
    of the result just returned. *)
Theorem summary_reports_latest_fees
    (get_user_subscription : Z -> option Subscription) (utcnow : string)
    (db db' : gmap Z SalesFunnel) (funnel_id : Z) (data : PlatformData)
    (fees : FeeSummary) :
  calculate_performance_fees get_user_subscription utcnow db funnel_id data
  = (Success fees, db') ->
  exists summary baseline performance,
    get_funnel_roi_summary db' funnel_id = Success summary
    /\ rs_baseline_established summary = true
    /\ rs_performance_tracking_active summary = true
    /\ rs_baseline summary = Some baseline
    /\ rs_current_performance summary = Some performance
    /\ pv_total_fees_due performance = fs_total_fees fees
    /\ pv_fee_rate performance = fs_fee_rate fees
    /\ pv_current_revenue performance = fs_current_revenue fees
    /\ pv_improvements performance = fs_qualifying_improvements fees
    /\ bv_baseline_revenue baseline = fs_baseline_revenue fees.
Proof.
  unfold calculate_performance_fees, get_funnel_roi_summary.
  destruct (db !! funnel_id) as [funnel|] eqn:Hsome; [|discriminate].
  destruct (automation_rules funnel) as [rules|items] eqn:Hrules;
    [|discriminate].
  destruct (roi_baseline rules) as [rb|] eqn:Hbase; [|discriminate].
  intros [= <- <-]. rewrite lookup_insert_eq.
  cbn [automation_rules roi_baseline latest_performance].
  eexists _, _, _. split; [reflexivity|].
  cbn. by repeat split.
Qed.

Lemma summary_reports_latest_fees_witness :
  exists fees db' summary performance,
    calculate_performance_fees no_subscription "2024-03-01T00:00:00"
      {[ 7%Z := half_cent_funnel ]} 7 half_cent_payload
    = (Success fees, db')
    /\ get_funnel_roi_summary db' 7 = Success summary
    /\ rs_current_performance summary = Some performance
    /\ pv_total_fees_due performance = fs_total_fees fees.
Proof.
  eassert (calculate_performance_fees no_subscription "2024-03-01T00:00:00"
             {[ 7%Z := half_cent_funnel ]} 7 half_cent_payload
           = (Success _, _)) as Hcall by reflexivity.
  destruct (summary_reports_latest_fees _ _ _ _ _ _ _ Hcall)
    as (summary & baseline & performance & Hsum & _ & _ & _ & Hperf & Hfee
        & _).
  eexists _, _, summary, performance. split; [exact Hcall|].
  split; [exact Hsum|]. split; [exact Hperf | exact Hfee].
Defined.

(** X23: the revenue_improvement that a successful performance-fee
    calculation reports is always 0, whatever the revenue did.  The result
    reads the percentage under the key revenue, and the comparator files the
    revenue under total_revenue; that entry, with the current revenue of the
    result, is among the qualifying improvements. *)
Theorem reported_revenue_improvement_is_zero
    (get_user_subscription : Z -> option Subscription) (utcnow : string)
    (db db' : gmap Z SalesFunnel) (funnel_id : Z) (data : PlatformData)
    (summary : FeeSummary) :
  calculate_performance_fees get_user_subscription utcnow db funnel_id data
  = (Success summary, db') ->
  fs_revenue_improvement summary = 0
  /\ fs_qualifying_improvements summary !! "revenue" = None
  /\ exists entry,
       fs_qualifying_improvements summary !! "total_revenue" = Some entry
       /\ imp_baseline entry = Some (fs_baseline_revenue summary)
       /\ imp_current entry = Some (fs_current_revenue summary).
Proof.
  unfold calculate_performance_fees.
  destruct (db !! funnel_id) as [funnel|]; [|discriminate].
  destruct (automation_rules funnel) as [rules|items]; [|discriminate].
  destruct (roi_baseline rules) as [rb|]; [|discriminate].
  intros [= <- _].
  cbn [fs_revenue_improvement fs_qualifying_improvements fs_baseline_revenue
       fs_current_revenue].
  set (improvements := _calculate_improvements _ _).
  assert (improvements !! "revenue" = None) as Hnone.
  { unfold improvements, _calculate_improvements, key_metrics.
    cbn [foldl]. by rewrite !lookup_insert_ne, lookup_empty. }
  split; [|split; [exact Hnone|]].
  - unfold Py.dict_get. by rewrite Hnone.
  - eexists. split.
    + unfold improvements.
      apply (calculate_improvements_lookup _ _ _ total_revenue_key).
    + unfold improvement. by destruct (Py.gt _ 0).
Qed.

Lemma reported_revenue_improvement_is_zero_witness :
  exists summary db' entry,
    calculate_performance_fees no_subscription "2024-03-01T00:00:00"
      {[ 7%Z := half_cent_funnel ]} 7 half_cent_payload
    = (Success summary, db')
    /\ fs_qualifying_improvements summary !! "total_revenue" = Some entry
    /\ get_percentage entry == 25
    /\ fs_revenue_improvement summary = 0.
Proof.
  eassert (calculate_performance_fees no_subscription "2024-03-01T00:00:00"
             {[ 7%Z := half_cent_funnel ]} 7 half_cent_payload
           = (Success _, _)) as Hcall by reflexivity.
  eexists _, _, _. split; [exact Hcall|].
  split; [reflexivity|]. split; [reflexivity|].
  exact (proj1 (reported_revenue_improvement_is_zero _ _ _ _ _ _ _ Hcall)).
Defined.

(** * Template recommendations *)

Lemma insert_by_score_perm (r : Recommendation) (l : list Recommendation) :
  insert_by_score r l ≡ₚ r :: l.
Proof.
  induction l as [|x rest IH]; cbn; [done|].
  destruct (rec_score x <=? rec_score r)%nat; [done|].
  rewrite IH. apply Permutation_swap.
Qed.

Lemma sort_by_score_perm (l : list Recommendation) : sort_by_score l ≡ₚ l.
Proof.
  induction l as [|x rest IH]; [done|].
  change (sort_by_score (x :: rest))
    with (insert_by_score x (sort_by_score rest)).
  by rewrite insert_by_score_perm, IH.
Qed.

Lemma insert_by_score_descending (r : Recommendation)
    (l : list Recommendation) :
  descending l -> descending (insert_by_score r l).
Proof.
  induction l as [|x rest IH]; cbn; [done|].
  intros [Hall Hrest].
  destruct (rec_score x <=? rec_score r)%nat eqn:Hle; cbn.
  - apply Nat.leb_le in Hle. split; [|done].
    apply Forall_cons_2; [exact Hle|].
    eapply Forall_impl; [exact Hall|]. cbn. lia.
  - apply Nat.leb_gt in Hle. split; [|by apply IH].
    rewrite insert_by_score_perm. apply Forall_cons_2; [lia | exact Hall].
Qed.

Lemma sort_by_score_descending (l : list Recommendation) :
  descending (sort_by_score l).
Proof.
  induction l as [|x rest IH]; [done|].
  change (sort_by_score (x :: rest))
    with (insert_by_score x (sort_by_score rest)).
  by apply insert_by_score_descending.
Qed.

Lemma descending_lookup (l : list Recommendation) (i j : nat)
    (a b : Recommendation) :
  descending l -> (i < j)%nat -> l !! i = Some a -> l !! j = Some b ->
  (rec_score b <= rec_score a)%nat.
Proof.
  revert i j. induction l as [|x rest IH]; intros i j Hdesc Hlt Hi Hj;
    [done|].
  destruct Hdesc as [Hall Hrest].
  destruct i as [|i], j as [|j]; try lia; cbn in Hi, Hj.
  - injection Hi as <-.
    by apply (proj1 (Forall_lookup _ _) Hall j b).
  - apply (IH i j); [done | lia | done | done].
Qed.

Lemma insert_by_score_stable (score : nat) (r : Recommendation)
    (l : list Recommendation) :
  filter (fun x => rec_score x = score) (insert_by_score r l)
  = filter (fun x => rec_score x = score) (r :: l).
Proof.
  induction l as [|x rest IH]; cbn; [done|].
  destruct (rec_score x <=? rec_score r)%nat eqn:Hle; [done|].
  apply Nat.leb_gt in Hle.
  rewrite (filter_cons _ x), IH, !filter_cons.
  repeat case_decide; try done; lia.
Qed.

Lemma sort_by_score_stable (score : nat) (l : list Recommendation) :
  filter (fun x => rec_score x = score) (sort_by_score l)
  = filter (fun x => rec_score x = score) l.
Proof.
  induction l as [|x rest IH]; [done|].
  change (sort_by_score (x :: rest))
    with (insert_by_score x (sort_by_score rest)).
  by rewrite insert_by_score_stable, !filter_cons, IH.
Qed.

(** X15: the recommendations are the scored templates, one for each
    template of the table, ordered by decreasing score; templates with equal
    scores keep the order of the table. *)
Theorem recommendations_sorted (templates : list (string * Template))
    (user_industry revenue_range : option string) :
  get_template_recommendations templates user_industry revenue_range
  ≡ₚ map (recommend user_industry revenue_range) templates
  /\ map rec_template_id
       (get_template_recommendations templates user_industry revenue_range)
     ≡ₚ map fst templates
  /\ (forall i j a b,
        (i < j)%nat ->
        get_template_recommendations templates user_industry revenue_range
          !! i = Some a ->
        get_template_recommendations templates user_industry revenue_range
          !! j = Some b ->
        (rec_score b <= rec_score a)%nat)
  /\ (forall score,
        filter (fun x => rec_score x = score)
          (get_template_recommendations templates user_industry
             revenue_range)
        = filter (fun x => rec_score x = score)
            (map (recommend user_industry revenue_range) templates)).
Proof.
  unfold get_template_recommendations. split; [|split; [|split]].
  - apply sort_by_score_perm.
  - rewrite sort_by_score_perm, map_map.
    assert (forall l : list (string * Template),
              map (fun x => rec_template_id
                              (recommend user_industry revenue_range x)) l
              = map fst l) as ->; [|done].
    induction l as [|[key template] rest IH]; cbn; [done|]. by rewrite IH.
  - intros i j a b. apply descending_lookup, sort_by_score_descending.
  - intros score. apply sort_by_score_stable.
Qed.

Lemma recommendations_sorted_witness :
  exists a b,
    (0 < 1)%nat
    /\ get_template_recommendations demo_templates (Some "SaaS"%string) None
         !! 0%nat = Some a
    /\ get_template_recommendations demo_templates (Some "SaaS"%string) None
         !! 1%nat = Some b
    /\ rec_template_id a = "b2b_saas"%string
    /\ (rec_score b <= rec_score a)%nat.
Proof.
  eassert (get_template_recommendations demo_templates (Some "SaaS"%string)
             None !! 0%nat = Some _) as Ha by reflexivity.
  eassert (get_template_recommendations demo_templates (Some "SaaS"%string)
             None !! 1%nat = Some _) as Hb by reflexivity.
  assert (0 < 1)%nat as Hlt by lia.
  eexists _, _. split; [exact Hlt|]. split; [exact Ha|].
  split; [exact Hb|]. split; [reflexivity|].
  exact (proj1 (proj2 (proj2 (recommendations_sorted demo_templates
                                (Some "SaaS"%string) None)))
           0%nat 1%nat _ _ Hlt Ha Hb).
Defined.

Lemma industry_match_points (user_industry : option string)
    (template_id : string) (template : Template) :
  ((industry_match user_industry template_id template).1 <= 50)%nat
  /\ (length (industry_match user_industry template_id template).2 <= 1)%nat
  /\ (absent user_industry ->
      industry_match user_industry template_id template = (0%nat, [])).
Proof.
  unfold industry_match, absent.
  destruct user_industry as [industry|]; [|by cbn; repeat split; lia].
  destruct (Str.truthy industry) eqn:Htruthy.
  - split_ifs; cbn; (split; [lia|]); (split; [lia|]); intros Hab;
      rewrite (Hab industry eq_refl) in Htruthy; discriminate.
  - cbn. repeat split; lia.
Qed.

Lemma revenue_match_points (revenue_range : option string)
    (template : Template) :
  ((revenue_match revenue_range template).1 <= 30)%nat
  /\ (length (revenue_match revenue_range template).2 <= 1)%nat
  /\ (absent revenue_range ->
      revenue_match revenue_range template = (0%nat, [])).
Proof.
  unfold revenue_match, absent.
  destruct revenue_range as [range|]; [|by cbn; repeat split; lia].
  destruct (tpl_target_revenue_range template) as [target|];
    [|by cbn; repeat split; lia].
  destruct (Str.truthy range) eqn:Htruthy; cbn [andb].
  - split_ifs; cbn; (split; [lia|]); (split; [lia|]); intros Hab;
      rewrite (Hab range eq_refl) in Htruthy; discriminate.
  - cbn. repeat split; lia.
Qed.

(** X16: a template scores 5 points for each of its quick wins, plus at most
    50 for the industry and at most 30 for the revenue range; it has at most
    four reasons; and when neither an industry nor a revenue range is given
    (absent or empty), its score is 5 times the number of its quick wins and
    its reasons are its first two quick wins. *)
Theorem recommendation_score_bounds (user_industry revenue_range : option string)
    (template_id : string) (template : Template) :
  (5 * length (tpl_quick_wins template)
   <= rec_score (recommend user_industry revenue_range
                   (template_id, template)))%nat
  /\ (rec_score (recommend user_industry revenue_range
                   (template_id, template))
      <= 80 + 5 * length (tpl_quick_wins template))%nat
  /\ (length (rec_reasons (recommend user_industry revenue_range
                             (template_id, template))) <= 4)%nat
  /\ (absent user_industry -> absent revenue_range ->
      rec_score (recommend user_industry revenue_range
                   (template_id, template))
      = (5 * length (tpl_quick_wins template))%nat
      /\ rec_reasons (recommend user_industry revenue_range
                        (template_id, template))
         = map (fun win =>
                  ("Quick win: " ++ String.substring 0 50 win ++ "...")%string)
               (take 2 (tpl_quick_wins template))).
Proof.
  destruct (industry_match_points user_industry template_id template)
    as (Hi1 & Hi2 & Hi3).
  destruct (revenue_match_points revenue_range template) as (Hr1 & Hr2 & Hr3).
  cbn [recommend rec_score rec_reasons].
  split; [lia|]. split; [lia|]. split.
  - rewrite !length_app, length_map, length_take. lia.
  - intros Hind Hrev. rewrite (Hi3 Hind), (Hr3 Hrev). cbn. split; [lia|done].
Qed.

Lemma recommendation_score_bounds_witness :
  absent (Some ""%string) /\ absent None
  /\ rec_score
       (recommend (Some ""%string) None
          ("dtc_ecommerce"%string,
           {| tpl_name := "DTC E-commerce Sales Funnel";
              tpl_description := "Optimized for direct-to-consumer brands";
              tpl_target_revenue_range := Some "$5M-$100M"%string;
              tpl_stages := [];
              tpl_benchmark_kpis := [];
              tpl_quick_wins := ["Implement exit-intent popups"%string;
                                 "Add cart abandonment email sequence"%string];
              tpl_automation_triggers := [] |}))
     = 10%nat.
Proof.
  assert (absent (Some ""%string)) as H1 by (by intros s [= <-]).
  assert (absent None) as H2 by (by intros s).
  split; [exact H1|]. split; [exact H2|].
  exact (proj1 (proj2 (proj2 (proj2
           (recommendation_score_bounds (Some ""%string) None _ _))) H1 H2)).
Defined.

Lemma descending_take (n : nat) (l : list Recommendation) :
  descending l -> descending (take n l).
Proof.
  revert n. induction l as [|x rest IH]; intros n Hdesc;
    [by destruct n|].
  destruct n as [|n]; [done|]. destruct Hdesc as [Hall Hrest].
  cbn. split; [by apply Forall_take | by apply IH].
Qed.

(** X17: the industry-match route returns the number of templates and the
    first three recommendations: the list it returns is the beginning of
    the list of recommendations, in the same order, three entries long, or
    all of it when the table has fewer templates; so it is ordered by
    decreasing score, and no recommendation left out scores more than one
    returned. *)
Theorem industry_match_top_three (templates : list (string * Template))
    (data : gmap string string) :
  im_total_templates (api_industry_match templates data) = length templates
  /\ length (im_recommendations (api_industry_match templates data))
     = Nat.min 3 (length templates)
  /\ descending (im_recommendations (api_industry_match templates data))
  /\ exists rest,
       get_template_recommendations templates
         (Some (Py.dict_get data "industry" ""%string))
         (Some (Py.dict_get data "revenue" ""%string))
       = im_recommendations (api_industry_match templates data) ++ rest
       /\ forall a b,
            a ∈ im_recommendations (api_industry_match templates data) ->
            b ∈ rest ->
            (rec_score b <= rec_score a)%nat.
Proof.
  unfold api_industry_match. cbn [im_total_templates im_recommendations].
  set (recs := get_template_recommendations templates _ _).
  assert (descending recs) as Hdesc by apply sort_by_score_descending.
  split; [done|]. split; [|split].
  - rewrite length_take. unfold recs, get_template_recommendations.
    by rewrite (Permutation_length (sort_by_score_perm _)), length_map.
  - by apply descending_take.
  - exists (drop 3 recs). split; [by rewrite take_drop|].
    intros a b Ha Hb.
    apply list_elem_of_lookup in Ha as [i Hi], Hb as [j Hj].
    rewrite lookup_drop in Hj.
    assert (i < 3)%nat as Hlt
      by (apply lookup_lt_Some in Hi; rewrite length_take in Hi; lia).
    rewrite lookup_take_lt in Hi by done.
    apply (descending_lookup recs i (3 + j) a b); [done|lia|done|done].
Qed.

Lemma industry_match_top_three_witness :
  length (im_recommendations
            (api_industry_match four_templates
               (<["industry" := "SaaS"%string]> ∅))) = 3%nat
  /\ exists rest a b,
       get_template_recommendations four_templates
         (Some (Py.dict_get (<["industry" := "SaaS"%string]> ∅)
                  "industry" ""%string))
         (Some (Py.dict_get (<["industry" := "SaaS"%string]> ∅)
                  "revenue" ""%string))
       = im_recommendations
           (api_industry_match four_templates
              (<["industry" := "SaaS"%string]> ∅)) ++ rest
       /\ a ∈ im_recommendations
               (api_industry_match four_templates
                  (<["industry" := "SaaS"%string]> ∅))
       /\ b ∈ rest
       /\ (rec_score b <= rec_score a)%nat.
Proof.
  destruct (industry_match_top_three four_templates
              (<["industry" := "SaaS"%string]> ∅))
    as (_ & Hlen & _ & rest & Hsplit & Htop).
  split; [exact Hlen|].
  eassert (_ ∈ im_recommendations
                 (api_industry_match four_templates
                    (<["industry" := "SaaS"%string]> ∅))) as Ha
    by (apply list_elem_of_here).
  assert (exists b, b ∈ rest) as [b Hb].
  { destruct rest as [|b rest]; [|exists b; apply list_elem_of_here].
    apply (f_equal length) in Hsplit. rewrite length_app, Hlen in Hsplit.
    discriminate Hsplit. }
  eexists rest, _, b. split; [exact Hsplit|]. split; [exact Ha|].
  split; [exact Hb|]. exact (Htop _ _ Ha Hb).
Defined.

(** * Funnels created from a template *)

(** X18: creating a funnel from a template that is not in the table fails
    with "Template <id> not found" and leaves the store as it was.  For a
    template of the table it succeeds, reports the id the database assigned
    and stores the new funnel under it, leaving the funnels under every
    other id as they were; provided that id was not in use, the store then
    holds one funnel more.  The new funnel belongs to the user, is active,
    is named by the custom name when one is given and not empty and by the
    template otherwise, takes its description and stages from the template
    and its target market from the template id, and holds the template's
    list of triggers as its automation rules. *)
Theorem create_funnel_from_template_spec (blank_funnel : SalesFunnel)
    (allocate_id : gmap Z SalesFunnel -> Z)
    (templates : list (string * Template)) (db : gmap Z SalesFunnel)
    (user : Z) (template_id : string) (custom_name : option string) :
  (find_template templates template_id = None ->
   create_funnel_from_template blank_funnel allocate_id templates db user
     template_id custom_name
   = (Failure ("Template " ++ template_id ++ " not found")%string, db))
  /\ (forall template,
        find_template templates template_id = Some template ->
        exists created db' funnel,
          create_funnel_from_template blank_funnel allocate_id templates db
            user template_id custom_name
          = (Success created, db')
          /\ cf_funnel_id created = allocate_id db
          /\ db' !! cf_funnel_id created = Some funnel
          /\ (forall other,
                other <> cf_funnel_id created ->
                db' !! other = db !! other)
          /\ (db !! allocate_id db = None -> size db' = S (size db))
          /\ cf_template_applied created = template_id
          /\ cf_stages_configured created = length (tpl_stages template)
          /\ cf_quick_wins created = tpl_quick_wins template
          /\ user_id funnel = user
          /\ status funnel = "active"%string
          /\ target_market funnel = template_id
          /\ description funnel = tpl_description template
          /\ stages_config funnel = tpl_stages template
          /\ automation_rules funnel
             = RulesArray (tpl_automation_triggers template)
          /\ (absent custom_name -> funnel_name funnel = tpl_name template)
          /\ (forall name,
                custom_name = Some name -> name <> ""%string ->
                funnel_name funnel = name)).
Proof.
  unfold create_funnel_from_template. split.
  - by intros ->.
  - intros template ->. eexists _, _, _.
    split; [reflexivity|].
    cbn [cf_funnel_id cf_stages_configured cf_template_applied
         cf_quick_wins].
    split; [reflexivity|]. split; [apply lookup_insert_eq|].
    split; [by intros other Hne; rewrite lookup_insert_ne|].
    split; [by intros Hfresh; rewrite map_size_insert_None|].
    cbn. repeat split.
    + intros Habsent. destruct custom_name as [name|]; [|done].
      by rewrite (Habsent name eq_refl).
    + intros name -> Hname. apply String.eqb_neq in Hname.
      unfold Str.truthy. by rewrite Hname.
Qed.

(** X19: a funnel created from a template cannot take a baseline.  Its
    automation rules are a list, so on the store the creation returns, the
    baseline calculation, the performance-fee calculation and the summary of
    the new funnel all fail with the message of the exception the list
    raises, and the two calculations leave the store as it was. *)
Theorem template_funnel_rejects_roi_operations (blank_funnel : SalesFunnel)
    (allocate_id : gmap Z SalesFunnel -> Z)
    (get_user_subscription : Z -> option Subscription) (utcnow : string)
    (templates : list (string * Template)) (db db' : gmap Z SalesFunnel)
    (user : Z) (template_id : string) (custom_name : option string)
    (created : CreatedFunnel) (data : PlatformData) :
  create_funnel_from_template blank_funnel allocate_id templates db user
    template_id custom_name
  = (Success created, db') ->
  calculate_baseline_metrics utcnow db' (cf_funnel_id created) data
  = (Failure list_setitem_error, db')
  /\ calculate_performance_fees get_user_subscription utcnow db'
       (cf_funnel_id created) data
     = (Failure list_get_error, db')
  /\ get_funnel_roi_summary db' (cf_funnel_id created)
     = Failure list_get_error.
Proof.
  unfold create_funnel_from_template.
  destruct (find_template templates template_id) as [template|];
    [|discriminate].
  intros [= <- <-]. cbn [cf_funnel_id].
  unfold calculate_baseline_metrics, calculate_performance_fees,
    get_funnel_roi_summary.
  by rewrite !lookup_insert_eq.
Qed.

Lemma create_funnel_from_template_spec_witness :
  find_template demo_templates "real_estate_x" = None
  /\ create_funnel_from_template blank_row next_id demo_templates ∅ 3
       "real_estate_x" None
     = (Failure "Template real_estate_x not found", ∅)
  /\ (∅ : gmap Z SalesFunnel) !! next_id ∅ = None
  /\ exists template created db' funnel,
       find_template demo_templates "b2b_saas" = Some template
       /\ create_funnel_from_template blank_row next_id demo_templates ∅ 3
            "b2b_saas" (Some "Pipeline"%string)
          = (Success created, db')
       /\ db' !! cf_funnel_id created = Some funnel
       /\ size db' = 1%nat
       /\ funnel_name funnel = "Pipeline"%string
       /\ automation_rules funnel
          = RulesArray (tpl_automation_triggers template).
Proof.
  assert (find_template demo_templates "real_estate_x" = None) as Hnone
    by reflexivity.
  assert ((∅ : gmap Z SalesFunnel) !! next_id ∅ = None) as Hfresh
    by reflexivity.
  eassert (find_template demo_templates "b2b_saas" = Some _) as Hsome
    by reflexivity.
  split; [exact Hnone|].
  split; [exact (proj1 (create_funnel_from_template_spec blank_row next_id
                          demo_templates ∅ 3 "real_estate_x" None) Hnone)|].
  split; [exact Hfresh|].
  destruct (proj2 (create_funnel_from_template_spec blank_row next_id
                     demo_templates ∅ 3 "b2b_saas" (Some "Pipeline"%string))
              _ Hsome)
    as (created & db' & funnel & Hcall & _ & Hrow & _ & Hsize & _ & _ & _
        & _ & _ & _ & _ & _ & Hrules & _ & Hname).
  eexists _, created, db', funnel. split; [exact Hsome|].
  split; [exact Hcall|]. split; [exact Hrow|].
  split; [exact (Hsize Hfresh)|].
  split; [by apply Hname | exact Hrules].
Defined.

Lemma template_funnel_rejects_roi_operations_witness :
  exists created db',
    create_funnel_from_template blank_row next_id demo_templates ∅ 3
      "dtc_ecommerce" None
    = (Success created, db')
    /\ calculate_baseline_metrics "2024-02-01T00:00:00" db'
         (cf_funnel_id created) shop_payload
       = (Failure list_setitem_error, db')
    /\ calculate_performance_fees no_subscription "2024-03-01T00:00:00"
         db' (cf_funnel_id created) shop_payload
       = (Failure list_get_error, db').
Proof.
  eassert (create_funnel_from_template blank_row next_id demo_templates ∅ 3
             "dtc_ecommerce" None = (Success _, _)) as Hcall by reflexivity.
  eexists _, _. split; [exact Hcall|].
  split.
  - exact (proj1 (template_funnel_rejects_roi_operations blank_row next_id
                    no_subscription "2024-02-01T00:00:00" demo_templates ∅ _
                    3 "dtc_ecommerce" None _ shop_payload Hcall)).
  - exact (proj1 (proj2 (template_funnel_rejects_roi_operations blank_row
                           next_id no_subscription "2024-03-01T00:00:00"
                           demo_templates ∅ _ 3 "dtc_ecommerce" None _
                           shop_payload Hcall))).
Defined.

Lemma industry_match_example :
  map rec_template_id
    (im_recommendations
       (api_industry_match demo_templates
          (<["industry" := "SaaS"%string]> ∅)))
  = ["b2b_saas"; "dtc_ecommerce"]%string
  /\ map rec_score
       (im_recommendations
          (api_industry_match demo_templates
             (<["industry" := "SaaS"%string]> ∅)))
     = [75; 25]%nat.
Proof. split; reflexivity. Qed.

(** * The Shopify connector's historical data *)

Lemma count_nonneg {A} (l : list A) : 0 <= count l.
Proof.
  unfold count. change 0 with (inject_Z 0). rewrite <- Zle_Qle. lia.
Qed.

(** A count is 0, for the empty list, or at least 1. *)
Lemma count_cases {A} (l : list A) :
  (l = [] /\ count l == 0) \/ (l <> [] /\ 1 <= count l).
Proof.
  destruct l as [|x l]; [left; by split|right]. split; [done|].
  unfold count. change 1 with (inject_Z 1). rewrite <- Zle_Qle.
  cbn [length]. lia.
Qed.

Lemma sum_prices_nonneg (orders : list (Response Q)) (acc revenue : Q) :
  0 <= acc ->
  Forall (fun order => forall price, order = Success price -> 0 <= price)
    orders ->
  sum_prices orders acc = Success revenue -> 0 <= revenue.
Proof.
  intros Hacc Hall. revert acc Hacc.
  induction Hall as [|order orders Horder _ IH]; intros acc Hacc; cbn.
  - by intros [= <-].
  - destruct order as [e|price]; [discriminate|].
    apply IH. specialize (Horder price eq_refl). lra.
Qed.

Lemma max_one_of_count (x : Q) : 1 <= x -> Py.max 1 x == x.
Proof.
  intros Hx. unfold Py.max. destruct (Py.gt x 1) eqn:Hgt; [reflexivity|].
  apply gt_false in Hgt. by apply Qle_antisym.
Qed.

Lemma max_one_of_zero (x : Q) : x == 0 -> Py.max 1 x = 1.
Proof.
  intros Hx. unfold Py.max.
  assert (Py.gt x 1 = false) as -> by (apply gt_false; lra). done.
Qed.

Lemma ratio_bounds (n d : Q) : 0 <= n -> n <= d -> 0 < d ->
  0 <= n / d * 100 /\ n / d * 100 <= 100.
Proof.
  intros Hn Hle Hd.
  assert (0 <= n / d) by (apply Qle_shift_div_l; [done | lra]).
  assert (n / d <= 1) by (apply Qle_shift_div_r; [done | lra]).
  split; lra.
Qed.

Lemma max_one_ge (x : Q) : x <= Py.max 1 x /\ 1 <= Py.max 1 x.
Proof.
  unfold Py.max. destruct (Py.gt x 1) eqn:Hgt.
  - apply gt_true in Hgt. split; lra.
  - apply gt_false in Hgt. split; lra.
Qed.

Lemma conversion_rate_bounds (n a : Q) : 0 <= n -> 0 <= a ->
  0 <= n / Py.max 1 (a + n) * 100 /\ n / Py.max 1 (a + n) * 100 <= 100.
Proof.
  intros Hn Ha. destruct (max_one_ge (a + n)) as [H1 H2].
  apply ratio_bounds; lra.
Qed.

Lemma abandonment_rate_bounds (n a : Q) : 0 <= n -> 0 <= a ->
  0 <= (if Py.gt (a + n) 0 then a / (a + n) else 0) * 100
  /\ (if Py.gt (a + n) 0 then a / (a + n) else 0) * 100 <= 100.
Proof.
  intros Hn Ha. destruct (Py.gt (a + n) 0) eqn:Hpos; [|split; lra].
  apply gt_true in Hpos. apply ratio_bounds; lra.
Qed.

Lemma zero_ratio (n d : Q) : n == 0 -> n / d * 100 == 0.
Proof. intros ->. unfold Qdiv. ring. Qed.

Lemma guarded_ratio_nonneg (x d : Q) : 0 <= x ->
  0 <= (if Py.gt d 0 then x / d else 0).
Proof.
  intros Hx. destruct (Py.gt d 0) eqn:Hd; [|apply Qle_refl].
  apply gt_true in Hd. apply Qle_shift_div_l; [done | lra].
Qed.

(** A successful call had its orders answered and every price read, and
    its result is the record built from the three lists. *)
Lemma shopify_success {P C : Type} (days : Z)
    (orders_response : Reply (list (Response Q)))
    (products_response : Reply (option (list P)))
    (checkout_response : Reply (option (list C))) (data : HistoricalData) :
  shopify_get_historical_data days orders_response products_response
    checkout_response = Success data ->
  exists orders revenue,
    orders_response = Answered orders
    /\ sum_prices orders 0 = Success revenue
    /\ hd_period_days data = days
    /\ hd_metrics data
       = Py.dict_update ∅
           [ ("total_orders", count orders);
             ("total_revenue", revenue);
             ("average_order_value",
               if Py.gt (count orders) 0 then revenue / count orders else 0);
             ("cart_abandonment_rate",
               (if Py.gt (count (listed checkout_response) + count orders) 0
                then count (listed checkout_response)
                     / (count (listed checkout_response) + count orders)
                else 0) * 100);
             ("total_products", count (listed products_response));
             ("abandoned_checkouts", count (listed checkout_response)) ]
    /\ hd_baseline_data data
       = Py.dict_update ∅
           [ ("conversion_rate",
               (count orders
                / Py.max 1 (count (listed checkout_response) + count orders))
               * 100);
             ("revenue_per_visitor",
               revenue
               / Py.max 1 (count (listed checkout_response) + count orders));
             ("checkout_completion_rate",
               (count orders
                / Py.max 1 (count (listed checkout_response) + count orders))
               * 100) ].
Proof.
  unfold shopify_get_historical_data.
  destruct orders_response as [e| |orders]; [discriminate..|].
  destruct (sum_prices orders 0) as [e|revenue] eqn:Hsum;
    destruct products_response as [e'| |products]; try discriminate;
    destruct checkout_response as [e''| |checkouts]; try discriminate;
    intros [= <-]; by eexists _, _.
Qed.

(** X20: the Shopify connector fails with "Failed to fetch orders" when the
    orders request is answered with a status other than 200, and with the
    message of the exception when a request or the reading of a price
    raises, in the order orders request, products request, prices, checkouts
    request; in every other case it succeeds.  On success it reports the
    numbers of orders and of abandoned checkouts and the sum of the prices;
    its conversion rate and cart abandonment rate are between 0 and 100;
    with no order the conversion rate and the average order value are 0,
    with no abandoned checkout the abandonment rate is 0, with orders and no
    abandoned checkout the conversion rate is 100, and with abandoned
    checkouts and no order the abandonment rate is 100. *)
Theorem shopify_historical_rates {P C : Type} (days : Z)
    (orders_response : Reply (list (Response Q)))
    (products_response : Reply (option (list P)))
    (checkout_response : Reply (option (list C))) :
  (orders_response = Refused ->
   shopify_get_historical_data days orders_response products_response
     checkout_response = Failure "Failed to fetch orders")
  /\ (forall e,
        orders_response = Raised e ->
        shopify_get_historical_data days orders_response products_response
          checkout_response = Failure e)
  /\ (forall orders,
        orders_response = Answered orders ->
        (forall e,
           products_response = Raised e ->
           shopify_get_historical_data days orders_response
             products_response checkout_response = Failure e)
        /\ ((forall e, products_response <> Raised e) ->
            (forall e,
               sum_prices orders 0 = Failure e ->
               shopify_get_historical_data days orders_response
                 products_response checkout_response = Failure e)
            /\ (forall revenue,
                  sum_prices orders 0 = Success revenue ->
                  (forall e,
                     checkout_response = Raised e ->
                     shopify_get_historical_data days orders_response
                       products_response checkout_response = Failure e)
                  /\ ((forall e, checkout_response <> Raised e) ->
                      exists data,
                        shopify_get_historical_data days orders_response
                          products_response checkout_response
                        = Success data))))
  /\ (forall data,
        shopify_get_historical_data days orders_response products_response
          checkout_response = Success data ->
        exists orders,
          orders_response = Answered orders
          /\ sum_prices orders 0
             = Success (Py.dict_get (hd_metrics data) "total_revenue" 0)
          /\ Py.dict_get (hd_metrics data) "total_orders" 0 = count orders
          /\ Py.dict_get (hd_metrics data) "abandoned_checkouts" 0
             = count (listed checkout_response)
          /\ 0 <= Py.dict_get (hd_baseline_data data) "conversion_rate" 0
          /\ Py.dict_get (hd_baseline_data data) "conversion_rate" 0 <= 100
          /\ 0 <= Py.dict_get (hd_metrics data) "cart_abandonment_rate" 0
          /\ Py.dict_get (hd_metrics data) "cart_abandonment_rate" 0 <= 100
          /\ (orders = [] ->
              Py.dict_get (hd_baseline_data data) "conversion_rate" 0 == 0
              /\ Py.dict_get (hd_metrics data) "average_order_value" 0 == 0)
          /\ (listed checkout_response = [] ->
              Py.dict_get (hd_metrics data) "cart_abandonment_rate" 0 == 0)
          /\ (orders <> [] -> listed checkout_response = [] ->
              Py.dict_get (hd_baseline_data data) "conversion_rate" 0
              == 100)
          /\ (orders = [] -> listed checkout_response <> [] ->
              Py.dict_get (hd_metrics data) "cart_abandonment_rate" 0
              == 100)).
Proof.
  split; [by intros ->|]. split; [by intros e ->|]. split.
  - intros orders ->. unfold shopify_get_historical_data. split.
    + by intros e ->.
    + intros Hproducts. split.
      * intros e ->.
        destruct products_response as [e'| |products];
          [by destruct (Hproducts e') | done | done].
      * intros revenue ->. split.
        -- intros e ->.
           destruct products_response as [e'| |products];
             [by destruct (Hproducts e') | done | done].
        -- intros Hcheckout.
           destruct products_response as [e'| |products];
             [by destruct (Hproducts e') | |];
             (destruct checkout_response as [e''| |checkouts];
              [by destruct (Hcheckout e'') | by eexists | by eexists]).
  - intros data Hcall.
    destruct (shopify_success _ _ _ _ _ Hcall)
      as (orders & revenue & -> & Hsum & _ & Hmetrics & Hbaseline).
    exists orders. split; [done|].
    rewrite Hmetrics, Hbaseline. dict_lookup.
    pose proof (count_nonneg orders) as Hn.
    pose proof (count_nonneg (listed checkout_response)) as Ha.
    pose proof (count_cases orders) as Hcases.
    pose proof (count_cases (listed checkout_response)) as Hcases'.
    set (n := count orders) in *.
    set (a := count (listed checkout_response)) in *.
    destruct (conversion_rate_bounds n a Hn Ha) as [Hc0 Hc100].
    destruct (abandonment_rate_bounds n a Hn Ha) as [Ha0 Ha100].
    split; [exact Hsum|]. split; [done|]. split; [done|].
    split; [exact Hc0|]. split; [exact Hc100|].
    split; [exact Ha0|]. split; [exact Ha100|].
    split; [|split; [|split]].
    + intros Ho. destruct Hcases as [[_ Hn0]|[Hne _]]; [|done].
      assert (Py.gt n 0 = false) as -> by (apply gt_false; lra).
      split; [by apply zero_ratio | reflexivity].
    + intros Hc. destruct Hcases' as [[_ Ha0']|[Hne _]]; [|done].
      destruct (Py.gt (a + n) 0); [by apply zero_ratio | reflexivity].
    + intros Ho Hc.
      destruct Hcases as [[Hnil _]|[_ Hn1]]; [done|].
      destruct Hcases' as [[_ Ha0']|[Hne _]]; [|done].
      rewrite (max_one_of_count (a + n)) by lra.
      rewrite Ha0'. field. lra.
    + intros Ho Hc.
      destruct Hcases as [[_ Hn0]|[Hne _]]; [|done].
      destruct Hcases' as [[Hnil _]|[_ Ha1]]; [done|].
      assert (Py.gt (a + n) 0 = true) as -> by (apply gt_true; lra).
      rewrite Hn0. field. lra.
Qed.

Lemma shopify_historical_rates_witness :
  exists data,
    shopify_get_historical_data 30 (Answered three_orders) one_product
      two_checkouts = Success data
    /\ Py.dict_get (hd_metrics data) "total_orders" 0 = count three_orders
    /\ Py.dict_get (hd_baseline_data data) "conversion_rate" 0 == 60
    /\ Py.dict_get (hd_baseline_data data) "conversion_rate" 0 <= 100.
Proof.
  eassert (shopify_get_historical_data 30 (Answered three_orders)
             one_product two_checkouts = Success _) as Hcall
    by reflexivity.
  destruct (proj2 (proj2 (proj2
              (shopify_historical_rates 30 (Answered three_orders)
                 one_product two_checkouts))) _ Hcall)
    as (orders & [= <-] & _ & Hcount & _ & _ & Hle & _).
  eexists. split; [exact Hcall|]. split; [exact Hcount|].
  split; [reflexivity | exact Hle].
Defined.

Lemma item_roi_update (standardized : gmap string Q) (k : string) :
  k <> "roi_percentage"%string ->
  item (roi_update standardized) k = item standardized k.
Proof.
  intros Hk. unfold roi_update.
  destruct (Py.gt _ 0); [|reflexivity].
  apply item_insert_ne. congruence.
Qed.

(** The standardized record is non-negative on non-negative input. *)
Lemma standardize_nonneg (platform : string)
    (metrics baseline_data : gmap string Q) :
  nonnegative metrics -> nonnegative baseline_data ->
  nonnegative (_standardize_baseline_metrics platform metrics baseline_data).
Proof.
  intros Hm Hb. unfold _standardize_baseline_metrics.
  apply lifetime_update_nonneg, roi_update_nonneg.
  - apply platform_update_nonneg; [done | done |].
    apply standardized_init_nonneg.
  - by apply platform_update_costs.
Qed.

(** The fields the mapper fills from a Shopify import. *)
Lemma standardize_shopify_items (metrics baseline_data : gmap string Q) :
  let std := _standardize_baseline_metrics "shopify" metrics baseline_data in
  item std "total_revenue" = Py.dict_get metrics "total_revenue" 0
  /\ item std "total_transactions" = Py.dict_get metrics "total_orders" 0
  /\ item std "conversion_rate" = Py.dict_get baseline_data "conversion_rate" 0
  /\ item std "average_order_value"
     = Py.dict_get metrics "average_order_value" 0
  /\ item std "total_leads"
     = Py.dict_get metrics "total_orders" 0
       + Py.dict_get metrics "abandoned_checkouts" 0
  /\ item std "customer_acquisition_cost"
     = _estimate_cac (Py.dict_get metrics "total_revenue" 0)
         (Py.dict_get metrics "total_orders" 0)
  /\ item std "lifetime_value"
     = (if Py.gt (Py.dict_get metrics "total_orders" 0) 0
        then Py.dict_get metrics "average_order_value" 0 * 2.5 else 0.0)
  /\ item std "operational_costs"
     = Py.dict_get metrics "total_revenue" 0 * 0.3.
Proof.
  cbn zeta. unfold _standardize_baseline_metrics.
  set (s := platform_update "shopify" metrics baseline_data
              standardized_init).
  assert (forall k, k <> "roi_percentage"%string ->
                    k <> "lifetime_value"%string ->
                    item (lifetime_update (roi_update s)) k = item s k)
    as Hkeep.
  { intros k H1 H2. by rewrite item_lifetime_update, item_roi_update. }
  rewrite !Hkeep by discriminate.
  assert (item (lifetime_update (roi_update s)) "lifetime_value"
          = if Py.gt (item s "total_transactions") 0
            then item s "average_order_value" * 2.5
            else item s "lifetime_value") as ->.
  { unfold lifetime_update. rewrite !item_roi_update by discriminate.
    destruct (Py.gt (item s "total_transactions") 0).
    - apply item_insert_eq.
    - by rewrite item_roi_update. }
  rewrite !Hkeep by discriminate.
  unfold s, platform_update, standardized_init.
  change (String.eqb "shopify" "shopify") with true. cbv iota.
  item_lookup. by repeat split.
Qed.

(** X21: on the metrics and baseline data the Shopify connector returns for
    orders whose prices are not negative, the standardized record has no
    negative field; its revenue is the sum of the prices, its transactions
    are the orders, its leads are the orders and the abandoned checkouts
    together, its conversion rate is at most 100, its operational costs are
    the revenue times 0.3, its customer acquisition cost is the estimate
    from that revenue and the number of orders and never exceeds the average
    order value, and its lifetime value is 2.5 times the average order
    value. *)
Theorem shopify_baseline_from_connector {P C : Type} (days : Z)
    (orders : list (Response Q))
    (products_response : Reply (option (list P)))
    (checkout_response : Reply (option (list C))) (data : HistoricalData) :
  shopify_get_historical_data days (Answered orders) products_response
    checkout_response = Success data ->
  Forall (fun order => forall price, order = Success price -> 0 <= price)
    orders ->
  nonnegative
    (_standardize_baseline_metrics "shopify" (hd_metrics data)
       (hd_baseline_data data))
  /\ sum_prices orders 0
     = Success
         (item (_standardize_baseline_metrics "shopify" (hd_metrics data)
                  (hd_baseline_data data)) "total_revenue")
  /\ item (_standardize_baseline_metrics "shopify" (hd_metrics data)
             (hd_baseline_data data)) "total_transactions" = count orders
  /\ item (_standardize_baseline_metrics "shopify" (hd_metrics data)
             (hd_baseline_data data)) "total_leads"
     = count orders + count (listed checkout_response)
  /\ item (_standardize_baseline_metrics "shopify" (hd_metrics data)
             (hd_baseline_data data)) "conversion_rate" <= 100
  /\ item (_standardize_baseline_metrics "shopify" (hd_metrics data)
             (hd_baseline_data data)) "operational_costs"
     = item (_standardize_baseline_metrics "shopify" (hd_metrics data)
               (hd_baseline_data data)) "total_revenue" * 0.3
  /\ item (_standardize_baseline_metrics "shopify" (hd_metrics data)
             (hd_baseline_data data)) "customer_acquisition_cost"
     = _estimate_cac
         (item (_standardize_baseline_metrics "shopify" (hd_metrics data)
                  (hd_baseline_data data)) "total_revenue")
         (count orders)
  /\ item (_standardize_baseline_metrics "shopify" (hd_metrics data)
             (hd_baseline_data data)) "customer_acquisition_cost"
     <= item (_standardize_baseline_metrics "shopify" (hd_metrics data)
                (hd_baseline_data data)) "average_order_value"
  /\ item (_standardize_baseline_metrics "shopify" (hd_metrics data)
             (hd_baseline_data data)) "lifetime_value"
     == 2.5 * item (_standardize_baseline_metrics "shopify"
                      (hd_metrics data) (hd_baseline_data data))
                "average_order_value".
Proof.
  intros Hcall Hprices.
  destruct (shopify_success _ _ _ _ _ Hcall)
    as (orders' & revenue & [= <-] & Hsum & _ & Hmetrics & Hbaseline).
  pose proof (count_nonneg orders) as Hn.
  pose proof (count_nonneg (listed checkout_response)) as Hab.
  pose proof (count_nonneg (listed products_response)) as Hprod.
  pose proof (sum_prices_nonneg orders 0 revenue (Qle_refl 0) Hprices Hsum)
    as Hrevenue.
  destruct (conversion_rate_bounds (count orders)
              (count (listed checkout_response)) Hn Hab) as [Hc0 Hc100].
  destruct (abandonment_rate_bounds (count orders)
              (count (listed checkout_response)) Hn Hab) as [Ha0 _].
  destruct (max_one_ge (count (listed checkout_response) + count orders))
    as [_ Hmax].
  split.
  { apply standardize_nonneg; rewrite ?Hmetrics, ?Hbaseline;
      unfold nonnegative; cbn [Py.dict_update foldl fst snd];
      repeat (apply map_Forall_insert_2; [|]); try apply map_Forall_empty;
      try done.
    - by apply guarded_ratio_nonneg.
    - apply Qle_shift_div_l; lra. }
  destruct (standardize_shopify_items (hd_metrics data) (hd_baseline_data data))
    as (Hrev & Htx & Hconv & Haov & Hleads & Hcac & Hltv & Hcosts).
  rewrite Hrev, Htx, Hconv, Haov, Hleads, Hcac, Hltv, Hcosts.
  rewrite Hmetrics, Hbaseline. dict_lookup.
  split; [exact Hsum|]. split; [done|]. split; [done|]. split; [done|].
  split; [done|]. split; [done|].
  unfold _estimate_cac.
  destruct (Py.gt (count orders) 0) eqn:Hgt.
  - apply gt_true in Hgt.
    assert (Qeq_bool (count orders) 0 = false) as ->.
    { apply not_true_iff_false. rewrite Qeq_bool_iff. lra. }
    split; [|ring].
    assert (0 <= revenue / count orders) as Haov0
      by (apply Qle_shift_div_l; [done | lra]).
    assert (revenue * 0.20 / count orders == 0.20 * (revenue / count orders))
      as -> by (field; lra).
    lra.
  - apply gt_false in Hgt.
    assert (Qeq_bool (count orders) 0 = true) as ->
      by (apply Qeq_bool_iff; lra).
    split; [discriminate | reflexivity].
Qed.

Lemma shopify_baseline_from_connector_witness :
  exists data,
    shopify_get_historical_data 30 (Answered three_orders) one_product
      two_checkouts = Success data
    /\ Forall (fun order => forall price, order = Success price -> 0 <= price)
         three_orders
    /\ nonnegative
         (_standardize_baseline_metrics "shopify" (hd_metrics data)
            (hd_baseline_data data))
    /\ item (_standardize_baseline_metrics "shopify" (hd_metrics data)
               (hd_baseline_data data)) "total_leads"
       = count three_orders + count (listed two_checkouts).
Proof.
  eassert (shopify_get_historical_data 30 (Answered three_orders)
             one_product two_checkouts = Success _) as Hcall
    by reflexivity.
  assert (Forall (fun order => forall price, order = Success price
                                             -> 0 <= price) three_orders)
    as Hprices.
  { unfold three_orders.
    repeat (apply Forall_cons_2; [by intros price [= <-]|]).
    apply Forall_nil_2. }
  eexists. split; [exact Hcall|]. split; [exact Hprices|].
  destruct (shopify_baseline_from_connector 30 _ _ _ _ Hcall Hprices)
    as (Hnonneg & _ & _ & Hleads & _).
  split; [exact Hnonneg | exact Hleads].
Defined.

(** * The create-from-template route *)

(** X22: the route replies 200, 400 or 403.  It replies 200 only when the
    request names a template, the usage check allows it and the template is
    in the table; it then adds the one row the service created and logs one
    usage event for the new funnel.  With any other reply the store and the
    usage log are as they were. *)
Theorem create_route_creates_only_when_allowed (blank_funnel : SalesFunnel)
    (allocate_id : gmap Z SalesFunnel -> Z)
    (check_usage_limits : Z -> string -> UsageCheck)
    (templates : list (string * Template)) (current_user : Z)
    (data : gmap string string) (db : gmap Z SalesFunnel)
    (usage : list UsageEvent) :
  let result :=
    api_create_from_template blank_funnel allocate_id check_usage_limits
      templates current_user data db usage in
  (result.1.1.1 = 200%Z \/ result.1.1.1 = 400%Z \/ result.1.1.1 = 403%Z)
  /\ (result.1.1.1 <> 200%Z -> result.1.2 = db /\ result.2 = usage)
  /\ (result.1.1.1 = 200%Z ->
      uc_allowed (check_usage_limits current_user "sales_funnels") = true
      /\ exists template_id template funnel,
           data !! "template_id" = Some template_id
           /\ template_id <> ""%string
           /\ find_template templates template_id = Some template
           /\ result.1.1.2
              = CreatedBody (allocate_id db)
                  ("/sales-funnel/funnel/" ++ str_of_int (allocate_id db))
           /\ result.1.2 = <[allocate_id db := funnel]> db
           /\ user_id funnel = current_user
           /\ automation_rules funnel
              = RulesArray (tpl_automation_triggers template)
           /\ result.2
              = usage
                ++ [ {| ue_user := current_user;
                        ue_resource := "sales_funnels";
                        ue_item := str_of_int (allocate_id db);
                        ue_template_id := template_id |} ]).
Proof.
  cbn zeta. unfold api_create_from_template.
  destruct (data !! "template_id") as [template_id|] eqn:Hid;
    [|cbn; split; [by right; left|]; split; [done|]; intros [=]].
  destruct (Str.truthy template_id) eqn:Htruthy;
    [|cbn; split; [by right; left|]; split; [done|]; intros [=]].
  destruct (uc_allowed (check_usage_limits current_user "sales_funnels"))
    eqn:Hallowed;
    [|cbn; split; [by right; right|]; split; [done|]; intros [=]].
  unfold create_funnel_from_template.
  destruct (find_template templates template_id) as [template|] eqn:Hfind;
    [|cbn; split; [by right; left|]; split; [done|]; intros [=]].
  cbn. split; [by left|]. split; [done|]. intros _. split; [done|].
  eexists template_id, template, _.
  split; [done|]. split.
  { intros ->. discriminate Htruthy. }
  by repeat split.
Qed.

Lemma create_route_example :
  (api_create_from_template blank_row next_id generous demo_templates 3
     (<["template_id" := "b2b_saas"%string]> ∅) ∅ []).1.1
  = (200%Z, CreatedBody 1 "/sales-funnel/funnel/1")
  /\ api_create_from_template blank_row next_id exhausted demo_templates 3
       (<["template_id" := "b2b_saas"%string]> ∅) ∅ []
     = ((403%Z, ErrorBody "Funnel limit reached" (Some true)), ∅, [])
  /\ api_create_from_template blank_row next_id generous demo_templates 3
       (<["custom_name" := "Pipeline"%string]> ∅) ∅ []
     = ((400%Z, ErrorBody "Template ID is required" None), ∅, []).
Proof. repeat split. Qed.

Lemma create_route_creates_only_when_allowed_witness :
  (api_create_from_template blank_row next_id generous demo_templates 3
     (<["template_id" := "b2b_saas"%string]> ∅) ∅ []).1.1.1 = 200%Z
  /\ uc_allowed (generous 3 "sales_funnels") = true
  /\ (api_create_from_template blank_row next_id exhausted demo_templates 3
        (<["template_id" := "b2b_saas"%string]> ∅) ∅ []).1.1.1 <> 200%Z
  /\ (api_create_from_template blank_row next_id exhausted demo_templates 3
        (<["template_id" := "b2b_saas"%string]> ∅) ∅ []).1.2 = ∅.
Proof.
  assert ((api_create_from_template blank_row next_id generous demo_templates
             3 (<["template_id" := "b2b_saas"%string]> ∅) ∅ []).1.1.1
          = 200%Z) as Hok by reflexivity.
  assert ((api_create_from_template blank_row next_id exhausted
             demo_templates 3 (<["template_id" := "b2b_saas"%string]> ∅) ∅
             []).1.1.1 <> 200%Z) as Hno by discriminate.
  split; [exact Hok|].
  split; [exact (proj1 (proj2 (proj2
                   (create_route_creates_only_when_allowed blank_row next_id
                      generous demo_templates 3
                      (<["template_id" := "b2b_saas"%string]> ∅) ∅ []))
                   Hok))|].
  split; [exact Hno|].
  exact (proj1 (proj1 (proj2
           (create_route_creates_only_when_allowed blank_row next_id
              exhausted demo_templates 3
              (<["template_id" := "b2b_saas"%string]> ∅) ∅ [])) Hno)).
Defined.
